(** * openapi-to-mcpserver: adapter, executor and server glue

    A shallow embedding of [adapter.ts] (tool names, the type mapper, the
    parameter merge, [adaptOpenAPIToSdkTools]), of [apiCaller.ts]
    ([executeApiCall]), of [parser.ts], of the registration, the tool
    handler, the SSE routes and the start-up of [server.ts], and of the
    [serve] command of [index.ts], with the properties the specification
    states about them.

    Conventions of the embedding.
    - A JavaScript string is a [string]: one [ascii] per UTF-16 code unit,
      so the strings covered are those of code units below 256 (no
      surrogate, hence nothing [encodeURIComponent] rejects).
    - A value is what JSON delivers, or [undefined].  A number is an
      integer [n : Z] and stands for the double nearest to [n]; it prints
      as [Number.prototype.toString] prints that double.
    - A plain object used as a dictionary ([headers], [queryParams],
      [zodShape], the arguments of a call, the tables of the server) is a
      [gmap string _] of its own properties.  Reading a name goes through
      the prototype: a name that the object does not own and that
      [Object.prototype] has is not [undefined].  Assigning under
      [__proto__] makes no own property.
    - A [Map] (whose iteration order is observable) and an object whose
      keys are enumerated are association lists, in enumeration order.
    - [console] output and the requests handed to [axios] are recorded in
      an explicit world threaded through the code; a thrown error is a
      result of its own.  [String(v)] and a template literal throw for an
      object that cannot be converted.
    - The descriptors that [zod] builds are the constructors of a data
      type.  [Buffer.from(s, 'base64')] and [buf.toString('base64')] are
      Node's: the decoder is the lenient one, which skips what is not
      base64 and never throws. *)

From Stdlib Require Import String Ascii List ZArith NArith Lia Bool DecimalString.
From Stdlib.Strings Require Import Byte.
From stdpp Require Import base option list gmap strings.
Import ListNotations.

Set Warnings "-register-all".

Open Scope string_scope.
Open Scope list_scope.

(** ** JavaScript strings *)

Module JsString.

Definition code (c : ascii) : N := N_of_ascii c.

Definition in_range (lo hi : N) (c : ascii) : bool :=
  (N.leb lo (code c) && N.leb (code c) hi)%bool.

Definition is_lower (c : ascii) : bool := in_range 97 122 c.
Definition is_upper (c : ascii) : bool := in_range 65 90 c.
Definition is_digit (c : ascii) : bool := in_range 48 57 c.
Definition is_underscore (c : ascii) : bool := N.eqb (code c) 95.

(** [String.prototype.toLowerCase] on one code unit below 256: the ASCII
    capitals and the Latin-1 capitals U+00C0..U+00DE (U+00D7, the
    multiplication sign, apart) move up by 32. *)
Definition lower_char (c : ascii) : ascii :=
  if (is_upper c || (in_range 192 222 c && negb (N.eqb (code c) 215)))%bool
  then ascii_of_N (code c + 32)
  else c.

Fixpoint map (f : ascii -> ascii) (s : string) : string :=
  match s with
  | EmptyString => EmptyString
  | String c r => String (f c) (map f r)
  end.

Definition toLowerCase (s : string) : string := map lower_char s.

(** [String.prototype.toUpperCase] on the ASCII letters, which is all the
    adapter applies it to (the HTTP verbs). *)
Definition upper_char (c : ascii) : ascii :=
  if is_lower c then ascii_of_N (code c - 32) else c.

Definition toUpperCase (s : string) : string := map upper_char s.

(** [s.replace(/[^...]/g, '_')] for a character class given by [keep]. *)
Definition replace_outside (keep : ascii -> bool) (s : string) : string :=
  map (fun c => if keep c then c else "_"%char) s.

(** [s.split(sep)] for a one-character separator: never the empty list. *)
Fixpoint split (sep : ascii) (s : string) : list string :=
  match s with
  | EmptyString => [EmptyString]
  | String c r =>
      if Ascii.eqb c sep then EmptyString :: split sep r
      else match split sep r with
           | [] => [String c EmptyString]
           | w :: ws => String c w :: ws
           end
  end.

(** [parts.join(sep)] *)
Fixpoint join (sep : string) (parts : list string) : string :=
  match parts with
  | [] => EmptyString
  | [p] => p
  | p :: ps => p ++ sep ++ join sep ps
  end.

(** Truthiness of a string: the empty string is falsy. *)
Definition truthy (s : string) : bool :=
  match s with EmptyString => false | _ => true end.

Definition startsWith (s p : string) : bool := String.prefix p s.

Fixpoint includes (s sub : string) : bool :=
  (String.prefix sub s ||
   match s with
   | EmptyString => false
   | String _ r => includes r sub
   end)%bool.

Fixpoint endsWith_char (s : string) (c : ascii) : bool :=
  match s with
  | EmptyString => false
  | String d EmptyString => Ascii.eqb d c
  | String _ r => endsWith_char r c
  end.

(** [s.slice(0, -1)] *)
Fixpoint drop_last (s : string) : string :=
  match s with
  | EmptyString => EmptyString
  | String _ EmptyString => EmptyString
  | String c r => String c (drop_last r)
  end.

Fixpoint skip (n : nat) (s : string) : string :=
  match n, s with
  | O, _ => s
  | S _, EmptyString => EmptyString
  | S k, String _ r => skip k r
  end.

(** [s.replace(pat, rep)] for a string pattern: the first occurrence only.
    [rep] is inserted literally, which is what JavaScript does when [rep]
    holds no dollar sign. *)
Fixpoint replace_first (pat rep s : string) : string :=
  if String.prefix pat s then rep ++ skip (String.length pat) s
  else match s with
       | EmptyString => EmptyString
       | String c r => String c (replace_first pat rep r)
       end.

End JsString.

(** ** adapter.ts: tool names *)

(** An optional string under a truthiness test: [undefined] and the
    empty string are falsy. *)
Definition truthy_opt (o : option string) : option string :=
  match o with
  | Some s => if JsString.truthy s then Some s else None
  | None => None
  end.

(** [/[^a-zA-Z0-9_]/] *)
Definition id_char (c : ascii) : bool :=
  (JsString.is_lower c || JsString.is_upper c || JsString.is_digit c
   || JsString.is_underscore c)%bool.

(** [/[^a-z0-9_]/] *)
Definition path_char (c : ascii) : bool :=
  (JsString.is_lower c || JsString.is_digit c || JsString.is_underscore c)%bool.

(** [operationId] is [operation.operationId], the one field of the
    operation that the function reads. *)
Definition generateFunctionName (method path : string) (operationId : option string)
  : string :=
  match truthy_opt operationId with
  | Some id => JsString.replace_outside id_char id
  | None =>
      let pathParts :=
        filter (fun p => JsString.truthy p = true)
          (JsString.split "_"
             (JsString.replace_outside path_char (JsString.toLowerCase path))) in
      JsString.toLowerCase method ++ "_" ++ JsString.join "_" pathParts
  end.


(** ** JavaScript values *)

(** A value as JSON delivers it, with [undefined]. *)
Inductive value : Type :=
| VUndefined
| VNull
| VBool (b : bool)
| VNumber (n : Z)
| VString (s : string)
| VArray (elements : list value)
| VObject (fields : list (string * value)).

(** The decimal digits of an integer. *)
Definition Z_toString (n : Z) : string :=
  DecimalString.NilZero.string_of_int (Z.to_int n).

(** Numbers: the doubles that are integers, and the two infinities. *)
Module JsNumber.

Inductive t : Type :=
| Finite (n : Z)
| Infinity (negative : bool).

(** The double nearest to a positive integer: 53 significant bits, a tie
    going to the even one. *)
Definition nearest (m : Z) : Z :=
  if Z.ltb m (2 ^ 53) then m
  else
    let e := (Z.log2 m - 52)%Z in
    let q := Z.shiftr m e in
    let r := (m - Z.shiftl q e)%Z in
    let half := Z.shiftl 1 (e - 1) in
    let q :=
      if (Z.ltb half r || (Z.eqb r half && Z.odd q))%bool then (q + 1)%Z else q in
    Z.shiftl q e.

(** The Number value for an integer. *)
Definition ofZ (n : Z) : t :=
  let m := nearest (Z.abs n) in
  if Z.leb (2 ^ 1024) m then Infinity (Z.ltb n 0)
  else Finite (if Z.ltb n 0 then - m else m)%Z.

Definition digits (m : Z) : Z := Z.of_nat (String.length (Z_toString m)).

(** The shortest decimal [s * 10 ^ e] that reads back as the double [x]
    of [n] digits, [s] of [k] digits or more; of two candidates of one
    length the nearer to [x], and of two equally near the even one. *)
Fixpoint shortest (fuel : nat) (k x n : Z) : Z * Z :=
  match fuel with
  | O => (x, 0%Z)
  | S fuel =>
      if Z.leb n k then (x, 0%Z)
      else
        let p := (10 ^ (n - k))%Z in
        let lo := (x / p)%Z in
        let hi := (lo + 1)%Z in
        let r := (x - lo * p)%Z in
        let below := Z.eqb (nearest (lo * p)) x in
        let above := Z.eqb (nearest (hi * p)) x in
        let up :=
          (above && (negb below || Z.ltb (p - r) r
                     || (Z.eqb (p - r) r && Z.odd lo)))%bool in
        if up then
          if Z.eqb hi (10 ^ k) then (1%Z, n) else (hi, (n - k)%Z)
        else if below then (lo, (n - k)%Z)
        else shortest fuel (k + 1)%Z x n
  end.

Fixpoint zeros (n : nat) : string :=
  match n with O => EmptyString | S k => String "0" (zeros k) end.

(** [Number.prototype.toString] on a positive double: the digits, then
    zeros up to 21 places, the exponent form beyond. *)
Definition positive (x : Z) : string :=
  let '(s, e) := shortest 17 1 x (digits x) in
  let text := Z_toString s in
  let n := (digits s + e)%Z in
  if Z.leb n 21 then (text ++ zeros (Z.to_nat e))%string
  else
    match text with
    | String d EmptyString => String d ("e+" ++ Z_toString (n - 1))%string
    | String d more =>
        String d ("." ++ more ++ "e+" ++ Z_toString (n - 1))%string
    | EmptyString => EmptyString
    end.

Definition toString (x : t) : string :=
  match x with
  | Finite n =>
      if Z.eqb n 0 then "0"
      else if Z.ltb n 0 then ("-" ++ positive (- n))%string
      else positive n
  | Infinity false => "Infinity"
  | Infinity true => "-Infinity"
  end.

End JsNumber.

(** Truthiness, as [if (v)] and [v || d] test it. *)
Definition truthy (v : value) : bool :=
  match v with
  | VUndefined | VNull | VBool false => false
  | VNumber n => negb (Z.eqb n 0)
  | VString s => JsString.truthy s
  | _ => true
  end.

(** Reading a key of an object given by its entries. *)
Fixpoint get {A : Type} (o : list (string * A)) (k : string) : option A :=
  match o with
  | [] => None
  | (k', a) :: r => if String.eqb k' k then Some a else get r k
  end.

(** A JavaScript [Map]: [set] on a key already present replaces the value
    and keeps the key's place; [values()] follows insertion order. *)
Module Map_.

Fixpoint set {V : Type} (k : string) (v : V) (m : list (string * V))
  : list (string * V) :=
  match m with
  | [] => [(k, v)]
  | (k', v') :: r =>
      if String.eqb k' k then (k', v) :: r else (k', v') :: set k v r
  end.

Definition values {V : Type} (m : list (string * V)) : list V := List.map snd m.

End Map_.

(** ** Plain objects and their prototype *)

(** The property names that every plain object inherits. *)
Definition ObjectPrototype : list string :=
  ["constructor"; "__defineGetter__"; "__defineSetter__"; "hasOwnProperty";
   "__lookupGetter__"; "__lookupSetter__"; "isPrototypeOf";
   "propertyIsEnumerable"; "toString"; "valueOf"; "__proto__";
   "toLocaleString"].

Definition inherited (name : string) : bool :=
  existsb (String.eqb name) ObjectPrototype.

(** [o[k] = v] on a plain object: under [__proto__] the assignment goes
    to the accessor of the prototype and makes no own property. *)
Definition assign {A : Type} (o : gmap string A) (k : string) (v : A)
  : gmap string A :=
  if String.eqb k "__proto__" then o else <[k := v]> o.

(** What reading a name from the arguments of a call gives: a value of
    the call ([undefined] where there is none), or what every object
    inherits under that name: a built-in function, or the prototype
    itself under [__proto__]. *)
Inductive Arg : Type :=
| Given (v : value)
| Builtin (name : string).

(** What travels as a body: a value, or a buffer of bytes. *)
Inductive carried (A : Type) : Type :=
| Plain (v : A)
| Bytes (b : list byte).
Arguments Plain {A} v.
Arguments Bytes {A} b.

(** A body received, and a result. *)
Definition payload : Type := carried value.

Definition truthy_payload (d : payload) : bool :=
  match d with Plain v => truthy v | Bytes _ => true end.

Inductive ResponseType : Type := json | arraybuffer.

Module AxiosRequestConfig.
Record t : Type :=
  { method : string;
    url : string;
    headers : gmap string string;
    params : gmap string Arg;
    data : carried Arg;
    responseType : ResponseType }.
End AxiosRequestConfig.

Module AxiosResponse.
Record t : Type :=
  { status : Z;
    headers : gmap string string;
    data : payload }.
End AxiosResponse.

(** ** Errors *)

(** A thrown JavaScript error: its [message], and the [response] that an
    error of [axios] carries when the server answered. *)
Module Exn.
Record t : Type :=
  { message : string;
    response : option AxiosResponse.t }.
End Exn.

Definition Error_ (message : string) : Exn.t :=
  {| Exn.message := message; Exn.response := None |}.

Inductive completion (A : Type) : Type :=
| Normal (a : A)
| Throw (e : Exn.t).
Arguments Normal {A} a.
Arguments Throw {A} e.

(** The [TypeError] of a conversion that finds no primitive. *)
Definition cannotConvert : Exn.t :=
  Error_ "Cannot convert object to primitive value".

(** [parts.join(',')] over conversions that may throw: the first that
    throws is the outcome. *)
Fixpoint joined (parts : list (completion string)) : completion string :=
  match parts with
  | [] => Normal EmptyString
  | [p] => p
  | p :: ps =>
      match p with
      | Throw e => Throw e
      | Normal s =>
          match joined ps with
          | Throw e => Throw e
          | Normal r => Normal (s ++ "," ++ r)%string
          end
      end
  end.

(** [String(v)], which is also what a template literal applies.  An
    array joins its elements, [null] and [undefined] as empty strings.
    An object is asked for its [toString] and then its [valueOf]: the
    inherited [toString] answers [[object Object]]; an own [toString]
    holds data, which cannot be called, and the inherited [valueOf]
    returns the object, so the conversion throws. *)
Fixpoint String_ (v : value) : completion string :=
  match v with
  | VUndefined => Normal "undefined"
  | VNull => Normal "null"
  | VBool true => Normal "true"
  | VBool false => Normal "false"
  | VNumber n => Normal (JsNumber.toString (JsNumber.ofZ n))
  | VString s => Normal s
  | VArray elements =>
      joined (List.map (fun e => match e with
                                 | VUndefined | VNull => Normal EmptyString
                                 | _ => String_ e
                                 end) elements)
  | VObject fields =>
      match get fields "toString" with
      | Some _ => Throw cannotConvert
      | None => Normal "[object Object]"
      end
  end.

(** The source text of a built-in function. *)
Definition nativeCode (name : string) : string :=
  ("function " ++ name ++ "() { [native code] }")%string.

(** [String(v)] on what was read from the arguments. *)
Definition String_arg (a : Arg) : completion string :=
  match a with
  | Given v => String_ v
  | Builtin name =>
      Normal (if String.eqb name "__proto__" then "[object Object]"
              else if String.eqb name "constructor" then nativeCode "Object"
              else nativeCode name)
  end.

(** ** adapter.ts: the type mapper *)

(** Where the dereferenced document may still hold a [{ $ref }] object. *)
Inductive ReferenceOr (A : Type) : Type :=
| Ref (ref : string)
| Obj (a : A).
Arguments Ref {A} ref.
Arguments Obj {A} a.

(** [OpenAPIV3.SchemaObject]: the fields the adapter reads.  A field that
    the document leaves out is [None]. *)
Inductive SchemaObject : Type :=
| Schema
    (type : option string)
    (format : option string)
    (enum : option (list value))
    (items : option (ReferenceOr SchemaObject))
    (properties : option (list (string * ReferenceOr SchemaObject)))
    (additionalProperties : option (bool + ReferenceOr SchemaObject))
    (x_body_name : option string).

Definition schema_type (s : SchemaObject) : option string :=
  match s with Schema t _ _ _ _ _ _ => t end.
Definition schema_format (s : SchemaObject) : option string :=
  match s with Schema _ f _ _ _ _ _ => f end.
Definition schema_enum (s : SchemaObject) : option (list value) :=
  match s with Schema _ _ e _ _ _ _ => e end.
Definition schema_x_body_name (s : SchemaObject) : option string :=
  match s with Schema _ _ _ _ _ _ x => x end.

(** The descriptors that the calls into [zod] build; [z.enum] keeps
    what it is given. *)
Inductive ZodCheck : Type := datetime | date | base64 | int.

Inductive ZodTypeAny : Type :=
| ZodAny
| ZodString (checks : list ZodCheck)
| ZodEnum (values : value)
| ZodNumber (checks : list ZodCheck)
| ZodBoolean
| ZodArray (element : ZodTypeAny)
| ZodObject (shape : list (string * ZodTypeAny)) (catchall : option ZodTypeAny)
| ZodRecord (key val : ZodTypeAny)
| ZodOptional (inner : ZodTypeAny)
| ZodDescribed (inner : ZodTypeAny) (description : string).

Definition format_is (f : option string) (name : string) : bool :=
  match f with Some g => String.eqb g name | None => false end.

(** [shape[propName] = ...] on the object literal handed to [z.object]:
    its own properties, in enumeration order. *)
Definition shapeSet (shape : list (string * ZodTypeAny)) (k : string)
  (v : ZodTypeAny) : list (string * ZodTypeAny) :=
  if String.eqb k "__proto__" then shape else Map_.set k v shape.

Definition shapeOf (entries : list (string * ZodTypeAny))
  : list (string * ZodTypeAny) :=
  fold_left (fun shape e => shapeSet shape (fst e) (snd e)) entries [].

(** [openApiTypeToZod] on a node of the declared type, below its
    [if (!schema)] test; the recursion is on the schema node. *)
Fixpoint schemaToZod (schema : SchemaObject) : ZodTypeAny :=
  match schema with
  | Schema type format enum items properties additionalProperties _ =>
      match type with
      | None => ZodAny
      | Some t =>
          if String.eqb t "string" then
            match enum with
            | Some vs => ZodEnum (VArray vs)
            | None =>
                if format_is format "date-time" then ZodString [datetime]
                else if format_is format "date" then ZodString [date]
                else if format_is format "byte" then ZodString [base64]
                else if format_is format "binary" then ZodAny
                else ZodString []
            end
          else if String.eqb t "integer" then ZodNumber [int]
          else if String.eqb t "number" then ZodNumber []
          else if String.eqb t "boolean" then ZodBoolean
          else if String.eqb t "array" then
            match items with
            | Some (Ref _) => ZodArray ZodAny
            | Some (Obj i) => ZodArray (schemaToZod i)
            | None => ZodArray ZodAny
            end
          else if String.eqb t "object" then
            match properties with
            | Some props =>
                let shape :=
                  shapeOf
                    (List.map (fun kv : string * ReferenceOr SchemaObject =>
                                 (fst kv,
                                  match snd kv with
                                  | Ref _ => ZodAny
                                  | Obj p => schemaToZod p
                                  end)) props) in
                match additionalProperties with
                | Some (inl true) => ZodObject shape (Some ZodAny)
                | Some (inr (Obj a)) => ZodObject shape (Some (schemaToZod a))
                | _ => ZodObject shape None
                end
            | None =>
                match additionalProperties with
                | Some (inl false) | None => ZodObject [] None
                | Some _ => ZodRecord (ZodString []) ZodAny
                end
            end
          else ZodAny
      end
  end.

Definition openApiTypeToZod (schema : option SchemaObject) : ZodTypeAny :=
  match schema with
  | None => ZodAny
  | Some s => schemaToZod s
  end.

(** [openApiTypeToZod] on whatever a document holds in the place of a
    schema: the function as JavaScript runs it, without the help of the
    declared type. *)
Module Untyped.

(** [node.k] for the names that the mapper reads, none of which is
    inherited or a property of a string, a number or an array. *)
Definition field (node : value) (k : string) : value :=
  match node with
  | VObject fields =>
      match get fields k with Some v => v | None => VUndefined end
  | _ => VUndefined
  end.

(** A primitive as the message of a [TypeError] shows it. *)
Definition shownPrimitive (v : value) : string :=
  match String_ v with Normal s => s | Throw _ => EmptyString end.

(** ['$ref' in x]: a [TypeError] unless [x] is an object. *)
Definition hasRef (x : value) : completion bool :=
  match x with
  | VObject fields =>
      Normal match get fields "$ref" with Some _ => true | None => false end
  | VArray _ => Normal false
  | _ =>
      Throw (Error_ ("Cannot use 'in' operator to search for '$ref' in "
                     ++ shownPrimitive x))
  end.

(** [typeof x === 'object'] *)
Definition isObject (x : value) : bool :=
  match x with VNull | VArray _ | VObject _ => true | _ => false end.

Definition indexed {A : Type} (l : list A) : list (string * A) :=
  List.map (fun ix => (Z_toString (Z.of_nat (fst ix)), snd ix))
    (combine (seq 0 (length l)) l).

Fixpoint units (s : string) : list value :=
  match s with
  | EmptyString => []
  | String c r => VString (String c EmptyString) :: units r
  end.

(** The properties that [for (k in x)] visits, with [x[k]]. *)
Definition forIn (x : value) : list (string * value) :=
  match x with
  | VObject fields => fields
  | VArray elements => indexed elements
  | VString s => indexed (units s)
  | _ => []
  end.

Fixpoint height (v : value) : nat :=
  match v with
  | VArray elements => S (list_max (List.map height elements))
  | VObject fields =>
      S (list_max (List.map (fun kv : string * value => height (snd kv)) fields))
  | _ => O
  end.

(** The [for (const propName in schema.properties)] loop; [recur] is the
    function itself. *)
Fixpoint propertiesLoop (recur : value -> completion ZodTypeAny)
  (l : list (string * value)) (shape : list (string * ZodTypeAny))
  : completion (list (string * ZodTypeAny)) :=
  match l with
  | [] => Normal shape
  | (propName, propSchema) :: r =>
      match hasRef propSchema with
      | Throw e => Throw e
      | Normal true => propertiesLoop recur r (shapeSet shape propName ZodAny)
      | Normal false =>
          match recur propSchema with
          | Throw e => Throw e
          | Normal z => propertiesLoop recur r (shapeSet shape propName z)
          end
      end
  end.

(** The function, with the depth left to descend: a node calls it on
    nodes below itself only. *)
Fixpoint mapper (depth : nat) (schema : value) : completion ZodTypeAny :=
  match depth with
  | O => Normal ZodAny
  | S depth =>
      if negb (truthy schema) then Normal ZodAny
      else
        match field schema "type" with
        | VString t =>
            if String.eqb t "string" then
              let enum := field schema "enum" in
              let format := field schema "format" in
              if truthy enum then Normal (ZodEnum enum)
              else
                match format with
                | VString f =>
                    if String.eqb f "date-time" then Normal (ZodString [datetime])
                    else if String.eqb f "date" then Normal (ZodString [date])
                    else if String.eqb f "byte" then Normal (ZodString [base64])
                    else if String.eqb f "binary" then Normal ZodAny
                    else Normal (ZodString [])
                | _ => Normal (ZodString [])
                end
            else if String.eqb t "integer" then Normal (ZodNumber [int])
            else if String.eqb t "number" then Normal (ZodNumber [])
            else if String.eqb t "boolean" then Normal ZodBoolean
            else if String.eqb t "array" then
              let items := field schema "items" in
              if truthy items then
                match hasRef items with
                | Throw e => Throw e
                | Normal true => Normal (ZodArray ZodAny)
                | Normal false =>
                    match mapper depth items with
                    | Throw e => Throw e
                    | Normal itemSchema => Normal (ZodArray itemSchema)
                    end
                end
              else Normal (ZodArray ZodAny)
            else if String.eqb t "object" then
              let properties := field schema "properties" in
              let additionalProperties := field schema "additionalProperties" in
              if truthy properties then
                match propertiesLoop (mapper depth) (forIn properties) [] with
                | Throw e => Throw e
                | Normal shape =>
                    match additionalProperties with
                    | VBool true => Normal (ZodObject shape (Some ZodAny))
                    | _ =>
                        if isObject additionalProperties then
                          match hasRef additionalProperties with
                          | Throw e => Throw e
                          | Normal true => Normal (ZodObject shape None)
                          | Normal false =>
                              match mapper depth additionalProperties with
                              | Throw e => Throw e
                              | Normal a => Normal (ZodObject shape (Some a))
                              end
                          end
                        else Normal (ZodObject shape None)
                    end
                end
              else if truthy additionalProperties
              then Normal (ZodRecord (ZodString []) ZodAny)
              else Normal (ZodObject [] None)
            else Normal ZodAny
        | _ => Normal ZodAny
        end
  end.

Definition openApiTypeToZod (schema : value) : completion ZodTypeAny :=
  mapper (S (height schema)) schema.

End Untyped.

(** A node of the declared type as the value it is in the document; a
    field that the node leaves out reads as [undefined]. *)
Definition optString (o : option string) : value :=
  match o with Some s => VString s | None => VUndefined end.

Fixpoint schemaValue (schema : SchemaObject) : value :=
  match schema with
  | Schema type format enum items properties additionalProperties x_body_name =>
      VObject
        [("type", optString type);
         ("format", optString format);
         ("enum", match enum with Some vs => VArray vs | None => VUndefined end);
         ("items",
          match items with
          | Some (Ref ref) => VObject [("$ref", VString ref)]
          | Some (Obj s) => schemaValue s
          | None => VUndefined
          end);
         ("properties",
          match properties with
          | Some props =>
              VObject
                (List.map (fun kv : string * ReferenceOr SchemaObject =>
                             (fst kv,
                              match snd kv with
                              | Ref ref => VObject [("$ref", VString ref)]
                              | Obj s => schemaValue s
                              end)) props)
          | None => VUndefined
          end);
         ("additionalProperties",
          match additionalProperties with
          | Some (inl b) => VBool b
          | Some (inr (Ref ref)) => VObject [("$ref", VString ref)]
          | Some (inr (Obj s)) => schemaValue s
          | None => VUndefined
          end);
         ("x-body-name", optString x_body_name)]
  end.

Definition schemaValueOf (schema : option SchemaObject) : value :=
  match schema with Some s => schemaValue s | None => VUndefined end.

(** The value that stands for a schema or a reference. *)
Definition nodeValue (r : ReferenceOr SchemaObject) : value :=
  match r with
  | Ref ref => VObject [("$ref", VString ref)]
  | Obj s => schemaValue s
  end.

(** ** The console *)

Module console.

Inductive level : Type := Log | Warn | Error.

Definition entry : Type := (level * string)%type.

Definition log (msg : string) : entry := (Log, msg).
Definition warn (msg : string) : entry := (Warn, msg).
Definition error (msg : string) : entry := (Error, msg).

End console.

(** ** adapter.ts: the document *)

Module MediaTypeObject.
Record t : Type := { schema : option (ReferenceOr SchemaObject) }.
End MediaTypeObject.

Module ParameterObject.
Record t : Type :=
  { name : string;
    in_ : string;
    description : option string;
    required : option bool;
    schema : option SchemaObject }.
End ParameterObject.

Module RequestBodyObject.
Record t : Type :=
  { description : option string;
    content : option (list (string * MediaTypeObject.t));
    required : option bool }.
End RequestBodyObject.

Module ResponseObject.
Record t : Type := { content : option (list (string * MediaTypeObject.t)) }.
End ResponseObject.

Module OperationObject.
Record t : Type :=
  { operationId : option string;
    summary : option string;
    description : option string;
    parameters : option (list (ReferenceOr ParameterObject.t));
    requestBody : option (ReferenceOr RequestBodyObject.t);
    responses : option (list (string * ReferenceOr ResponseObject.t)) }.
End OperationObject.

(** A path item: its shared [parameters], and its own keys in enumeration
    order, each with the operation object found under it ([None] where
    the value under the key is missing or falsy). *)
Module PathItemObject.
Record t : Type :=
  { parameters : option (list (ReferenceOr ParameterObject.t));
    keys : list (string * option OperationObject.t) }.
End PathItemObject.

(** [OpenAPI.Document]: [paths] in enumeration order. *)
Module Document.
Record t : Type := { paths : option (list (string * PathItemObject.t)) }.
End Document.

(** [Object.values(OpenAPIV3.HttpMethods)] *)
Definition HttpMethods : list string :=
  ["get"; "put"; "post"; "delete"; "options"; "head"; "patch"; "trace"].

(** types.ts *)
Module MCPParameter.
Record t : Type :=
  { name : string;
    description : option string;
    type : string;
    required : bool;
    schema : option SchemaObject;
    _in : option string }.
End MCPParameter.

(** [_originalOperation], which is [OriginalOperationDetails] of
    apiCaller.ts. *)
Module OriginalOperationDetails.
Record t : Type :=
  { method : string;
    path : string;
    parameters : list MCPParameter.t;
    consumes : option (list string);
    produces : option (list string) }.
End OriginalOperationDetails.

Module SdkToolDefinition.
Record t : Type :=
  { name : string;
    description : option string;
    zodShape : gmap string ZodTypeAny;
    _originalOperation : OriginalOperationDetails.t }.
End SdkToolDefinition.

(** [[...new Set(l)]]: the first occurrence of each element stays. *)
Fixpoint Set_of (seen l : list string) : list string :=
  match l with
  | [] => []
  | x :: r =>
      if existsb (String.eqb x) seen then Set_of seen r
      else x :: Set_of (x :: seen) r
  end.

Definition or_bool (o : option bool) : bool :=
  match o with Some b => b | None => false end.

(** The callback of the [forEach] in [extractAndBuildZodShape], for a
    parameter that is not a reference: the tool parameter and the entry of
    the shape. *)
Definition adaptParameter (param : ParameterObject.t)
  : MCPParameter.t * ZodTypeAny :=
  let schema := ParameterObject.schema param in
  let zodType := openApiTypeToZod schema in
  let zodType :=
    if negb (or_bool (ParameterObject.required param))
    then ZodOptional zodType else zodType in
  let zodType :=
    match truthy_opt (ParameterObject.description param) with
    | Some d => ZodDescribed zodType d
    | None => zodType
    end in
  ({| MCPParameter.name := ParameterObject.name param;
      MCPParameter.description := ParameterObject.description param;
      MCPParameter.type :=
        match truthy_opt (schema ≫= schema_type) with
        | Some t => t
        | None => "any"
        end;
      MCPParameter.required := or_bool (ParameterObject.required param);
      MCPParameter.schema := schema;
      MCPParameter._in := Some (ParameterObject.in_ param) |},
   zodType).

(** The state of the adapter's helpers: the parameters pushed so far, the
    shared [zodShape] object, the console. *)
Definition Extracted : Type :=
  (list MCPParameter.t * gmap string ZodTypeAny * list console.entry)%type.

Definition extractStep (acc : Extracted)
  (param : ReferenceOr ParameterObject.t) : Extracted :=
  let '(mcpParams, zodShape, out) := acc in
  match param with
  | Ref r =>
      (mcpParams, zodShape,
       out ++ [console.warn ("Skipping unresolved parameter reference: " ++ r)])
  | Obj param =>
      let '(p, zodType) := adaptParameter param in
      (mcpParams ++ [p], assign zodShape (ParameterObject.name param) zodType, out)
  end.

Definition extractAndBuildZodShape
  (openapiParams : option (list (ReferenceOr ParameterObject.t)))
  (zodShape : gmap string ZodTypeAny) (out : list console.entry) : Extracted :=
  match openapiParams with
  | None => ([], zodShape, out)
  | Some ps => fold_left extractStep ps ([], zodShape, out)
  end.

(** [a?.schema || b?.schema] on two optional media types. *)
Definition contentSchemaOf (content : option (list (string * MediaTypeObject.t)))
  : option (ReferenceOr SchemaObject) :=
  match content with
  | None => None
  | Some c =>
      match get c "application/json" ≫= MediaTypeObject.schema with
      | Some s => Some s
      | None =>
          match c with
          | [] => None
          | (_, m) :: _ => MediaTypeObject.schema m
          end
      end
  end.

(** The parameter that [extractRequestBodyAndBuildZodShape] synthesizes
    from a request body with a usable schema, and its entry of the shape. *)
Definition adaptRequestBody (requestBody : RequestBodyObject.t)
  (contentSchema : SchemaObject) : MCPParameter.t * ZodTypeAny :=
  let bodyParamName :=
    match truthy_opt (schema_x_body_name contentSchema) with
    | Some n => n
    | None => "requestBody"
    end in
  let zodType := openApiTypeToZod (Some contentSchema) in
  let zodType :=
    if negb (or_bool (RequestBodyObject.required requestBody))
    then ZodOptional zodType else zodType in
  let zodType :=
    match truthy_opt (RequestBodyObject.description requestBody) with
    | Some d => ZodDescribed zodType d
    | None => zodType
    end in
  ({| MCPParameter.name := bodyParamName;
      MCPParameter.description :=
        Some match truthy_opt (RequestBodyObject.description requestBody) with
             | Some d => d
             | None => "The request body."
             end;
      MCPParameter.type :=
        match truthy_opt (schema_type contentSchema) with
        | Some t => t
        | None => "object"
        end;
      MCPParameter.required := or_bool (RequestBodyObject.required requestBody);
      MCPParameter.schema := Some contentSchema;
      MCPParameter._in := Some "body" |},
   zodType).

Definition extractRequestBodyAndBuildZodShape
  (requestBody : option (ReferenceOr RequestBodyObject.t))
  (zodShape : gmap string ZodTypeAny) (out : list console.entry) : Extracted :=
  match requestBody with
  | None => ([], zodShape, out)
  | Some (Ref r) =>
      ([], zodShape,
       out ++ [console.warn ("Skipping unresolved request body reference: " ++ r)])
  | Some (Obj requestBody) =>
      match contentSchemaOf (RequestBodyObject.content requestBody) with
      | None | Some (Ref _) =>
          ([], zodShape,
           out ++ [console.warn "Request body found but no usable schema available, skipping parameter generation for body."])
      | Some (Obj contentSchema) =>
          let '(p, zodType) := adaptRequestBody requestBody contentSchema in
          ([p], assign zodShape (MCPParameter.name p) zodType, out)
      end
  end.

Definition setParam (m : list (string * MCPParameter.t)) (p : MCPParameter.t)
  : list (string * MCPParameter.t) :=
  Map_.set (MCPParameter.name p) p m.

(** [combinedParamsMap] after the three [forEach] loops, as an array. *)
Definition combineParams
  (paramsFromPath paramsFromOperation paramsFromBody : list MCPParameter.t)
  : list MCPParameter.t :=
  let combinedParamsMap := fold_left setParam paramsFromPath [] in
  let combinedParamsMap := fold_left setParam paramsFromOperation combinedParamsMap in
  let combinedParamsMap := fold_left setParam paramsFromBody combinedParamsMap in
  Map_.values combinedParamsMap.

Definition keysOf {A : Type} (o : option (list (string * A))) : list string :=
  match o with Some l => List.map fst l | None => [] end.

Definition getResponseContentKeys (operation : OperationObject.t)
  (responseCode : string) : list string :=
  match OperationObject.responses operation ≫= (fun r => get r responseCode) with
  | None | Some (Ref _) => []
  | Some (Obj responseObj) => keysOf (ResponseObject.content responseObj)
  end.

Definition nonEmpty (l : list string) : option (list string) :=
  match l with [] => None | _ => Some l end.

(** The body of the inner loop of [adaptOpenAPIToSdkTools] for one
    operation. *)
Definition adaptOperation (path : string) (pathItem : PathItemObject.t)
  (method : string) (operation : OperationObject.t) (out : list console.entry)
  : SdkToolDefinition.t * list console.entry :=
  let functionName :=
    generateFunctionName method path (OperationObject.operationId operation) in
  let zodShape : gmap string ZodTypeAny := ∅ in
  let '(paramsFromPath, zodShape, out) :=
    extractAndBuildZodShape (PathItemObject.parameters pathItem) zodShape out in
  let '(paramsFromOperation, zodShape, out) :=
    extractAndBuildZodShape (OperationObject.parameters operation) zodShape out in
  let '(paramsFromBody, zodShape, out) :=
    extractRequestBodyAndBuildZodShape
      (OperationObject.requestBody operation) zodShape out in
  let internalParams :=
    combineParams paramsFromPath paramsFromOperation paramsFromBody in
  let consumes :=
    match OperationObject.requestBody operation with
    | Some (Obj rb) => keysOf (RequestBodyObject.content rb)
    | _ => []
    end in
  let produces :=
    flat_map (getResponseContentKeys operation)
      (List.filter (fun code => JsString.startsWith code "2")
         (keysOf (OperationObject.responses operation))) in
  let produces :=
    match produces with
    | [] => getResponseContentKeys operation "default"
    | _ => produces
    end in
  let produces := Set_of [] produces in
  ({| SdkToolDefinition.name := functionName;
      SdkToolDefinition.description :=
        match truthy_opt (OperationObject.summary operation) with
        | Some s => Some s
        | None => OperationObject.description operation
        end;
      SdkToolDefinition.zodShape := zodShape;
      SdkToolDefinition._originalOperation :=
        {| OriginalOperationDetails.method := JsString.toUpperCase method;
           OriginalOperationDetails.path := path;
           OriginalOperationDetails.parameters := internalParams;
           OriginalOperationDetails.consumes := nonEmpty consumes;
           OriginalOperationDetails.produces := nonEmpty produces |} |},
   out).

Definition Adaptation : Type :=
  (list SdkToolDefinition.t * list console.entry)%type.

Definition adaptKey (path : string) (pathItem : PathItemObject.t)
  (acc : Adaptation) (key : string * option OperationObject.t) : Adaptation :=
  let '(sdkTools, out) := acc in
  let '(method, operation) := key in
  if negb (existsb (String.eqb method) HttpMethods) then acc
  else match operation with
       | None => acc
       | Some operation =>
           let '(tool, out) := adaptOperation path pathItem method operation out in
           (sdkTools ++ [tool], out)
       end.

Definition adaptPath (acc : Adaptation) (entry : string * PathItemObject.t)
  : Adaptation :=
  let '(path, pathItem) := entry in
  fold_left (adaptKey path pathItem) (PathItemObject.keys pathItem) acc.

(** The tools, and what was written to the console on the way. *)
Definition adaptOpenAPIToSdkTools (apiSpec : Document.t) : Adaptation :=
  match Document.paths apiSpec with
  | None => ([], [console.warn "No paths found in the OpenAPI specification."])
  | Some paths =>
      let '(sdkTools, out) := fold_left adaptPath paths ([], []) in
      (sdkTools,
       out ++ [console.log ("Adapted " ++ Z_toString (Z.of_nat (length sdkTools))
                            ++ " tools from OpenAPI spec.")])
  end.

(** ** Node: buffers and base64 *)

Module Buffer.

Definition alphabet : string :=
  "ABCDEFGHIJKLMNOPQRSTUVWXYZabcdefghijklmnopqrstuvwxyz0123456789+/".

Definition digit (n : N) : string :=
  match String.get (N.to_nat n) alphabet with
  | Some c => String c EmptyString
  | None => EmptyString
  end.

(** The four 6-bit groups of three bytes. *)
Definition sextet1 (x : N) : N := N.shiftr x 2.
Definition sextet2 (x y : N) : N :=
  N.lor (N.shiftl (N.land x 3) 4) (N.shiftr y 4).
Definition sextet3 (y z : N) : N :=
  N.lor (N.shiftl (N.land y 15) 2) (N.shiftr z 6).
Definition sextet4 (z : N) : N := N.land z 63.

(** [buf.toString('base64')]: the standard alphabet; a last group of one
    or two bytes is filled with zero bits and padded with [=]. *)
Fixpoint toBase64 (bs : list byte) : string :=
  match bs with
  | [] => EmptyString
  | [a] =>
      let x := Byte.to_N a in
      digit (sextet1 x) ++ digit (sextet2 x 0) ++ "=="
  | [a; b] =>
      let x := Byte.to_N a in
      let y := Byte.to_N b in
      digit (sextet1 x) ++ digit (sextet2 x y) ++ digit (sextet3 y 0) ++ "="
  | a :: b :: c :: r =>
      let x := Byte.to_N a in
      let y := Byte.to_N b in
      let z := Byte.to_N c in
      digit (sextet1 x) ++ digit (sextet2 x y) ++ digit (sextet3 y z)
      ++ digit (sextet4 z) ++ toBase64 r
  end.

(** The value of a base64 character; the URL-safe [-] and [_] count too. *)
Definition unbase64 (c : ascii) : option N :=
  let n := JsString.code c in
  if JsString.is_upper c then Some (n - 65)%N
  else if JsString.is_lower c then Some (n - 97 + 26)%N
  else if JsString.is_digit c then Some (n - 48 + 52)%N
  else if (N.eqb n 43 || N.eqb n 45)%bool then Some 62%N
  else if (N.eqb n 47 || N.eqb n 95)%bool then Some 63%N
  else None.

(** The legal characters up to the first [=]: Node's decoder skips every
    other character and stops at the padding. *)
Fixpoint sextets (s : string) : list N :=
  match s with
  | EmptyString => []
  | String c r =>
      if N.eqb (JsString.code c) 61 then []
      else match unbase64 c with
           | Some v => v :: sextets r
           | None => sextets r
           end
  end.

Definition octet (n : N) : byte :=
  match Byte.of_N (N.land n 255) with Some b => b | None => x00 end.

(** The three bytes of four 6-bit groups. *)
Definition octet1 (a b : N) : byte := octet (N.lor (N.shiftl a 2) (N.shiftr b 4)).
Definition octet2 (b c : N) : byte := octet (N.lor (N.shiftl b 4) (N.shiftr c 2)).
Definition octet3 (c d : N) : byte := octet (N.lor (N.shiftl c 6) d).

Fixpoint octets (l : list N) : list byte :=
  match l with
  | a :: b :: c :: d :: r => octet1 a b :: octet2 b c :: octet3 c d :: octets r
  | [a; b; c] => [octet1 a b; octet2 b c]
  | [a; b] => [octet1 a b]
  | _ => []
  end.

(** [Buffer.from(s, 'base64')] on a string.  Node decodes leniently and
    returns a buffer for every string; it has no failure to throw. *)
Definition from_base64 (s : string) : list byte := octets (sextets s).

End Buffer.

(** ** [encodeURIComponent] *)

Definition hexDigit (n : N) : string :=
  match String.get (N.to_nat n) "0123456789ABCDEF" with
  | Some c => String c EmptyString
  | None => EmptyString
  end.

Definition percent (n : N) : string :=
  "%" ++ hexDigit (N.div n 16) ++ hexDigit (N.modulo n 16).

Definition unreserved (c : ascii) : bool :=
  (JsString.is_lower c || JsString.is_upper c || JsString.is_digit c
   || existsb (Ascii.eqb c) (list_ascii_of_string "-_.!~*'()"))%bool.

(** A code unit below 128 is one UTF-8 byte, one from 128 to 255 is two. *)
Definition encodeUnit (c : ascii) : string :=
  let n := JsString.code c in
  if unreserved c then String c EmptyString
  else if N.ltb n 128 then percent n
  else percent (192 + N.div n 64)%N ++ percent (128 + N.modulo n 64)%N.

Fixpoint encodeURIComponent (s : string) : string :=
  match s with
  | EmptyString => EmptyString
  | String c r => encodeUnit c ++ encodeURIComponent r
  end.

(** ** apiCaller.ts: the request executor *)

(** What the executor takes from its surroundings: the HTTP exchange
    behind [axios], [JSON.stringify], and [Buffer.from] applied to a
    response body that is not already a buffer. *)
Class Environment : Type :=
  { axios : AxiosRequestConfig.t -> completion AxiosResponse.t;
    JSON_stringify : payload -> completion string;
    Buffer_from : value -> completion (list byte) }.

(** The world: the console, and the requests handed to [axios]. *)
Module World.
Record t : Type :=
  { out : list console.entry;
    sent : list AxiosRequestConfig.t }.
Definition empty : t := {| out := []; sent := [] |}.
End World.

(** Code with effects: it runs in a world and either completes normally or
    throws, and leaves a world behind in both cases. *)
Definition Eff (A : Type) : Type := World.t -> completion A * World.t.

Definition ret {A : Type} (a : A) : Eff A := fun w => (Normal a, w).

Definition throw {A : Type} (e : Exn.t) : Eff A := fun w => (Throw e, w).

Definition bind {A B : Type} (m : Eff A) (k : A -> Eff B) : Eff B :=
  fun w =>
    match m w with
    | (Normal a, w') => k a w'
    | (Throw e, w') => (Throw e, w')
    end.

Definition try_catch {A : Type} (m : Eff A) (h : Exn.t -> Eff A) : Eff A :=
  fun w =>
    match m w with
    | (Normal a, w') => (Normal a, w')
    | (Throw e, w') => h e w'
    end.

Definition lift {A : Type} (c : completion A) : Eff A := fun w => (c, w).

Definition print (e : console.entry) : Eff unit :=
  fun w =>
    (Normal tt, {| World.out := World.out w ++ [e]; World.sent := World.sent w |}).

Definition await_axios `{Environment} (config : AxiosRequestConfig.t)
  : Eff AxiosResponse.t :=
  fun w =>
    (axios config,
     {| World.out := World.out w; World.sent := World.sent w ++ [config] |}).

Declare Scope eff_scope.
Delimit Scope eff_scope with eff.
Notation "'perform' x <- m ;; k" := (bind m (fun x => k))
  (at level 10, x name, m at level 99, k at level 200) : eff_scope.
Notation "'exec' m ;; k" := (bind m (fun _ => k))
  (at level 10, m at level 99, k at level 200) : eff_scope.

Fixpoint forEach {A S : Type} (f : A -> S -> Eff S) (l : list A) (s : S)
  : Eff S :=
  match l with
  | [] => ret s
  | a :: r => bind (f a s) (forEach f r)
  end.

(** The locals that the [forEach] of [executeApiCall] updates. *)
Module Draft.
Record t : Type :=
  { headers : gmap string string;
    queryParams : gmap string Arg;
    requestBody : carried Arg;
    urlPath : string }.
End Draft.

Definition in_is (p : MCPParameter.t) (loc : string) : bool :=
  match MCPParameter._in p with
  | Some l => String.eqb l loc
  | None => false
  end.

Definition type_is (s : option SchemaObject) (name : string) : bool :=
  match s ≫= schema_type with
  | Some t => String.eqb t name
  | None => false
  end.

Definition isBinarySchema (s : option SchemaObject) : bool :=
  (format_is (s ≫= schema_format) "binary"
   || (type_is s "string" && format_is (s ≫= schema_format) "binary"))%bool.

(** [mcpArgs[name]] *)
Definition lookupArg (mcpArgs : gmap string value) (name : string) : Arg :=
  match mcpArgs !! name with
  | Some v => Given v
  | None => if inherited name then Builtin name else Given VUndefined
  end.

Definition processParam (mcpArgs : gmap string value)
  (paramDef : MCPParameter.t) (d : Draft.t) : Eff Draft.t :=
  let name := MCPParameter.name paramDef in
  let value := lookupArg mcpArgs name in
  match value with
  | Given VUndefined =>
      if MCPParameter.required paramDef
      then throw (Error_ ("Missing required parameter: " ++ name))
      else ret d
  | _ =>
      if in_is paramDef "path" then
        (perform text <- lift (String_arg value) ;;
         ret {| Draft.headers := Draft.headers d;
                Draft.queryParams := Draft.queryParams d;
                Draft.requestBody := Draft.requestBody d;
                Draft.urlPath :=
                  JsString.replace_first ("{" ++ name ++ "}")
                    (encodeURIComponent text) (Draft.urlPath d) |})%eff
      else if in_is paramDef "query" then
        ret {| Draft.headers := Draft.headers d;
               Draft.queryParams := assign (Draft.queryParams d) name value;
               Draft.requestBody := Draft.requestBody d;
               Draft.urlPath := Draft.urlPath d |}
      else if in_is paramDef "header" then
        (perform text <- lift (String_arg value) ;;
         ret {| Draft.headers := assign (Draft.headers d) name text;
                Draft.queryParams := Draft.queryParams d;
                Draft.requestBody := Draft.requestBody d;
                Draft.urlPath := Draft.urlPath d |})%eff
      else if in_is paramDef "body" then
        if isBinarySchema (MCPParameter.schema paramDef) then
          let headers :=
            <["Content-Type" := "application/octet-stream"]> (Draft.headers d) in
          let sendAs (body : carried Arg) : Draft.t :=
            {| Draft.headers := headers;
               Draft.queryParams := Draft.queryParams d;
               Draft.requestBody := body;
               Draft.urlPath := Draft.urlPath d |} in
          match value with
          | Given (VString s) =>
              try_catch
                (ret (sendAs (Bytes (Buffer.from_base64 s))))
                (fun _ =>
                   (exec print (console.warn
                                ("Failed to decode base64 for parameter " ++ name
                                 ++ ". Sending as string.")) ;;
                    ret (sendAs (Plain value)))%eff)
          | _ => ret (sendAs (Plain value))
          end
        else
          ret {| Draft.headers := Draft.headers d;
                 Draft.queryParams := Draft.queryParams d;
                 Draft.requestBody := Plain value;
                 Draft.urlPath := Draft.urlPath d |}
      else ret d
  end.

(** [a?.[0] || d] *)
Definition firstOr (l : option (list string)) (d : string) : string :=
  match truthy_opt (l ≫= head) with
  | Some s => s
  | None => d
  end.

Definition initialDraft (operationDetails : OriginalOperationDetails.t) : Draft.t :=
  let headers : gmap string string :=
    <["Accept" :=
        firstOr (OriginalOperationDetails.produces operationDetails)
          "application/json"]> ∅ in
  let bodyParam :=
    List.find (fun p => in_is p "body")
      (OriginalOperationDetails.parameters operationDetails) in
  {| Draft.headers :=
       match bodyParam with
       | Some _ =>
           <["Content-Type" :=
               firstOr (OriginalOperationDetails.consumes operationDetails)
                 "application/json"]> headers
       | None => headers
       end;
     Draft.queryParams := ∅;
     Draft.requestBody := Plain (Given VUndefined);
     Draft.urlPath := OriginalOperationDetails.path operationDetails |}.

Definition targetUrlOf (apiBaseUrl urlPath : string) : string :=
  let baseUrl :=
    if JsString.endsWith_char apiBaseUrl "/"
    then JsString.drop_last apiBaseUrl else apiBaseUrl in
  baseUrl ++ (if JsString.startsWith urlPath "/" then urlPath else "/" ++ urlPath).

Definition responseTypeOf (headers : gmap string string) : ResponseType :=
  let acceptHeader := JsString.toLowerCase <$> (headers !! "Accept") in
  let isJsonExpected :=
    match acceptHeader with
    | Some a =>
        (JsString.includes a "json" || JsString.includes a "*/*"
         || negb (JsString.truthy a))%bool
    | None => true
    end in
  if isJsonExpected then json else arraybuffer.

Definition configOf (apiBaseUrl : string)
  (operationDetails : OriginalOperationDetails.t) (d : Draft.t)
  : AxiosRequestConfig.t :=
  {| AxiosRequestConfig.method := OriginalOperationDetails.method operationDetails;
     AxiosRequestConfig.url := targetUrlOf apiBaseUrl (Draft.urlPath d);
     AxiosRequestConfig.headers := Draft.headers d;
     AxiosRequestConfig.params := Draft.queryParams d;
     AxiosRequestConfig.data := Draft.requestBody d;
     AxiosRequestConfig.responseType := responseTypeOf (Draft.headers d) |}.

(** The object returned for a response read as an [arraybuffer]. *)
Definition binaryResult (contentType : option string) (bytes : list byte)
  : payload :=
  Plain (VObject [("_isBinary", VBool true);
                  ("contentType", optString contentType);
                  ("data", VString (Buffer.toBase64 bytes))]).

(** The [detail] string of the [catch] block. *)
Definition failureDetail `{Environment} (error : Exn.t) : string :=
  let status : option Z := AxiosResponse.status <$> Exn.response error in
  let responseData : option payload :=
    AxiosResponse.data <$> Exn.response error in
  let detail :=
    ("Status: " ++ match status with
                   | Some n => if Z.eqb n 0 then "N/A" else Z_toString n
                   | None => "N/A"
                   end)%string in
  match responseData with
  | Some data =>
      if truthy_payload data then
        let contentType :=
          truthy_opt (Exn.response error
                        ≫= (fun r => AxiosResponse.headers r !! "content-type")) in
        match contentType with
        | Some ct =>
            if negb (JsString.includes ct "json")
            then detail ++ ", Content-Type: " ++ ct
            else match JSON_stringify data with
                 | Normal text => detail ++ ", Data: " ++ text
                 | Throw _ => detail ++ ", Data: [Could not stringify response data]"
                 end
        | None =>
            match JSON_stringify data with
            | Normal text => detail ++ ", Data: " ++ text
            | Throw _ => detail ++ ", Data: [Could not stringify response data]"
            end
        end
      else detail
  | None => detail
  end.

Definition executeApiCall `{Environment} (apiBaseUrl : option string)
  (operationDetails : OriginalOperationDetails.t) (mcpArgs : gmap string value)
  : Eff payload :=
  match truthy_opt apiBaseUrl with
  | None =>
      throw (Error_ "API base URL is not configured. Cannot execute API call.")
  | Some apiBaseUrl =>
      let method := OriginalOperationDetails.method operationDetails in
      let path := OriginalOperationDetails.path operationDetails in
      (perform d <-
         forEach (processParam mcpArgs)
           (OriginalOperationDetails.parameters operationDetails)
           (initialDraft operationDetails) ;;
       let config := configOf apiBaseUrl operationDetails d in
       exec print (console.log
                     ("Executing API call: " ++ AxiosRequestConfig.method config
                      ++ " " ++ AxiosRequestConfig.url config)) ;;
       try_catch
         (perform response <- await_axios config ;;
          exec print (console.log
                        ("API call successful ("
                         ++ Z_toString (AxiosResponse.status response)
                         ++ ") for " ++ method ++ " " ++ path)) ;;
          match AxiosRequestConfig.responseType config with
          | arraybuffer =>
              perform bytes <-
                lift match AxiosResponse.data response with
                     | Bytes b => Normal b
                     | Plain v => Buffer_from v
                     end ;;
              ret (binaryResult
                     (AxiosResponse.headers response !! "content-type") bytes)
          | json => ret (AxiosResponse.data response)
          end)
         (fun error =>
            exec print (console.error
                          ("API call failed for " ++ method ++ " " ++ path ++ ": "
                           ++ Exn.message error)) ;;
            throw (Error_ ("API call failed. " ++ failureDetail error))))%eff
  end.

(** ** The specification's reading of a tool name *)

Definition alnum (c : ascii) : bool :=
  (JsString.is_lower c || JsString.is_digit c)%bool.

Fixpoint all_chars (P : ascii -> bool) (s : string) : bool :=
  match s with
  | EmptyString => true
  | String c r => (P c && all_chars P r)%bool
  end.

Definition word (cur : string) : list string :=
  if JsString.truthy cur then [cur] else [].

(** The maximal non-empty runs of characters that satisfy [keep]; [cur] is
    the run being read. *)
Fixpoint runs (keep : ascii -> bool) (s cur : string) : list string :=
  match s with
  | EmptyString => word cur
  | String c r =>
      if keep c then runs keep r (cur ++ String c EmptyString)
      else word cur ++ runs keep r EmptyString
  end.

(** The path components of the specification: the non-empty pieces of the
    lower-cased path between the characters that are neither a lower-case
    letter nor a digit. *)
Definition pathComponents (path : string) : list string :=
  runs alnum (JsString.toLowerCase path) EmptyString.

(** The identifier with every character outside [[A-Za-z0-9_]] replaced by
    an underscore, position by position. *)
Definition sanitized (id name : string) : Prop :=
  String.length name = String.length id /\
  forall i : nat,
    String.get i name
    = (fun c => if id_char c then c else "_"%char) <$> String.get i id.

(** ** The specification's reading of the type mapper and of the merge *)

Definition supportedTypes : list string :=
  ["string"; "integer"; "number"; "boolean"; "array"; "object"].

(** A schema that is absent, or whose [type] is absent or is none of the
    six that the mapper handles. *)
Definition unsupported (schema : option SchemaObject) : bool :=
  match schema ≫= schema_type with
  | Some t => negb (existsb (String.eqb t) supportedTypes)
  | None => true
  end.

(** What a parameter list declares: the tool parameter and shape entry of
    every parameter that is not an unresolved reference, in order. *)
Definition declared (ps : option (list (ReferenceOr ParameterObject.t)))
  : list (MCPParameter.t * ZodTypeAny) :=
  match ps with
  | None => []
  | Some l =>
      omap (fun p => match p with
                     | Ref _ => None
                     | Obj q => Some (adaptParameter q)
                     end) l
  end.

(** What a request body declares: the synthesized body parameter, if its
    schema is usable. *)
Definition declaredBody (requestBody : option (ReferenceOr RequestBodyObject.t))
  : list (MCPParameter.t * ZodTypeAny) :=
  match requestBody with
  | Some (Obj rb) =>
      match contentSchemaOf (RequestBodyObject.content rb) with
      | Some (Obj contentSchema) => [adaptRequestBody rb contentSchema]
      | _ => []
      end
  | _ => []
  end.

Definition entryName (e : MCPParameter.t * ZodTypeAny) : string :=
  MCPParameter.name (fst e).

(** The last declaration of a name. *)
Definition lastNamed (n : string) (l : list (MCPParameter.t * ZodTypeAny))
  : option (MCPParameter.t * ZodTypeAny) :=
  List.find (fun e => String.eqb (entryName e) n) (rev l).

Definition paramNamed (n : string) (ps : list MCPParameter.t)
  : option MCPParameter.t :=
  List.find (fun p => String.eqb (MCPParameter.name p) n) ps.

(** Everything an operation declares, in the order of the merge:
    path-item level, operation level, body. *)
Definition mergedOf (pathItem : PathItemObject.t) (operation : OperationObject.t)
  : list (MCPParameter.t * ZodTypeAny) :=
  declared (PathItemObject.parameters pathItem)
  ++ declared (OperationObject.parameters operation)
  ++ declaredBody (OperationObject.requestBody operation).

Definition internalParamsOf (tool : SdkToolDefinition.t) : list MCPParameter.t :=
  OriginalOperationDetails.parameters (SdkToolDefinition._originalOperation tool).

(** One assignment [zodShape[name] = zodType]. *)
Definition insertEntry (m : gmap string ZodTypeAny)
  (e : MCPParameter.t * ZodTypeAny) : gmap string ZodTypeAny :=
  assign m (entryName e) (snd e).

(** The parameter objects of a list: its entries that are not unresolved
    references. *)
Definition objectsOf (ps : option (list (ReferenceOr ParameterObject.t)))
  : list ParameterObject.t :=
  match ps with
  | None => []
  | Some l => omap (fun p => match p with Ref _ => None | Obj q => Some q end) l
  end.

(** [.optional()] unless required, then [.describe()] if described. *)
Definition wrapped (required : option bool) (description : option string)
  (z : ZodTypeAny) : ZodTypeAny :=
  let z := match required with Some true => z | _ => ZodOptional z end in
  match description with
  | None | Some "" => z
  | Some d => ZodDescribed z d
  end.

(** The tool parameter and the shape entry that stand for a declared
    parameter: name, description, schema and location as declared, the
    type of the schema or [any], required only if declared so. *)
Definition specified (q : ParameterObject.t) : MCPParameter.t * ZodTypeAny :=
  ({| MCPParameter.name := ParameterObject.name q;
      MCPParameter.description := ParameterObject.description q;
      MCPParameter.type :=
        match ParameterObject.schema q ≫= schema_type with
        | None | Some "" => "any"
        | Some t => t
        end;
      MCPParameter.required :=
        match ParameterObject.required q with Some true => true | _ => false end;
      MCPParameter.schema := ParameterObject.schema q;
      MCPParameter._in := Some (ParameterObject.in_ q) |},
   wrapped (ParameterObject.required q) (ParameterObject.description q)
     (openApiTypeToZod (ParameterObject.schema q))).

(** The one parameter that stands for a request body of usable schema:
    named by [x-body-name] or [requestBody], located in the body. *)
Definition specifiedBody (rb : RequestBodyObject.t) (contentSchema : SchemaObject)
  : MCPParameter.t * ZodTypeAny :=
  ({| MCPParameter.name :=
        match schema_x_body_name contentSchema with
        | None | Some "" => "requestBody"
        | Some n => n
        end;
      MCPParameter.description :=
        Some match RequestBodyObject.description rb with
             | None | Some "" => "The request body."
             | Some d => d
             end;
      MCPParameter.type :=
        match schema_type contentSchema with
        | None | Some "" => "object"
        | Some t => t
        end;
      MCPParameter.required :=
        match RequestBodyObject.required rb with Some true => true | _ => false end;
      MCPParameter.schema := Some contentSchema;
      MCPParameter._in := Some "body" |},
   wrapped (RequestBodyObject.required rb) (RequestBodyObject.description rb)
     (openApiTypeToZod (Some contentSchema))).

Definition bodyEntries (requestBody : option (ReferenceOr RequestBodyObject.t))
  : list (MCPParameter.t * ZodTypeAny) :=
  match requestBody with
  | Some (Obj rb) =>
      match contentSchemaOf (RequestBodyObject.content rb) with
      | Some (Obj contentSchema) => [specifiedBody rb contentSchema]
      | _ => []
      end
  | _ => []
  end.

(** The merge as the specification orders it: path-item level, operation
    level, body. *)
Definition mergeOrder (pathItem : PathItemObject.t) (operation : OperationObject.t)
  : list (MCPParameter.t * ZodTypeAny) :=
  List.map specified (objectsOf (PathItemObject.parameters pathItem))
  ++ List.map specified (objectsOf (OperationObject.parameters operation))
  ++ bodyEntries (OperationObject.requestBody operation).

(** The last parameter object of a name. *)
Definition lastDeclared (n : string) (l : list ParameterObject.t)
  : option ParameterObject.t :=
  List.find (fun q => String.eqb (ParameterObject.name q) n) (rev l).

(** A [Map] whose every key is the name of the parameter under it. *)
Definition named (m : list (string * MCPParameter.t)) : Prop :=
  Forall (fun kp => fst kp = MCPParameter.name (snd kp)) m.

(** ** The specification's reading of the executor *)

Definition isUndefined (v : value) : bool :=
  match v with VUndefined => true | _ => false end.

(** What was read is [undefined]: the arguments have no such property of
    their own, or have it with the value [undefined], and no object
    inherits one of that name. *)
Definition unset (a : Arg) : bool :=
  match a with Given v => isUndefined v | Builtin _ => false end.

(** A parameter that is required and whose looked-up argument is
    [undefined]. *)
Definition missing (mcpArgs : gmap string value) (p : MCPParameter.t) : bool :=
  (MCPParameter.required p && unset (lookupArg mcpArgs (MCPParameter.name p)))%bool.

Definition firstMissing (mcpArgs : gmap string value)
  (ps : list MCPParameter.t) : option MCPParameter.t :=
  List.find (missing mcpArgs) ps.

(** The conversion fails. *)
Definition throws {A : Type} (c : completion A) : bool :=
  match c with Throw _ => true | Normal _ => false end.

(** A parameter located in the path or in a header whose argument is
    there and cannot be converted to a string. *)
Definition unprintable (mcpArgs : gmap string value) (p : MCPParameter.t)
  : bool :=
  ((in_is p "path" || in_is p "header")
   && negb (unset (lookupArg mcpArgs (MCPParameter.name p)))
   && throws (String_arg (lookupArg mcpArgs (MCPParameter.name p))))%bool.

Definition firstUnprintable (mcpArgs : gmap string value)
  (ps : list MCPParameter.t) : option MCPParameter.t :=
  List.find (unprintable mcpArgs) ps.

(** The first parameter at which the loop stops, if any. *)
Definition firstAbort (mcpArgs : gmap string value)
  (ps : list MCPParameter.t) : option MCPParameter.t :=
  List.find (fun p => (missing mcpArgs p || unprintable mcpArgs p)%bool) ps.

(** The error with which the loop stops at a parameter. *)
Definition abortOf (mcpArgs : gmap string value) (p : MCPParameter.t) : Exn.t :=
  if missing mcpArgs p
  then Error_ ("Missing required parameter: " ++ MCPParameter.name p)
  else match String_arg (lookupArg mcpArgs (MCPParameter.name p)) with
       | Throw e => e
       | Normal _ => cannotConvert
       end.

(** The locals after one parameter that does not abort the call. *)
Definition applyParam (mcpArgs : gmap string value) (d : Draft.t)
  (p : MCPParameter.t) : Draft.t :=
  match fst (processParam mcpArgs p d World.empty) with
  | Normal d' => d'
  | Throw _ => d
  end.

(** The locals when the [forEach] is through. *)
Definition finalDraft (operationDetails : OriginalOperationDetails.t)
  (mcpArgs : gmap string value) : Draft.t :=
  fold_left (applyParam mcpArgs)
    (OriginalOperationDetails.parameters operationDetails)
    (initialDraft operationDetails).

(** The one request of a call that gets as far as [axios]. *)
Definition requestOf (apiBaseUrl : string)
  (operationDetails : OriginalOperationDetails.t) (mcpArgs : gmap string value)
  : AxiosRequestConfig.t :=
  configOf apiBaseUrl operationDetails (finalDraft operationDetails mcpArgs).

(** The status as the detail string shows it. *)
Definition statusText (error : Exn.t) : string :=
  match Exn.response error with
  | Some r =>
      if Z.eqb (AxiosResponse.status r) 0 then "N/A"
      else Z_toString (AxiosResponse.status r)
  | None => "N/A"
  end.

(** The content type of a response, when there is one and it does not
    mention [json]. *)
Definition nonJsonContentType (r : AxiosResponse.t) : option string :=
  match truthy_opt (AxiosResponse.headers r !! "content-type") with
  | Some ct => if JsString.includes ct "json" then None else Some ct
  | None => None
  end.

(** The body of an error, when there is a response and its body is
    truthy. *)
Definition truthyBody (error : Exn.t) : option payload :=
  match Exn.response error with
  | Some r =>
      if truthy_payload (AxiosResponse.data r)
      then Some (AxiosResponse.data r) else None
  | None => None
  end.

Definition isWarning (e : console.entry) : bool :=
  match fst e with console.Warn => true | _ => false end.

(** ** Documents used below *)

Definition plainOperation : OperationObject.t :=
  {| OperationObject.operationId := None;
     OperationObject.summary := None;
     OperationObject.description := None;
     OperationObject.parameters := None;
     OperationObject.requestBody := None;
     OperationObject.responses := None |}.

Definition plainGet : PathItemObject.t :=
  {| PathItemObject.parameters := None;
     PathItemObject.keys := [("get", Some plainOperation)] |}.

(** Two distinct paths, each with a [get] operation that has no
    [operationId]. *)
Definition collidingDocument : Document.t :=
  {| Document.paths := Some [("/a-b", plainGet); ("/a/b", plainGet)] |}.

Definition integerSchema : SchemaObject :=
  Schema (Some "integer") None None None None None None.

Definition stringSchema : SchemaObject :=
  Schema (Some "string") None None None None None None.

(** [limit] as the path item declares it, and as the operation does. *)
Definition limitOfPath : ParameterObject.t :=
  {| ParameterObject.name := "limit";
     ParameterObject.in_ := "query";
     ParameterObject.description := Some "page size";
     ParameterObject.required := Some true;
     ParameterObject.schema := Some stringSchema |}.

Definition limitOfOperation : ParameterObject.t :=
  {| ParameterObject.name := "limit";
     ParameterObject.in_ := "query";
     ParameterObject.description := None;
     ParameterObject.required := None;
     ParameterObject.schema := Some integerSchema |}.

Definition listOperation : OperationObject.t :=
  {| OperationObject.operationId := Some "listPets";
     OperationObject.summary := None;
     OperationObject.description := None;
     OperationObject.parameters := Some [Obj limitOfOperation];
     OperationObject.requestBody := None;
     OperationObject.responses := None |}.

Definition listPathItem : PathItemObject.t :=
  {| PathItemObject.parameters := Some [Obj limitOfPath];
     PathItemObject.keys := [("parameters", None); ("get", Some listOperation)] |}.

(** [PUT /pets/{id}]: a parameter named [requestBody] at both levels,
    and a JSON body. *)
Definition requestBodyOfPath : ParameterObject.t :=
  {| ParameterObject.name := "requestBody";
     ParameterObject.in_ := "header";
     ParameterObject.description := None;
     ParameterObject.required := Some true;
     ParameterObject.schema := Some integerSchema |}.

Definition requestBodyOfOperation : ParameterObject.t :=
  {| ParameterObject.name := "requestBody";
     ParameterObject.in_ := "query";
     ParameterObject.description := None;
     ParameterObject.required := None;
     ParameterObject.schema := Some stringSchema |}.

Definition objectSchema : SchemaObject :=
  Schema (Some "object") None None None None None None.

Definition renameOperation : OperationObject.t :=
  {| OperationObject.operationId := Some "renamePet";
     OperationObject.summary := None;
     OperationObject.description := None;
     OperationObject.parameters := Some [Obj requestBodyOfOperation];
     OperationObject.requestBody :=
       Some (Obj {| RequestBodyObject.description := None;
                    RequestBodyObject.content :=
                      Some [("application/json",
                             {| MediaTypeObject.schema := Some (Obj objectSchema) |})];
                    RequestBodyObject.required := Some true |});
     OperationObject.responses := None |}.

Definition renamePathItem : PathItemObject.t :=
  {| PathItemObject.parameters := Some [Obj requestBodyOfPath];
     PathItemObject.keys := [("parameters", None); ("put", Some renameOperation)] |}.

(** The world once the request has been announced and handed over. *)
Definition afterRequest (w : World.t) (config : AxiosRequestConfig.t)
  (more : list console.entry) : World.t :=
  {| World.out :=
       World.out w
       ++ console.log ("Executing API call: " ++ AxiosRequestConfig.method config
                       ++ " " ++ AxiosRequestConfig.url config) :: more;
     World.sent := World.sent w ++ [config] |}.

(** The text of an argument that converts. *)
Definition textOf (a : Arg) : string :=
  match String_arg a with Normal s => s | Throw _ => EmptyString end.

(** A parameter whose argument is there and lands somewhere. *)
Definition given (mcpArgs : gmap string value) (location : string)
  (p : MCPParameter.t) : bool :=
  (in_is p location && negb (unset (lookupArg mcpArgs (MCPParameter.name p))))%bool.

(** The path template after the path parameters of a list, one
    placeholder replaced per parameter that has an argument, in order. *)
Definition substitute (mcpArgs : gmap string value) (urlPath : string)
  (p : MCPParameter.t) : string :=
  if given mcpArgs "path" p
  then JsString.replace_first ("{" ++ MCPParameter.name p ++ "}")
         (encodeURIComponent (textOf (lookupArg mcpArgs (MCPParameter.name p))))
         urlPath
  else urlPath.

Definition urlPathAfter (mcpArgs : gmap string value) (ps : list MCPParameter.t)
  (urlPath : string) : string :=
  fold_left (substitute mcpArgs) ps urlPath.

(** A body parameter of binary schema that has an argument. *)
Definition binaryGiven (mcpArgs : gmap string value) (p : MCPParameter.t) : bool :=
  (given mcpArgs "body" p && isBinarySchema (MCPParameter.schema p))%bool.

(** The body that a body parameter sends. *)
Definition bodyOf (mcpArgs : gmap string value) (p : MCPParameter.t)
  : carried Arg :=
  match lookupArg mcpArgs (MCPParameter.name p) with
  | Given (VString s) =>
      if isBinarySchema (MCPParameter.schema p)
      then Bytes (Buffer.from_base64 s) else Plain (Given (VString s))
  | a => Plain a
  end.

(** The request of the examples that carry no parameter value. *)
Definition bareRequest : AxiosRequestConfig.t :=
  {| AxiosRequestConfig.method := "GET";
     AxiosRequestConfig.url := "http://api.example/pets";
     AxiosRequestConfig.headers := {["Accept" := "application/json"]};
     AxiosRequestConfig.params := ∅;
     AxiosRequestConfig.data := Plain (Given VUndefined);
     AxiosRequestConfig.responseType := json |}.

Definition okResponse : AxiosResponse.t :=
  {| AxiosResponse.status := 200;
     AxiosResponse.headers := {["content-type" := "application/json"]};
     AxiosResponse.data := Plain (VArray []) |}.

(** ** Finite checks on the base64 tables *)

(** The numbers below [n]. *)
Definition below (n : nat) : list N := List.map N.of_nat (seq 0 n).

(** The digit of [n] is one character, not the padding, and reads back
    as [n]. *)
Definition digitReadsBack (n : N) : bool :=
  match Buffer.digit n with
  | String c EmptyString =>
      (match Buffer.unbase64 c with
       | Some m => N.eqb m n
       | None => false
       end
       && negb (N.eqb (JsString.code c) 61))%bool
  | _ => false
  end.

Definition firstOctetBack (x y : N) : bool :=
  (N.ltb (Buffer.sextet1 x) 64 && N.ltb (Buffer.sextet2 x y) 64
   && N.eqb (N.land (N.lor (N.shiftl (Buffer.sextet1 x) 2)
                       (N.shiftr (Buffer.sextet2 x y) 4)) 255) x)%bool.

(** [a] stands for the two low bits of the byte before [y], [c] for the
    two high bits of the byte after it. *)
Definition secondOctetBack (a y c : N) : bool :=
  N.eqb (N.land
           (N.lor (N.shiftl (N.lor (N.shiftl a 4) (N.shiftr y 4)) 4)
              (N.shiftr (N.lor (N.shiftl (N.land y 15) 2) c) 2)) 255) y.

Definition twoBits (x : N) : bool :=
  (N.ltb (N.land x 3) 4 && N.ltb (N.shiftr x 6) 4)%bool.

Definition thirdOctetBack (y z : N) : bool :=
  (N.ltb (Buffer.sextet3 y z) 64 && N.ltb (Buffer.sextet4 z) 64
   && N.eqb (N.land (N.lor (N.shiftl (Buffer.sextet3 y z) 6)
                       (Buffer.sextet4 z)) 255) z)%bool.

(** ** An environment for the examples *)

Definition dquote : string := String (ascii_of_N 34) EmptyString.

Definition lowerHex (n : N) : string :=
  match String.get (N.to_nat n) "0123456789abcdef" with
  | Some c => String c EmptyString
  | None => EmptyString
  end.

(** One code unit inside a JSON string literal. *)
Definition JSON_unit (c : ascii) : string :=
  let n := JsString.code c in
  if N.eqb n 34 then "\" ++ dquote
  else if N.eqb n 92 then "\\"
  else if N.eqb n 8 then "\b"
  else if N.eqb n 9 then "\t"
  else if N.eqb n 10 then "\n"
  else if N.eqb n 12 then "\f"
  else if N.eqb n 13 then "\r"
  else if N.ltb n 32 then "\u00" ++ lowerHex (N.div n 16) ++ lowerHex (N.modulo n 16)
  else String c EmptyString.

Fixpoint JSON_units (s : string) : string :=
  match s with
  | EmptyString => EmptyString
  | String c r => JSON_unit c ++ JSON_units r
  end.

Definition JSON_quote (s : string) : string := dquote ++ JSON_units s ++ dquote.

(** [JSON.stringify(v)] on a value of the embedding, as it appears inside
    a template literal. *)
Fixpoint JSON_text (v : value) : string :=
  match v with
  | VUndefined => "undefined"
  | VNull => "null"
  | VBool true => "true"
  | VBool false => "false"
  | VNumber n =>
      match JsNumber.ofZ n with
      | JsNumber.Finite m => JsNumber.toString (JsNumber.Finite m)
      | JsNumber.Infinity _ => "null"
      end
  | VString s => JSON_quote s
  | VArray elements =>
      "[" ++ JsString.join ","
               (List.map (fun e => match e with
                                   | VUndefined => "null"
                                   | _ => JSON_text e
                                   end) elements) ++ "]"
  | VObject fields =>
      "{" ++ JsString.join ","
               (flat_map (fun kv : string * value =>
                            match snd kv with
                            | VUndefined => []
                            | _ =>
                                [(JSON_quote (fst kv) ++ ":"
                                  ++ JSON_text (snd kv))%string]
                            end) fields) ++ "}"
  end.

Definition JSON_payload (d : payload) : string :=
  match d with
  | Plain v => JSON_text v
  | Bytes b =>
      "{" ++ JSON_quote "type" ++ ":" ++ JSON_quote "Buffer" ++ ","
      ++ JSON_quote "data" ++ ":["
      ++ JsString.join "," (List.map (fun x => Z_toString (Z.of_N (Byte.to_N x))) b)
      ++ "]}"
  end.

(** A server that gives the one [reply] to every request. *)
Definition serverOf (reply : completion AxiosResponse.t) : Environment :=
  {| axios := fun _ => reply;
     JSON_stringify := fun d => Normal (JSON_payload d);
     Buffer_from := fun _ =>
       Throw (Error_ "The first argument must be of type string or an instance of Buffer, ArrayBuffer, or Array or an Array-like Object.") |}.

Definition parameter (name location : string) (required : bool)
  (schema : option SchemaObject) : MCPParameter.t :=
  {| MCPParameter.name := name;
     MCPParameter.description := None;
     MCPParameter.type := "string";
     MCPParameter.required := required;
     MCPParameter.schema := schema;
     MCPParameter._in := Some location |}.

(** [GET /pets/{petId}], answered with an image. *)
Definition getPhoto : OriginalOperationDetails.t :=
  {| OriginalOperationDetails.method := "GET";
     OriginalOperationDetails.path := "/pets/{petId}/photo";
     OriginalOperationDetails.parameters := [parameter "petId" "path" true None];
     OriginalOperationDetails.consumes := None;
     OriginalOperationDetails.produces := Some ["image/png"] |}.

Definition photoResponse : AxiosResponse.t :=
  {| AxiosResponse.status := 200;
     AxiosResponse.headers := {["content-type" := "image/png"]};
     AxiosResponse.data := Bytes [x48; x65; x6c; x6c; x6f] |}.

(** [GET /pets] with two required query parameters. *)
Definition findPets : OriginalOperationDetails.t :=
  {| OriginalOperationDetails.method := "GET";
     OriginalOperationDetails.path := "/pets";
     OriginalOperationDetails.parameters :=
       [parameter "status" "query" true None; parameter "owner" "query" true None];
     OriginalOperationDetails.consumes := None;
     OriginalOperationDetails.produces := None |}.

(** [GET /pets] with a required cookie parameter. *)
Definition sessionPets : OriginalOperationDetails.t :=
  {| OriginalOperationDetails.method := "GET";
     OriginalOperationDetails.path := "/pets";
     OriginalOperationDetails.parameters := [parameter "session" "cookie" true None];
     OriginalOperationDetails.consumes := None;
     OriginalOperationDetails.produces := None |}.

(** [GET /pets] with a required query parameter named [constructor]. *)
Definition constructedPets : OriginalOperationDetails.t :=
  {| OriginalOperationDetails.method := "GET";
     OriginalOperationDetails.path := "/pets";
     OriginalOperationDetails.parameters :=
       [parameter "constructor" "query" true None];
     OriginalOperationDetails.consumes := None;
     OriginalOperationDetails.produces := None |}.

Definition binarySchema : SchemaObject :=
  Schema (Some "string") (Some "binary") None None None None None.

(** [POST /pets/photo] with a required binary body. *)
Definition uploadPhoto : OriginalOperationDetails.t :=
  {| OriginalOperationDetails.method := "POST";
     OriginalOperationDetails.path := "/pets/photo";
     OriginalOperationDetails.parameters :=
       [parameter "requestBody" "body" true (Some binarySchema)];
     OriginalOperationDetails.consumes := Some ["application/octet-stream"];
     OriginalOperationDetails.produces := None |}.

(** A 404 answer of type [text/plain] with an empty body, as [axios]
    rejects with it. *)
Definition emptyNotFound : Exn.t :=
  {| Exn.message := "Request failed with status code 404";
     Exn.response :=
       Some {| AxiosResponse.status := 404;
               AxiosResponse.headers := {["content-type" := "text/plain"]};
               AxiosResponse.data := Plain (VString "") |} |}.

(** The same with a body. *)
Definition notFound : Exn.t :=
  {| Exn.message := "Request failed with status code 404";
     Exn.response :=
       Some {| AxiosResponse.status := 404;
               AxiosResponse.headers := {["content-type" := "application/json"]};
               AxiosResponse.data :=
                 Plain (VObject [("error", VString "no such pet")]) |} |}.

(** ** Further readings of the executor *)

(** A character that [encodeURIComponent] can put out: an unreserved one,
    or the percent sign of an escape. *)
Definition uriSafe (c : ascii) : bool :=
  (unreserved c || N.eqb (JsString.code c) 37)%bool.

(** No argument is given for the parameter and it is optional. *)
Definition skipped (mcpArgs : gmap string value) (p : MCPParameter.t) : bool :=
  (unset (lookupArg mcpArgs (MCPParameter.name p))
   && negb (MCPParameter.required p))%bool.

(** A header parameter of the given name. *)
Definition headerNamed (name : string) (p : MCPParameter.t) : bool :=
  (in_is p "header" && String.eqb (MCPParameter.name p) name)%bool.

(** A body parameter of binary schema. *)
Definition binaryBody (p : MCPParameter.t) : bool :=
  (in_is p "body" && isBinarySchema (MCPParameter.schema p))%bool.

(** The [Accept] header that the operation itself asks for. *)
Definition declaredAccept (operationDetails : OriginalOperationDetails.t) : string :=
  firstOr (OriginalOperationDetails.produces operationDetails) "application/json".

(** An [Accept] value under which the response is read as JSON. *)
Definition jsonLike (accept : string) : bool :=
  (JsString.includes (JsString.toLowerCase accept) "json"
   || JsString.includes (JsString.toLowerCase accept) "*/*")%bool.

(** [GET /pets/{petId}/photo] with an optional path parameter and an
    optional query parameter. *)
Definition optionalPhoto : OriginalOperationDetails.t :=
  {| OriginalOperationDetails.method := "GET";
     OriginalOperationDetails.path := "/pets/{petId}/photo";
     OriginalOperationDetails.parameters :=
       [parameter "petId" "path" false None; parameter "size" "query" false None];
     OriginalOperationDetails.consumes := None;
     OriginalOperationDetails.produces := None |}.

(** ** Further readings of the adapter *)

(** The keys of a path item that are HTTP verbs and hold an operation. *)
Definition verbOperations (pathItem : PathItemObject.t)
  : list (string * OperationObject.t) :=
  flat_map (fun key : string * option OperationObject.t =>
              match snd key with
              | Some operation =>
                  if existsb (String.eqb (fst key)) HttpMethods
                  then [(fst key, operation)] else []
              | None => []
              end) (PathItemObject.keys pathItem).

(** The operations of a document, in the order of its paths and keys. *)
Definition operationsOf (paths : list (string * PathItemObject.t))
  : list (string * PathItemObject.t * (string * OperationObject.t)) :=
  flat_map (fun entry : string * PathItemObject.t =>
              List.map (fun vo => (fst entry, snd entry, vo))
                (verbOperations (snd entry))) paths.

(** The tool of one operation, adapted on its own. *)
Definition toolOf (o : string * PathItemObject.t * (string * OperationObject.t))
  : SdkToolDefinition.t :=
  fst (adaptOperation (fst (fst o)) (snd (fst o)) (fst (snd o)) (snd (snd o)) []).

(** The unresolved references of a parameter list. *)
Definition refsOf (ps : option (list (ReferenceOr ParameterObject.t)))
  : list string :=
  match ps with
  | None => []
  | Some l =>
      omap (fun p => match p with Ref r => Some r | Obj _ => None end) l
  end.

(** A shape entry wrapped by [.optional()], under a description or not. *)
Definition isOptional (z : ZodTypeAny) : bool :=
  match z with
  | ZodOptional _ | ZodDescribed (ZodOptional _) _ => true
  | _ => false
  end.

Definition isWrapped (z : ZodTypeAny) : bool :=
  match z with
  | ZodOptional _ | ZodDescribed _ _ => true
  | _ => false
  end.

(** The response codes whose content types count as produced. *)
Definition producingCode (code : string) : bool :=
  (JsString.startsWith code "2" || String.eqb code "default")%bool.

(** [POST /pets] with a JSON body declared after an XML one. *)
Definition petSchema : SchemaObject :=
  Schema (Some "object") None None None None None None.

Definition createPet : OperationObject.t :=
  {| OperationObject.operationId := Some "createPet";
     OperationObject.summary := Some "Add a pet";
     OperationObject.description := None;
     OperationObject.parameters := Some [Ref "#/components/parameters/Trace"];
     OperationObject.requestBody :=
       Some (Obj {| RequestBodyObject.description := None;
                    RequestBodyObject.content :=
                      Some [("application/xml",
                             {| MediaTypeObject.schema := Some (Obj stringSchema) |});
                            ("application/json",
                             {| MediaTypeObject.schema := Some (Obj petSchema) |})];
                    RequestBodyObject.required := Some true |});
     OperationObject.responses :=
       Some [("201",
              Obj {| ResponseObject.content :=
                       Some [("application/json",
                              {| MediaTypeObject.schema := None |})] |});
             ("default",
              Obj {| ResponseObject.content :=
                       Some [("text/plain",
                              {| MediaTypeObject.schema := None |})] |})] |}.

Definition petsPathItem : PathItemObject.t :=
  {| PathItemObject.parameters := Some [Obj limitOfPath];
     PathItemObject.keys :=
       [("summary", None); ("parameters", None); ("post", Some createPet);
        ("get", Some listOperation)] |}.

(** ** server.ts: the base URL and the tool handler *)

(** The line feed of a template literal. *)
Definition nl : string := String (ascii_of_N 10) EmptyString.

Module ServerObject.
Record t : Type := { url : option string }.
End ServerObject.

(** The fields of the parsed document that [createServerInfrastructure]
    reads through [spec]. *)
Module ApiDescription.
Record t : Type :=
  { swagger : option string;
    schemes : option (list string);
    host : option string;
    basePath : option string;
    servers : option (list ServerObject.t) }.
End ApiDescription.

Definition orEmpty (o : option string) : string :=
  match truthy_opt o with Some s => s | None => "" end.

(** [`${v}`] for an optional string. *)
Definition shown (o : option string) : string :=
  match o with Some s => s | None => "undefined" end.

(** The [apiBaseUrl] that [createServerInfrastructure] works out, and its
    warnings. *)
Definition deriveApiBaseUrl (spec : ApiDescription.t)
  : option string * list console.entry :=
  let '(apiBaseUrl, out) :=
    if match ApiDescription.swagger spec with
       | Some v => String.eqb v "2.0"
       | None => false
       end
    then
      let scheme :=
        if match ApiDescription.schemes spec with
           | Some l => existsb (fun s => String.eqb s "https") l
           | None => false
           end
        then "https"
        else firstOr (ApiDescription.schemes spec) "http" in
      let basePath := orEmpty (ApiDescription.basePath spec) in
      match truthy_opt (ApiDescription.host spec) with
      | Some host => (Some (scheme ++ "://" ++ host ++ basePath)%string, [])
      | None =>
          (None,
           [console.warn "Swagger 2.0: Missing host, cannot determine base URL."])
      end
    else
      match ApiDescription.servers spec with
      | Some (server :: more) =>
          (ServerObject.url server,
           match more with
           | [] => []
           | _ => [console.warn ("Multiple servers found, using: "
                                 ++ shown (ServerObject.url server))]
           end)
      | _ => (None, [])
      end in
  (apiBaseUrl,
   match truthy_opt apiBaseUrl with
   | Some _ => out
   | None =>
       out ++ [console.warn "Could not determine API base URL. API calls might fail."]
   end).

Definition couldNotDetermine : console.entry :=
  console.warn "Could not determine API base URL. API calls might fail.".

(** What the handler takes from the runtime besides the executor's
    environment: [JSON.stringify(v, null, 2)], the message of the
    [TypeError] for reading a property of [undefined] or [null], and the
    way the console shows an error object. *)
Class Rendering : Type :=
  { JSON_stringify_pretty : payload -> completion string;
    cannotRead : value -> string -> string;
    inspect : Exn.t -> string }.

(** [result.k] *)
Definition property (result : payload) (k : string) : value :=
  match result with
  | Plain (VObject fields) => default VUndefined (get fields k)
  | _ => VUndefined
  end.

(** [typeof result === 'object'] *)
Definition typeofObject (result : payload) : bool :=
  match result with
  | Plain VNull | Plain (VArray _) | Plain (VObject _) | Bytes _ => true
  | _ => false
  end.

(** [v.length] *)
Definition lengthOf `{Rendering} (v : value) : completion value :=
  match v with
  | VUndefined | VNull => Throw (Error_ (cannotRead v "length"))
  | VString s => Normal (VNumber (Z.of_nat (String.length s)))
  | VArray elements => Normal (VNumber (Z.of_nat (length elements)))
  | VObject fields => Normal (default VUndefined (get fields "length"))
  | _ => Normal VUndefined
  end.

(** [`${extra?.requestId || 'unknown'}`] *)
Definition requestIdText (requestId : value) : completion string :=
  if truthy requestId then String_ requestId else Normal "unknown".

Module TextContent.
Record t : Type := { type : string; text : string }.
End TextContent.

(** The text of a result.  A template literal converts each value where
    it stands, before the next one is read. *)
Definition resultTextOf `{Rendering} (result : payload) : Eff string :=
  if (truthy_payload result && typeofObject result
      && truthy (property result "_isBinary"))%bool
  then
    (perform contentType <- lift (String_ (property result "contentType")) ;;
     perform length <- lift (lengthOf (property result "data")) ;;
     perform size <- lift (String_ length) ;;
     ret ("Binary data received: Content-Type: " ++ contentType
          ++ ", Base64 Encoded Size: " ++ size ++ " bytes")%string)%eff
  else
    match result with
    | Plain (VString s) => ret s
    | _ => lift (JSON_stringify_pretty result)
    end.

(** The callback registered for a tool: [requestId] is
    [extra?.requestId]; the result is the [content] of the reply. *)
Definition toolHandler `{Environment} `{Rendering} (apiBaseUrl : option string)
  (toolDef : SdkToolDefinition.t) (args : gmap string value) (requestId : value)
  : Eff (list TextContent.t) :=
  let name := SdkToolDefinition.name toolDef in
  (perform id <- lift (requestIdText requestId) ;;
   exec print (console.log ("Tool invoked: " ++ name ++ " (Request ID: "
                            ++ id ++ ")")) ;;
   try_catch
     (perform result <-
        executeApiCall apiBaseUrl (SdkToolDefinition._originalOperation toolDef)
          args ;;
      perform resultText <- resultTextOf result ;;
      ret [{| TextContent.type := "text";
              TextContent.text :=
                ("Tool " ++ name ++ " executed successfully." ++ nl ++ "Result:"
                 ++ nl ++ "```" ++ nl ++ resultText ++ nl ++ "```")%string |}])
     (fun error =>
        let errorMessage :=
          ("Error executing tool " ++ name ++ ": " ++ Exn.message error)%string in
        perform id <- lift (requestIdText requestId) ;;
        exec print (console.error (errorMessage ++ " (Request ID: " ++ id ++ ")")) ;;
        throw (Error_ errorMessage)))%eff.

(** ** server.ts: the SSE sessions *)

Definition SSE_MESSAGE_ENDPOINT_PATH : string := "/messages".
Definition SSE_ENDPOINT_PATH : string := "/sse".

(** [new SSEServerTransport(endpoint, res)], with the session id that the
    SDK draws for it. *)
Module SSEServerTransport.
Record t : Type := { endpoint : string; sessionId : string }.
End SSEServerTransport.

(** What ends a request: a reply sent by the server's own code, or the
    response left in the hands of a transport. *)
Inductive Reply : Type :=
| Send (status : Z) (body : string)
| LeftTo (transport : SSEServerTransport.t).

(** [sseTransports[sessionId]]: a transport stored under the key, or what
    the object inherits under that name, or [undefined]. *)
Inductive Slot : Type :=
| Own (transport : SSEServerTransport.t)
| Inherited
| Missing.

Definition slotOf (sseTransports : gmap string SSEServerTransport.t)
  (sessionId : string) : Slot :=
  match sseTransports !! sessionId with
  | Some t => Own t
  | None =>
      if existsb (String.eqb sessionId) ObjectPrototype then Inherited
      else Missing
  end.

(** [app.get('/sse')]: [connect] is how [mcpServer.connect] ended, and
    [headersSent] the flag of the response at that moment. *)
Definition handleSseGet `{Rendering}
  (sseTransports : gmap string SSEServerTransport.t) (ip : option string)
  (sessionId : string) (connect : completion unit) (headersSent : bool)
  : gmap string SSEServerTransport.t * list console.entry * Reply :=
  let sseTransport :=
    {| SSEServerTransport.endpoint := SSE_MESSAGE_ENDPOINT_PATH;
       SSEServerTransport.sessionId := sessionId |} in
  let out :=
    [console.log ("SSE connection request received from " ++ shown ip);
     console.log ("SSE transport created for session " ++ sessionId)] in
  let sseTransports := <[sessionId := sseTransport]> sseTransports in
  match connect with
  | Normal _ =>
      (sseTransports,
       out ++ [console.log ("MCP Server connected to SSE transport for session "
                            ++ sessionId)],
       LeftTo sseTransport)
  | Throw error =>
      (delete sessionId sseTransports,
       out ++ [console.error
                 ("Error connecting MCP Server to SSE transport for session "
                  ++ sessionId ++ ": " ++ inspect error)],
       if headersSent then LeftTo sseTransport
       else Send 500 "Failed to establish MCP connection over SSE")
  end.

(** The [close] listener of a session's response. *)
Definition handleSseClose (sseTransports : gmap string SSEServerTransport.t)
  (sessionId : string)
  : gmap string SSEServerTransport.t * list console.entry :=
  (delete sessionId sseTransports,
   [console.log ("SSE connection closed for session " ++ sessionId
                 ++ ". Cleaning up transport.")]).

(** [app.post('/messages')]: [sessionId] is [req.query.sessionId],
    [handled] is how [handlePostMessage] ended. *)
Definition handleMessagePost `{Rendering}
  (sseTransports : gmap string SSEServerTransport.t) (sessionId : option string)
  (handled : completion unit) (headersSent : bool)
  : list console.entry * option Reply :=
  match truthy_opt sessionId with
  | None => ([], Some (Send 400 "Missing sessionId query parameter"))
  | Some sessionId =>
      let received :=
        console.log ("Received POST message for SSE session " ++ sessionId) in
      let failed (error : Exn.t) (headersSent : bool) :=
        ([received;
          console.error ("Error handling POST message for SSE session "
                         ++ sessionId ++ ": " ++ inspect error)],
         if headersSent then None else Some (Send 500 "Error processing message")) in
      match slotOf sseTransports sessionId with
      | Own sseTransport =>
          match handled with
          | Normal _ => ([received], Some (LeftTo sseTransport))
          | Throw error => failed error headersSent
          end
      | Inherited =>
          failed (Error_ "sseTransport.handlePostMessage is not a function") false
      | Missing =>
          ([console.warn ("No active SSE transport found for session "
                          ++ sessionId)],
           Some (Send 400 ("No active SSE transport found for session "
                           ++ sessionId)))
      end
  end.

(** ** parser.ts, and the registration and start-up of server.ts *)

(** The parsed document: what [createServerInfrastructure] reads of it
    through [spec], and what the adapter reads. *)
Module ParsedDocument.
Record t : Type :=
  { description : ApiDescription.t;
    document : Document.t }.
End ParsedDocument.

(** What the start-up takes from its surroundings:
    [SwaggerParser.validate], [mcpServer.connect(transport)] and
    [server.listen(port, host)]. *)
Class Platform : Type :=
  { SwaggerParser_validate : string -> completion ParsedDocument.t;
    connect_transport : completion unit;
    listen : JsNumber.t -> string -> completion unit }.

Definition parseOpenAPI `{Rendering} `{Platform} (filePath : string)
  : Eff ParsedDocument.t :=
  (exec print (console.log ("Parsing and validating OpenAPI file: " ++ filePath)) ;;
   try_catch
     (perform api <- lift (SwaggerParser_validate filePath) ;;
      exec print (console.log
                    "OpenAPI specification parsed and validated successfully.") ;;
      ret api)
     (fun err =>
        exec print (console.error
                      ("Error parsing or validating OpenAPI file " ++ filePath
                       ++ ": " ++ inspect err)) ;;
        throw (Error_ ("Failed to parse OpenAPI specification: "
                       ++ Exn.message err))))%eff.

(** The SDK's [McpServer], as far as [tool()] goes: the tools it holds in
    [_registeredTools], a plain object keyed by name, in the order of
    their registration. *)
Module McpServer.

Definition t : Type := list (string * SdkToolDefinition.t).

(** [this._registeredTools[name]], tested for truthiness. *)
Definition registered (server : t) (name : string) : bool :=
  match get server name with
  | Some _ => true
  | None => inherited name
  end.

(** [mcpServer.tool(name, shape, callback)] *)
Definition tool (server : t) (toolDef : SdkToolDefinition.t) : completion t :=
  let name := SdkToolDefinition.name toolDef in
  if registered server name
  then Throw (Error_ ("Tool " ++ name ++ " is already registered"))
  else Normal (server ++ [(name, toolDef)]).

End McpServer.

(** The callback of [sdkTools.forEach]. *)
Definition registerTool (toolDef : SdkToolDefinition.t) (mcpServer : McpServer.t)
  : Eff McpServer.t :=
  (exec print (console.log
                 ("Registering tool: " ++ SdkToolDefinition.name toolDef
                  ++ " (Description: "
                  ++ match truthy_opt (SdkToolDefinition.description toolDef) with
                     | Some d => d
                     | None => "N/A"
                     end ++ ")")) ;;
   lift (McpServer.tool mcpServer toolDef))%eff.

Definition prints (entries : list console.entry) : Eff unit :=
  fun w =>
    (Normal tt,
     {| World.out := World.out w ++ entries; World.sent := World.sent w |}).

(** What [createServerInfrastructure] sets up before the routes: the base
    URL that the handlers close over, and the server with its tools. *)
Module Infrastructure.
Record t : Type :=
  { apiBaseUrl : option string;
    mcpServer : McpServer.t }.
End Infrastructure.

Definition createServerInfrastructure `{Rendering} `{Platform}
  (openapiFilePath : string) : Eff Infrastructure.t :=
  (exec print (console.log ("Parsing OpenAPI spec from " ++ openapiFilePath)) ;;
   perform apiSpec <- parseOpenAPI openapiFilePath ;;
   let '(apiBaseUrl, warnings) :=
     deriveApiBaseUrl (ParsedDocument.description apiSpec) in
   exec prints warnings ;;
   let '(sdkTools, adapted) :=
     adaptOpenAPIToSdkTools (ParsedDocument.document apiSpec) in
   exec prints adapted ;;
   perform mcpServer <- forEach registerTool sdkTools [] ;;
   ret {| Infrastructure.apiBaseUrl := apiBaseUrl;
          Infrastructure.mcpServer := mcpServer |})%eff.

(** What became of the start-up: the console, the exit status if the
    process was ended, and the infrastructure if the server was set to
    listen. *)
Module Started.
Record t : Type :=
  { out : list console.entry;
    exit : option Z;
    infrastructure : option Infrastructure.t }.
End Started.

(** [runServer], up to the return of [server.listen]. *)
Definition runServer `{Rendering} `{Platform} (host : string) (port : JsNumber.t)
  (openapiFilePath : string) : Started.t :=
  let start : Eff Infrastructure.t :=
    (perform infrastructure <- createServerInfrastructure openapiFilePath ;;
     exec lift connect_transport ;;
     exec print (console.log
                   "MCP Server connected to primary Streamable HTTP transport.") ;;
     exec lift (listen port host) ;;
     ret infrastructure)%eff in
  match start World.empty with
  | (Normal infrastructure, w) =>
      {| Started.out := World.out w;
         Started.exit := None;
         Started.infrastructure := Some infrastructure |}
  | (Throw error, w) =>
      {| Started.out :=
           World.out w
           ++ [console.error ("Failed to initialize or start server: "
                              ++ inspect error)];
         Started.exit := Some 1%Z;
         Started.infrastructure := None |}
  end.

(** The registry that holds each tool of a list under its name. *)
Definition registryOf (tools : list SdkToolDefinition.t) : McpServer.t :=
  List.map (fun t => (SdkToolDefinition.name t, t)) tools.

(** The first tool of a list that [tool()] refuses, registration starting
    from [server]. *)
Fixpoint firstRefused (server : McpServer.t) (tools : list SdkToolDefinition.t)
  : option SdkToolDefinition.t :=
  match tools with
  | [] => None
  | t :: rest =>
      if McpServer.registered server (SdkToolDefinition.name t) then Some t
      else firstRefused (server ++ [(SdkToolDefinition.name t, t)]) rest
  end.

(** ** index.ts: the [serve] command *)

Definition isWhiteSpace (c : ascii) : bool :=
  existsb (N.eqb (JsString.code c)) [9; 10; 11; 12; 13; 32; 160]%N.

Fixpoint trimStart (s : string) : string :=
  match s with
  | String c r => if isWhiteSpace c then trimStart r else s
  | EmptyString => EmptyString
  end.

(** The value of the longest prefix of decimal digits, [acc] being the
    value of the digits read so far, if any. *)
Fixpoint digitsValue (s : string) (acc : option Z) : option Z :=
  match s with
  | String c r =>
      if JsString.is_digit c
      then digitsValue r
             (Some (10 * default 0%Z acc + Z.of_N (JsString.code c - 48))%Z)
      else acc
  | EmptyString => acc
  end.

(** [parseInt(s, 10)]; [None] is [NaN]. *)
Definition parseInt (s : string) : option JsNumber.t :=
  match trimStart s with
  | String "-" r => (fun n => JsNumber.ofZ (- n)) <$> digitsValue r None
  | String "+" r => JsNumber.ofZ <$> digitsValue r None
  | t => JsNumber.ofZ <$> digitsValue t None
  end.

Module Options.
Record t : Type := { port : string; host : string; file : string }.
End Options.

(** What became of the command: the console, the exit status if the
    process was ended, and the arguments of [runServer] if it was
    called. *)
Module Served.
Record t : Type :=
  { out : list console.entry;
    exit : option Z;
    ran : option (string * JsNumber.t * string) }.
End Served.

(** The action of [serve]: [runServer] is how the call ended. *)
Definition serve `{Rendering} (options : Options.t)
  (runServer : string -> JsNumber.t -> string -> completion unit) : Served.t :=
  let host := Options.host options in
  let openapiFilePath := Options.file options in
  match parseInt (Options.port options) with
  | None =>
      {| Served.out := [console.error "Error: Invalid port number"];
         Served.exit := Some 1%Z;
         Served.ran := None |}
  | Some port =>
      if negb (JsString.truthy openapiFilePath) then
        {| Served.out :=
             [console.error "Error: OpenAPI specification file path is required. Use -f or --file option."];
           Served.exit := Some 1%Z;
           Served.ran := None |}
      else
        match runServer host port openapiFilePath with
        | Normal _ =>
            {| Served.out := [];
               Served.exit := None;
               Served.ran := Some (host, port, openapiFilePath) |}
        | Throw error =>
            {| Served.out :=
                 [console.error ("Failed to start server: " ++ inspect error)];
               Served.exit := Some 1%Z;
               Served.ran := Some (host, port, openapiFilePath) |}
        end
  end.

(** ** A runtime for the examples *)

Definition plainRendering : Rendering :=
  {| JSON_stringify_pretty := fun d => Normal (JSON_payload d);
     cannotRead := fun v k =>
       ("Cannot read properties of " ++ Untyped.shownPrimitive v
        ++ " (reading '" ++ k
        ++ "')")%string;
     inspect := Exn.message |}.

(** A platform whose parser reads the one document from every file and
    on which connecting and listening succeed. *)
Definition platformOf (parsed : ParsedDocument.t) : Platform :=
  {| SwaggerParser_validate := fun _ => Normal parsed;
     connect_transport := Normal tt;
     listen := fun _ _ => Normal tt |}.

Definition photoTool : SdkToolDefinition.t :=
  {| SdkToolDefinition.name := "getPhoto";
     SdkToolDefinition.description := None;
     SdkToolDefinition.zodShape := ∅;
     SdkToolDefinition._originalOperation := getPhoto |}.

Definition swaggerPetstore : ApiDescription.t :=
  {| ApiDescription.swagger := Some "2.0";
     ApiDescription.schemes := Some ["http"; "https"];
     ApiDescription.host := Some "petstore.example";
     ApiDescription.basePath := Some "/v2";
     ApiDescription.servers := None |}.

(** A platform on which the file cannot be read. *)
Definition unreadable : Platform :=
  {| SwaggerParser_validate := fun file =>
       Throw (Error_ ("ENOENT: no such file or directory, open '" ++ file ++ "'"));
     connect_transport := Normal tt;
     listen := fun _ _ => Normal tt |}.

(** The two colliding paths, served from [petstore.example]. *)
Definition collidingParsed : ParsedDocument.t :=
  {| ParsedDocument.description := swaggerPetstore;
     ParsedDocument.document := collidingDocument |}.

Definition hostlessSwagger : ApiDescription.t :=
  {| ApiDescription.swagger := Some "2.0";
     ApiDescription.schemes := Some ["https"];
     ApiDescription.host := None;
     ApiDescription.basePath := Some "/v2";
     ApiDescription.servers := None |}.

(** * Properties *)

#[local] Arguments String.append !_ _ / : simpl nomatch.

Section ToolNames.

Lemma append_empty_r (s : string) : (s ++ "")%string = s.
Proof. induction s as [|c s IH]; simpl; [reflexivity | now rewrite IH]. Qed.

Lemma append_assoc (a b c : string) :
  ((a ++ b) ++ c)%string = (a ++ (b ++ c))%string.
Proof. induction a as [|x a IH]; simpl; [reflexivity | now rewrite IH]. Qed.

Lemma is_underscore_eq (c : ascii) :
  JsString.is_underscore c = true -> c = "_"%char.
Proof.
  unfold JsString.is_underscore, JsString.code. intros E.
  apply N.eqb_eq in E. rewrite <- (ascii_N_embedding c), E. reflexivity.
Qed.

Lemma alnum_not_underscore (c : ascii) :
  alnum c = true -> Ascii.eqb c "_" = false.
Proof.
  intros A. destruct (Ascii.eqb c "_") eqn:E; [|reflexivity].
  apply Ascii.eqb_eq in E. subst c. discriminate A.
Qed.

Lemma path_char_alnum (c : ascii) :
  path_char c = (alnum c || JsString.is_underscore c)%bool.
Proof. reflexivity. Qed.

Lemma split_cons (sep : ascii) (t : string) :
  exists w ws, JsString.split sep t = w :: ws.
Proof.
  induction t as [|c t [w [ws IH]]]; simpl; [eauto|].
  rewrite IH. destruct (Ascii.eqb c sep); eauto.
Qed.

(** Splitting after a prefix that holds no separator. *)
Lemma split_after_word (cur t : string) :
  all_chars alnum cur = true ->
  exists w ws,
    JsString.split "_" t = w :: ws /\
    JsString.split "_" (cur ++ t) = (cur ++ w)%string :: ws.
Proof.
  intros A. destruct (split_cons "_" t) as [w [ws E]].
  exists w, ws. split; [exact E|].
  induction cur as [|c cur IH]; simpl; [exact E|].
  simpl in A. apply andb_true_iff in A as [Ac A].
  rewrite (alnum_not_underscore c Ac), (IH A). reflexivity.
Qed.

Lemma all_chars_snoc (P : ascii -> bool) (s : string) (c : ascii) :
  all_chars P s = true -> P c = true ->
  all_chars P (s ++ String c "") = true.
Proof.
  induction s as [|x s IH]; simpl; intros A Pc.
  - now rewrite Pc.
  - apply andb_true_iff in A as [Px A]. rewrite Px. simpl. now apply IH.
Qed.

Lemma filter_word (cur : string) (rest : list string) :
  filter (fun p => JsString.truthy p = true) (cur :: rest)
  = word cur ++ filter (fun p => JsString.truthy p = true) rest.
Proof.
  rewrite filter_cons. unfold word.
  destruct (JsString.truthy cur); simpl; reflexivity.
Qed.

(** The code's split-and-filter finds the runs of letters and digits. *)
Lemma split_filter_runs (s : string) :
  forall cur : string,
    all_chars alnum cur = true ->
    filter (fun p => JsString.truthy p = true)
      (JsString.split "_" (cur ++ JsString.replace_outside path_char s))
    = runs alnum s cur.
Proof.
  induction s as [|c s IH]; intros cur A.
  - change (JsString.replace_outside path_char "") with "".
    destruct (split_after_word cur "" A) as [w [ws [E ->]]].
    simpl in E. injection E as <- <-.
    rewrite append_empty_r, filter_word. simpl. apply app_nil_r.
  - change (JsString.replace_outside path_char (String c s))
      with (String (if path_char c then c else "_"%char)
              (JsString.replace_outside path_char s)).
    rewrite path_char_alnum. cbn [runs].
    destruct (alnum c) eqn:Ac; cbn [orb].
    + rewrite <- (IH (cur ++ String c "")%string)
        by (apply all_chars_snoc; assumption).
      rewrite append_assoc. reflexivity.
    + assert (E : (if JsString.is_underscore c then c else "_"%char) = "_"%char).
      { destruct (JsString.is_underscore c) eqn:U; [|reflexivity].
        now apply is_underscore_eq. }
      rewrite E.
      destruct (split_after_word cur
                  (String "_" (JsString.replace_outside path_char s)) A)
        as [w [ws [Es ->]]].
      simpl in Es. injection Es as <- <-.
      rewrite append_empty_r, filter_word.
      f_equal. exact (IH "" eq_refl).
Qed.

Lemma map_length (f : ascii -> ascii) (s : string) :
  String.length (JsString.map f s) = String.length s.
Proof. induction s as [|c s IH]; simpl; [reflexivity | now rewrite IH]. Qed.

Lemma map_get (f : ascii -> ascii) (s : string) (i : nat) :
  String.get i (JsString.map f s) = f <$> String.get i s.
Proof.
  revert i. induction s as [|c s IH]; intros i; simpl; [reflexivity|].
  destruct i; simpl; [reflexivity | apply IH].
Qed.

Lemma truthy_opt_Some (id : string) : id <> "" -> truthy_opt (Some id) = Some id.
Proof. destruct id; [congruence | reflexivity]. Qed.

(** C8, as amended: for every operation with a non-empty [operationId],
    the tool name is the identifier with every character outside
    [[A-Za-z0-9_]] replaced by an underscore. *)
Theorem name_from_operationId (method path id : string) :
  id <> "" ->
  sanitized id (generateFunctionName method path (Some id)).
Proof.
  intros Hid. unfold generateFunctionName. rewrite (truthy_opt_Some id Hid).
  unfold JsString.replace_outside. split.
  - apply map_length.
  - intros i. apply map_get.
Qed.

Lemma name_from_operationId_witness :
  sanitized "find pets/by-status"
    (generateFunctionName "get" "/pet/findByStatus" (Some "find pets/by-status")).
Proof. apply name_from_operationId. discriminate. Defined.

(** C8 fails for the empty [operationId], which the code's truthiness test
    treats as absent: the name comes from the method and the path. *)
Lemma empty_operationId_uses_path :
  generateFunctionName "get" "/pets" (Some "") = "get_pets" /\
  ~ sanitized "" (generateFunctionName "get" "/pets" (Some "")).
Proof.
  split; [reflexivity|]. intros [L _]. vm_compute in L. discriminate L.
Qed.

(** C3, as amended: for every operation without an [operationId] the tool
    name is the lower-cased method, an underscore, and the path components
    joined by underscores; [/Pets/{petId}] with [GET] gives
    [get_pets_petid]. *)
Theorem name_from_path (method path : string) (operationId : option string) :
  truthy_opt operationId = None ->
  generateFunctionName method path operationId
  = (JsString.toLowerCase method ++ "_"
     ++ JsString.join "_" (pathComponents path))%string
  /\ generateFunctionName "GET" "/Pets/{petId}" operationId = "get_pets_petid".
Proof.
  intros Hid. unfold generateFunctionName. rewrite Hid. split.
  - unfold pathComponents.
    rewrite <- (split_filter_runs (JsString.toLowerCase path) "" eq_refl).
    reflexivity.
  - reflexivity.
Qed.

Lemma name_from_path_witness :
  generateFunctionName "POST" "/Store/order_items/{id}" None
  = "post_store_order_items_id"
  /\ generateFunctionName "GET" "/Pets/{petId}" None = "get_pets_petid".
Proof. exact (name_from_path "POST" "/Store/order_items/{id}" None eq_refl). Defined.

(** C3 as stated names [get_pets__petid_] for [GET /Pets/{petId}]; the
    code drops the empty pieces and gives [get_pets_petid]. *)
Lemma pets_example_name :
  generateFunctionName "GET" "/Pets/{petId}" None = "get_pets_petid" /\
  generateFunctionName "GET" "/Pets/{petId}" None <> "get_pets__petid_".
Proof. split; [reflexivity | discriminate]. Qed.

End ToolNames.

Section TypeMapper.

Lemma list_max_In (l : list nat) (x : nat) : In x l -> x <= list_max l.
Proof.
  induction l as [|y l IH]; simpl; [tauto|].
  intros [->|I]; [lia | specialize (IH I); lia].
Qed.

Lemma height_get (fields : list (string * value)) (k : string) (v : value) :
  get fields k = Some v ->
  Untyped.height v < Untyped.height (VObject fields).
Proof.
  intros G. cbn [Untyped.height]. apply Nat.lt_succ_r, list_max_In.
  induction fields as [|[k' v'] fields IH]; [discriminate G|].
  cbn [get] in G. cbn [List.map snd]. destruct (String.eqb k' k).
  - injection G as ->. now left.
  - right. exact (IH G).
Qed.

Lemma height_field (node : value) (k : string) :
  Untyped.height (Untyped.field node k) <= Nat.pred (Untyped.height node).
Proof.
  destruct node as [| | | | | |fields]; try (cbn; lia).
  unfold Untyped.field. destruct (get fields k) as [v|] eqn:G; [|cbn; lia].
  pose proof (height_get fields k v G). lia.
Qed.

Lemma height_indexed (l : list value) (k : string) (v : value) :
  In (k, v) (Untyped.indexed l) -> In v l.
Proof.
  unfold Untyped.indexed. intros I. apply in_map_iff in I as [[i x] [E I]].
  injection E as _ <-. exact (in_combine_r _ _ _ _ I).
Qed.

Lemma units_flat (s : string) (v : value) :
  In v (Untyped.units s) -> Untyped.height v = 0.
Proof.
  induction s as [|c s IH]; cbn [Untyped.units]; [intros []|].
  intros [<-|I]; [reflexivity | exact (IH I)].
Qed.

(** What the loop visits lies below the object it runs over. *)
Lemma height_forIn (x : value) (k : string) (v : value) :
  In (k, v) (Untyped.forIn x) ->
  Untyped.height v <= Nat.pred (Untyped.height x) /\ (truthy x = true).
Proof.
  destruct x as [| | | |s|elements|fields]; cbn [Untyped.forIn];
    try (intros I; now destruct I).
  - intros I. apply height_indexed in I. rewrite (units_flat s v I).
    split; [lia|]. destruct s; [destruct I | reflexivity].
  - intros I. apply height_indexed in I. split; [|reflexivity].
    cbn [Untyped.height Nat.pred]. apply list_max_In. now apply in_map.
  - intros I. split; [|reflexivity].
    cbn [Untyped.height Nat.pred]. apply list_max_In.
    apply (in_map (fun kv : string * value => Untyped.height (snd kv))
             fields (k, v) I).
Qed.

Lemma propertiesLoop_ext (f g : value -> completion ZodTypeAny)
  (l : list (string * value)) :
  (forall k v, In (k, v) l -> f v = g v) ->
  forall shape,
    Untyped.propertiesLoop f l shape = Untyped.propertiesLoop g l shape.
Proof.
  induction l as [|[k v] l IH]; intros E shape; [reflexivity|].
  cbn [Untyped.propertiesLoop]. rewrite (E k v) by now left.
  destruct (Untyped.hasRef v) as [[|]|]; try reflexivity.
  - apply IH. intros k' v' I. apply (E k' v'). now right.
  - destruct (g v); [|reflexivity].
    apply IH. intros k' v' I. apply (E k' v'). now right.
Qed.

(** The depth given to the function does not matter once it exceeds the
    height of the node: the function always runs to its result. *)
Lemma mapper_enough (n : nat) :
  forall (m : nat) (schema : value),
    Untyped.height schema < n -> Untyped.height schema < m ->
    Untyped.mapper n schema = Untyped.mapper m schema.
Proof.
  induction n as [|n IH]; intros m schema Hn Hm; [lia|].
  destruct m as [|m]; [lia|].
  cbn [Untyped.mapper].
  destruct (negb (truthy schema)); [reflexivity|].
  destruct (Untyped.field schema "type") as [| | | |t| |]; try reflexivity.
  assert (R : forall k, truthy (Untyped.field schema k) = true ->
                        Untyped.isObject (Untyped.field schema k) = true ->
                        Untyped.mapper n (Untyped.field schema k)
                        = Untyped.mapper m (Untyped.field schema k)).
  { intros k T O. pose proof (height_field schema k) as L.
    destruct (Untyped.field schema k) as [| | | | |es|fs] eqn:E;
      try discriminate O; try discriminate T.
    - apply IH; cbn [Untyped.height] in *; lia.
    - apply IH; cbn [Untyped.height] in *; lia. }
  destruct (String.eqb t "string"); [reflexivity|].
  destruct (String.eqb t "integer"); [reflexivity|].
  destruct (String.eqb t "number"); [reflexivity|].
  destruct (String.eqb t "boolean"); [reflexivity|].
  destruct (String.eqb t "array").
  { cbv zeta. destruct (truthy (Untyped.field schema "items")) eqn:T;
      [|reflexivity].
    destruct (Untyped.hasRef (Untyped.field schema "items")) as [[|]|] eqn:Hr;
      try reflexivity.
    rewrite (R "items" T); [reflexivity|].
    destruct (Untyped.field schema "items"); try discriminate Hr; reflexivity. }
  destruct (String.eqb t "object"); [|reflexivity].
  cbv zeta. destruct (truthy (Untyped.field schema "properties")) eqn:T;
    [|reflexivity].
  rewrite (propertiesLoop_ext (Untyped.mapper n) (Untyped.mapper m)).
  - destruct (Untyped.propertiesLoop _ _ _); [|reflexivity].
    destruct (Untyped.field schema "additionalProperties") as [| |[|]| | |es|fs] eqn:E;
      try reflexivity.
    + cbn [Untyped.isObject Untyped.hasRef].
      rewrite <- E, (R "additionalProperties"); rewrite ?E; reflexivity.
    + cbn [Untyped.isObject].
      destruct (Untyped.hasRef (VObject fs)) as [[|]|]; try reflexivity.
      rewrite <- E, (R "additionalProperties"); rewrite ?E; reflexivity.
  - intros k v I. apply height_forIn in I as [L _].
    pose proof (height_field schema "properties") as L'.
    assert (Hs : 1 <= Untyped.height schema).
    { destruct schema; try discriminate T. cbn [Untyped.height]. lia. }
    apply IH; lia.
Qed.

Lemma schemaValue_truthy (s : SchemaObject) : truthy (schemaValue s) = true.
Proof. destruct s; reflexivity. Qed.

Lemma schemaValue_hasRef (s : SchemaObject) :
  Untyped.hasRef (schemaValue s) = Normal false.
Proof. destruct s; reflexivity. Qed.

(** The loop over the properties of a node of the declared type. *)
Lemma propertiesLoop_typed (recur : value -> completion ZodTypeAny)
  (props : list (string * ReferenceOr SchemaObject)) :
  (forall k p, In (k, Obj p) props -> recur (schemaValue p) = Normal (schemaToZod p)) ->
  forall shape,
    Untyped.propertiesLoop recur
      (List.map (fun kv : string * ReferenceOr SchemaObject =>
                   (fst kv, nodeValue (snd kv))) props) shape
    = Normal
        (fold_left (fun sh e => shapeSet sh (fst e) (snd e))
           (List.map (fun kv : string * ReferenceOr SchemaObject =>
                        (fst kv,
                         match snd kv with
                         | Ref _ => ZodAny
                         | Obj p => schemaToZod p
                         end)) props) shape).
Proof.
  induction props as [|[k [r|p]] props IH]; intros R shape.
  - reflexivity.
  - cbn [List.map fst snd nodeValue Untyped.propertiesLoop Untyped.hasRef get
         String.eqb Ascii.eqb Bool.eqb fold_left].
    apply IH. intros k' p' I. apply (R k' p'). now right.
  - cbn [List.map fst snd nodeValue Untyped.propertiesLoop fold_left].
    rewrite schemaValue_hasRef, (R k p) by now left.
    apply IH. intros k' p' I. apply (R k' p'). now right.
Qed.

Lemma height_property (props : list (string * ReferenceOr SchemaObject))
  (k : string) (p : SchemaObject) :
  In (k, Obj p) props ->
  Untyped.height (schemaValue p)
  <= list_max (List.map (fun kv : string * value => Untyped.height (snd kv))
                 (List.map (fun kv : string * ReferenceOr SchemaObject =>
                              (fst kv, nodeValue (snd kv))) props)).
Proof.
  intros I. apply list_max_In. rewrite List.map_map.
  apply (in_map (fun kv : string * ReferenceOr SchemaObject =>
                   Untyped.height (nodeValue (snd kv))) props (k, Obj p) I).
Qed.

(** On a node of the declared type the function runs to a descriptor,
    the one that the typed reading gives. *)
Lemma mapper_typed (depth : nat) :
  forall s : SchemaObject,
    Untyped.height (schemaValue s) < depth ->
    Untyped.mapper depth (schemaValue s) = Normal (schemaToZod s).
Proof.
  induction depth as [|depth IH]; intros s H; [lia|].
  destruct s as [type format enum items properties additionalProperties x].
  cbn [Untyped.mapper]. rewrite schemaValue_truthy. cbn [negb].
  destruct type as [t|]; [|reflexivity].
  cbn [schemaValue Untyped.field get String.eqb Ascii.eqb Bool.eqb optString
       schemaToZod].
  destruct (String.eqb t "string").
  { destruct enum as [vs|]; cbn [truthy]; [reflexivity|].
    destruct format as [f|]; cbn [format_is optString]; [|reflexivity].
    repeat match goal with
           | |- context [if String.eqb f ?k then _ else _] =>
               destruct (String.eqb f k)
           end; reflexivity. }
  destruct (String.eqb t "integer"); [reflexivity|].
  destruct (String.eqb t "number"); [reflexivity|].
  destruct (String.eqb t "boolean"); [reflexivity|].
  destruct (String.eqb t "array").
  { destruct items as [[r|i]|]; try reflexivity.
    rewrite schemaValue_truthy, schemaValue_hasRef, IH; [reflexivity|].
    cbn [schemaValue Untyped.height List.map snd list_max fold_right] in H.
    fold schemaValue in H. lia. }
  destruct (String.eqb t "object"); [|reflexivity].
  destruct properties as [props|].
  - cbn [truthy].
    change (Untyped.forIn (VObject ?l)) with l.
    change (List.map (fun kv : string * ReferenceOr SchemaObject =>
                        (fst kv, match snd kv with
                                 | Ref ref => VObject [("$ref", VString ref)]
                                 | Obj s => schemaValue s
                                 end)) props)
      with (List.map (fun kv : string * ReferenceOr SchemaObject =>
                        (fst kv, nodeValue (snd kv))) props).
    rewrite propertiesLoop_typed.
    + fold (shapeOf (List.map (fun kv : string * ReferenceOr SchemaObject =>
                                 (fst kv, match snd kv with
                                          | Ref _ => ZodAny
                                          | Obj p => schemaToZod p
                                          end)) props)).
      destruct additionalProperties as [[[|]|[r|a]]|]; try reflexivity.
      rewrite schemaValue_hasRef.
      assert (O : Untyped.isObject (schemaValue a) = true) by (destruct a; reflexivity).
      rewrite O, IH.
      * destruct (schemaValue a); try discriminate O; reflexivity.
      * cbn [schemaValue Untyped.height List.map snd list_max fold_right] in H.
        fold schemaValue in H. lia.
    + intros k p I. apply IH.
      pose proof (height_property props k p I) as L.
      cbn [schemaValue Untyped.height List.map snd list_max fold_right] in H.
      fold schemaValue in H.
      change (List.map (fun kv : string * ReferenceOr SchemaObject =>
                          (fst kv, match snd kv with
                                   | Ref ref => VObject [("$ref", VString ref)]
                                   | Obj s => schemaValue s
                                   end)) props)
        with (List.map (fun kv : string * ReferenceOr SchemaObject =>
                          (fst kv, nodeValue (snd kv))) props) in H.
      lia.
  - cbn [truthy].
    destruct additionalProperties as [[[|]|[r|a]]|]; try reflexivity.
    now rewrite schemaValue_truthy.
Qed.

(** C7, as amended: on every schema node of the declared type, absent or
    a schema object whose [items], property values and
    [additionalProperties] are schema objects or references (or a boolean
    for the last), whatever its [type], [format] and [enum] list, the
    mapper runs to a descriptor and raises nothing, at any depth that
    exceeds the height of the node; an absent node and a node of an
    absent or unhandled [type] map to the accept-any-value descriptor,
    and an [enum] list of any content under [type: string] is taken as it
    is. *)
Theorem openApiTypeToZod_total (schema : option SchemaObject) :
  (forall depth : nat,
      Untyped.height (schemaValueOf schema) < depth ->
      Untyped.mapper depth (schemaValueOf schema)
      = Normal (openApiTypeToZod schema))
  /\ Untyped.openApiTypeToZod (schemaValueOf schema)
     = Normal (openApiTypeToZod schema)
  /\ (unsupported schema = true -> openApiTypeToZod schema = ZodAny)
  /\ (forall format values items properties additionalProperties x,
        schema = Some (Schema (Some "string") format (Some values) items
                         properties additionalProperties x) ->
        openApiTypeToZod schema = ZodEnum (VArray values)).
Proof.
  assert (D : forall depth : nat,
             Untyped.height (schemaValueOf schema) < depth ->
             Untyped.mapper depth (schemaValueOf schema)
             = Normal (openApiTypeToZod schema)).
  { intros depth H. destruct schema as [s|].
    - now apply mapper_typed.
    - destruct depth; reflexivity. }
  split; [exact D|]. split; [apply D; lia|]. split.
  - destruct schema as [[[t|] f e i p a x]|]; try reflexivity.
    intros U. unfold unsupported, supportedTypes in U. cbn in U.
    cbn [openApiTypeToZod schemaToZod].
    repeat match type of U with
           | context [String.eqb t ?k] =>
               destruct (String.eqb t k) eqn:?; cbn in U; try discriminate U
           end.
    reflexivity.
  - intros f vs i p a x ->. reflexivity.
Qed.

Lemma openApiTypeToZod_total_witness :
  openApiTypeToZod (Some (Schema (Some "file") None None None None None None))
  = ZodAny
  /\ Untyped.openApiTypeToZod
       (schemaValueOf
          (Some (Schema (Some "string") None
                   (Some [VNumber 1; VNull; VArray []; VString "a"])
                   None None None None)))
     = Normal (ZodEnum (VArray [VNumber 1; VNull; VArray []; VString "a"])).
Proof.
  split.
  - apply (openApiTypeToZod_total
             (Some (Schema (Some "file") None None None None None None))).
    reflexivity.
  - exact (proj1 (proj2 (openApiTypeToZod_total
                           (Some (Schema (Some "string") None
                                    (Some [VNumber 1; VNull; VArray []; VString "a"])
                                    None None None None))))).
Defined.

(** C7 as stated has the mapper raise nothing on a malformed node; on
    [{ type: 'array', items: true }], and on an object schema one of
    whose properties is [null], the test ['$ref' in ...] throws a
    [TypeError]. *)
Lemma malformed_node_raises :
  Untyped.openApiTypeToZod
    (VObject [("type", VString "array"); ("items", VBool true)])
  = Throw (Error_ "Cannot use 'in' operator to search for '$ref' in true")
  /\ Untyped.openApiTypeToZod
       (VObject [("type", VString "object");
                 ("properties", VObject [("id", VNull)])])
     = Throw (Error_ "Cannot use 'in' operator to search for '$ref' in null").
Proof. split; reflexivity. Qed.

End TypeMapper.

Section ParameterMerge.

Lemma adaptParameter_name (q : ParameterObject.t) :
  MCPParameter.name (fst (adaptParameter q)) = ParameterObject.name q.
Proof. reflexivity. Qed.

(** [extractAndBuildZodShape] pushes what the list declares, and assigns
    the shape entries in the same order. *)
Lemma extractStep_fold (l : list (ReferenceOr ParameterObject.t)) :
  forall ps sh out,
    exists out',
      fold_left extractStep l (ps, sh, out)
      = (ps ++ List.map fst (declared (Some l)),
         fold_left insertEntry (declared (Some l)) sh, out').
Proof.
  induction l as [|[r|q] l IH]; intros ps sh out.
  - exists out. simpl. now rewrite app_nil_r.
  - exact (IH ps sh (out ++ [console.warn
        ("Skipping unresolved parameter reference: " ++ r)])).
  - destruct (IH (ps ++ [fst (adaptParameter q)])
                (insertEntry sh (adaptParameter q)) out) as [out' E].
    exists out'.
    change (fold_left extractStep (Obj q :: l) (ps, sh, out))
      with (fold_left extractStep l
              (ps ++ [fst (adaptParameter q)],
               insertEntry sh (adaptParameter q), out)).
    rewrite E.
    change (declared (Some (Obj q :: l)))
      with (adaptParameter q :: declared (Some l)).
    simpl. now rewrite <- app_assoc.
Qed.

Lemma extractAndBuildZodShape_declared ps sh out :
  exists out',
    extractAndBuildZodShape ps sh out
    = (List.map fst (declared ps), fold_left insertEntry (declared ps) sh, out').
Proof.
  destruct ps as [l|]; simpl.
  - destruct (extractStep_fold l [] sh out) as [out' E]. exists out'. exact E.
  - exists out. reflexivity.
Qed.

Lemma extractRequestBody_declared rb sh out :
  exists out',
    extractRequestBodyAndBuildZodShape rb sh out
    = (List.map fst (declaredBody rb),
       fold_left insertEntry (declaredBody rb) sh, out').
Proof.
  destruct rb as [[r|rb]|]; simpl; eauto.
  destruct (contentSchemaOf (RequestBodyObject.content rb)) as [[r|cs]|];
    simpl; eauto.
Qed.

(** Reading the [Map] after one [set]. *)
Lemma get_set {V : Type} (k n : string) (v : V) (m : list (string * V)) :
  get (Map_.set k v m) n = if String.eqb k n then Some v else get m n.
Proof.
  induction m as [|[k' v'] m IH]; simpl.
  - reflexivity.
  - destruct (String.eqb k' k) eqn:E; simpl.
    + apply String.eqb_eq in E as ->.
      destruct (String.eqb k n); reflexivity.
    + rewrite IH. destruct (String.eqb k' n) eqn:E'; [|reflexivity].
      apply String.eqb_eq in E' as ->. now rewrite String.eqb_sym, E.
Qed.

Lemma set_keys {V : Type} (k : string) (v : V) (m : list (string * V)) :
  List.map fst (Map_.set k v m)
  = if existsb (String.eqb k) (List.map fst m)
    then List.map fst m else List.map fst m ++ [k].
Proof.
  induction m as [|[k' v'] m IH]; simpl; [reflexivity|].
  rewrite (String.eqb_sym k k').
  destruct (String.eqb k' k) eqn:E; simpl; [reflexivity|].
  rewrite IH. destruct (existsb (String.eqb k) (List.map fst m)); reflexivity.
Qed.

Lemma named_set (m : list (string * MCPParameter.t)) (p : MCPParameter.t) :
  named m -> named (setParam m p).
Proof.
  unfold named, setParam. induction m as [|[k' v'] m IH]; simpl; intros N.
  - repeat constructor.
  - inversion N as [|? ? Hk Hm]; subst.
    destruct (String.eqb k' (MCPParameter.name p)) eqn:E.
    + constructor; [|exact Hm]. simpl. now apply String.eqb_eq in E.
    + constructor; [exact Hk | exact (IH Hm)].
Qed.

Lemma named_fold (ps : list MCPParameter.t) :
  forall m, named m -> named (fold_left setParam ps m).
Proof.
  induction ps as [|p ps IH]; intros m N; simpl; [exact N|].
  apply IH, named_set, N.
Qed.

(** In a [Map] keyed by the parameters' names, looking a name up in
    [values()] is reading the key. *)
Lemma paramNamed_values (m : list (string * MCPParameter.t)) (n : string) :
  named m -> paramNamed n (Map_.values m) = get m n.
Proof.
  unfold named, paramNamed, Map_.values.
  induction m as [|[k v] m IH]; simpl; intros N; [reflexivity|].
  inversion N as [|? ? Hk Hm]; subst. simpl in Hk. subst k.
  destruct (String.eqb (MCPParameter.name v) n); [reflexivity | exact (IH Hm)].
Qed.

Lemma find_snoc {A : Type} (f : A -> bool) (l : list A) (a : A) :
  List.find f (l ++ [a])
  = match List.find f l with
    | Some x => Some x
    | None => if f a then Some a else None
    end.
Proof.
  induction l as [|x l IH]; simpl; [reflexivity|].
  destruct (f x); [reflexivity | exact IH].
Qed.

(** After the loops, a key holds the last parameter [set] under it. *)
Lemma get_fold (ps : list MCPParameter.t) (n : string) :
  forall m,
    get (fold_left setParam ps m) n
    = match List.find (fun p => String.eqb (MCPParameter.name p) n) (rev ps) with
      | Some p => Some p
      | None => get m n
      end.
Proof.
  induction ps as [|p ps IH]; intros m; simpl; [reflexivity|].
  rewrite IH, find_snoc. unfold setParam at 1. rewrite get_set.
  destruct (List.find _ (rev ps)); [reflexivity|].
  destruct (String.eqb (MCPParameter.name p) n); reflexivity.
Qed.

Lemma lookup_assign {A : Type} (o : gmap string A) (k n : string) (v : A) :
  n <> "__proto__" ->
  assign o k v !! n = if String.eqb k n then Some v else o !! n.
Proof.
  intros N. unfold assign. destruct (String.eqb k "__proto__") eqn:P.
  - apply String.eqb_eq in P. subst k.
    destruct (String.eqb "__proto__" n) eqn:E; [|reflexivity].
    apply String.eqb_eq in E. congruence.
  - destruct (String.eqb k n) eqn:E.
    + apply String.eqb_eq in E. subst n. apply lookup_insert_eq.
    + apply String.eqb_neq in E. now apply lookup_insert_ne.
Qed.

(** No assignment makes an own property [__proto__]. *)
Lemma lookup_assign_proto {A : Type} (o : gmap string A) (k : string) (v : A) :
  assign o k v !! "__proto__" = o !! "__proto__".
Proof.
  unfold assign. destruct (String.eqb k "__proto__") eqn:P; [reflexivity|].
  apply String.eqb_neq in P. now apply lookup_insert_ne.
Qed.

Lemma lookup_fold (es : list (MCPParameter.t * ZodTypeAny)) (n : string) :
  n <> "__proto__" ->
  forall sh : gmap string ZodTypeAny,
    fold_left insertEntry es sh !! n
    = match lastNamed n es with
      | Some e => Some (snd e)
      | None => sh !! n
      end.
Proof.
  intros N. unfold lastNamed.
  induction es as [|e es IH]; intros sh; simpl; [reflexivity|].
  rewrite IH, find_snoc. destruct (List.find _ (rev es)); [reflexivity|].
  unfold insertEntry. rewrite (lookup_assign sh _ n _ N).
  destruct (String.eqb (entryName e) n); reflexivity.
Qed.

Lemma lookup_fold_proto (es : list (MCPParameter.t * ZodTypeAny)) :
  forall sh : gmap string ZodTypeAny,
    fold_left insertEntry es sh !! "__proto__" = sh !! "__proto__".
Proof.
  induction es as [|e es IH]; intros sh; simpl; [reflexivity|].
  rewrite IH. apply lookup_assign_proto.
Qed.

Lemma find_map_fst (es : list (MCPParameter.t * ZodTypeAny)) (n : string) :
  List.find (fun p => String.eqb (MCPParameter.name p) n) (List.map fst es)
  = fst <$> List.find (fun e => String.eqb (entryName e) n) es.
Proof.
  induction es as [|e es IH]; simpl; [reflexivity|].
  unfold entryName at 1. destruct (String.eqb _ n); [reflexivity | exact IH].
Qed.

Lemma lastNamed_app (n : string) (a b : list (MCPParameter.t * ZodTypeAny)) :
  lastNamed n (a ++ b)
  = match lastNamed n b with
    | Some e => Some e
    | None => lastNamed n a
    end.
Proof.
  unfold lastNamed. rewrite rev_app_distr.
  induction (rev b) as [|x l IH]; simpl; [reflexivity|].
  destruct (String.eqb (entryName x) n); [reflexivity | exact IH].
Qed.

(** [Set_of] reads [seen] as a set. *)
Lemma Set_of_ext (l : list string) :
  forall s s',
    (forall x, existsb (String.eqb x) s = existsb (String.eqb x) s') ->
    Set_of s l = Set_of s' l.
Proof.
  induction l as [|x l IH]; intros s s' E; simpl; [reflexivity|].
  rewrite <- E. destruct (existsb (String.eqb x) s); [now apply IH|].
  f_equal. apply IH. intros y. simpl. now rewrite E.
Qed.

(** The keys of the [Map] are the names in the order of their first
    [set]. *)
Lemma keys_fold (ps : list MCPParameter.t) :
  forall m,
    List.map fst (fold_left setParam ps m)
    = List.map fst m
      ++ Set_of (List.map fst m) (List.map MCPParameter.name ps).
Proof.
  induction ps as [|p ps IH]; intros m; simpl; [now rewrite app_nil_r|].
  rewrite IH. unfold setParam. rewrite set_keys.
  destruct (existsb (String.eqb (MCPParameter.name p)) (List.map fst m)) eqn:E.
  - reflexivity.
  - rewrite <- app_assoc. simpl. do 2 f_equal.
    apply Set_of_ext. intros x. rewrite existsb_app. simpl.
    rewrite orb_false_r. apply orb_comm.
Qed.

Lemma names_values (m : list (string * MCPParameter.t)) :
  named m -> List.map MCPParameter.name (Map_.values m) = List.map fst m.
Proof.
  unfold named, Map_.values. induction m as [|[k v] m IH]; simpl; intros N.
  - reflexivity.
  - inversion N as [|? ? Hk Hm]; subst. simpl in Hk. rewrite <- Hk.
    f_equal. exact (IH Hm).
Qed.

Lemma fold_left_app3 {A B : Type} (f : A -> B -> A) (a b c : list B) (x : A) :
  fold_left f c (fold_left f b (fold_left f a x)) = fold_left f (a ++ b ++ c) x.
Proof. now rewrite !fold_left_app. Qed.

(** The code's entries are the ones the specification describes. *)
Lemma adaptParameter_specified (q : ParameterObject.t) :
  adaptParameter q = specified q.
Proof.
  unfold adaptParameter, specified, wrapped, or_bool.
  destruct q as [name location [[|c d]|] [[|]|] schema];
    cbn [ParameterObject.name ParameterObject.in_ ParameterObject.description
         ParameterObject.required ParameterObject.schema truthy_opt
         JsString.truthy negb];
    destruct (schema ≫= schema_type) as [[|c' t]|]; reflexivity.
Qed.

Lemma adaptRequestBody_specified (rb : RequestBodyObject.t)
  (contentSchema : SchemaObject) :
  adaptRequestBody rb contentSchema = specifiedBody rb contentSchema.
Proof.
  unfold adaptRequestBody, specifiedBody, wrapped, or_bool.
  destruct rb as [[[|c d]|] content [[|]|]];
    cbn [RequestBodyObject.description RequestBodyObject.required truthy_opt
         JsString.truthy negb];
    destruct (schema_x_body_name contentSchema) as [[|c1 n]|];
    destruct (schema_type contentSchema) as [[|c2 t]|]; reflexivity.
Qed.

Lemma declared_specified (ps : option (list (ReferenceOr ParameterObject.t))) :
  declared ps = List.map specified (objectsOf ps).
Proof.
  destruct ps as [l|]; [|reflexivity]. unfold declared, objectsOf.
  induction l as [|[r|q] l IH]; cbn [omap list_omap List.map]; [reflexivity| |].
  - exact IH.
  - cbn [mbind option_bind]. now rewrite adaptParameter_specified, IH.
Qed.

Lemma declaredBody_specified
  (requestBody : option (ReferenceOr RequestBodyObject.t)) :
  declaredBody requestBody = bodyEntries requestBody.
Proof.
  unfold declaredBody, bodyEntries. destruct requestBody as [[r|rb]|]; try reflexivity.
  destruct (contentSchemaOf (RequestBodyObject.content rb)) as [[r|cs]|];
    try reflexivity.
  now rewrite adaptRequestBody_specified.
Qed.

Lemma mergedOf_mergeOrder (pathItem : PathItemObject.t)
  (operation : OperationObject.t) :
  mergedOf pathItem operation = mergeOrder pathItem operation.
Proof.
  unfold mergedOf, mergeOrder.
  now rewrite !declared_specified, declaredBody_specified.
Qed.

Lemma lastNamed_specified (n : string) (l : list ParameterObject.t) :
  lastNamed n (List.map specified l) = specified <$> lastDeclared n l.
Proof.
  unfold lastNamed, lastDeclared. rewrite <- map_rev.
  induction (rev l) as [|q r IH]; [reflexivity|].
  cbn [List.map List.find]. unfold entryName at 1.
  cbn [specified fst MCPParameter.name].
  destruct (String.eqb (ParameterObject.name q) n); [reflexivity | exact IH].
Qed.

End ParameterMerge.

Section MergeOrder.

Variables (path method : string).
Variable pathItem : PathItemObject.t.
Variable operation : OperationObject.t.
Variable out : list console.entry.

#[local] Abbreviation merged := (mergedOf pathItem operation).
#[local] Abbreviation order := (mergeOrder pathItem operation).
#[local] Abbreviation adaptedTool := (fst (adaptOperation path pathItem method operation out)).
#[local] Abbreviation internalParams := (internalParamsOf adaptedTool).

Lemma adaptOperation_merged :
  internalParams = Map_.values (fold_left setParam (List.map fst merged) [])
  /\ SdkToolDefinition.zodShape adaptedTool = fold_left insertEntry merged ∅.
Proof.
  unfold internalParamsOf, adaptOperation, mergedOf.
  destruct (extractAndBuildZodShape_declared
              (PathItemObject.parameters pathItem) ∅ out) as [o1 ->].
  cbv beta iota zeta.
  destruct (extractAndBuildZodShape_declared
              (OperationObject.parameters operation)
              (fold_left insertEntry
                 (declared (PathItemObject.parameters pathItem)) ∅) o1)
    as [o2 ->].
  cbv beta iota zeta.
  destruct (extractRequestBody_declared
              (OperationObject.requestBody operation)
              (fold_left insertEntry
                 (declared (OperationObject.parameters operation))
                 (fold_left insertEntry
                    (declared (PathItemObject.parameters pathItem)) ∅)) o2)
    as [o3 ->].
  cbv beta iota zeta. cbn [fst SdkToolDefinition._originalOperation
    SdkToolDefinition.zodShape OriginalOperationDetails.parameters].
  unfold combineParams. split.
  - now rewrite fold_left_app3, !map_app.
  - now rewrite fold_left_app3.
Qed.

Lemma named_merged : named (fold_left setParam (List.map fst merged) []).
Proof. apply named_fold. constructor. Qed.

(** Both the parameter list and the shape answer a name with its last
    declaration; the shape has nothing under [__proto__]. *)
Lemma merged_lookup (n : string) :
  paramNamed n internalParams = fst <$> lastNamed n merged
  /\ (n <> "__proto__" ->
      SdkToolDefinition.zodShape adaptedTool !! n = snd <$> lastNamed n merged)
  /\ SdkToolDefinition.zodShape adaptedTool !! "__proto__" = None.
Proof.
  destruct adaptOperation_merged as [EP ES].
  split; [|split].
  - rewrite EP, (paramNamed_values _ n named_merged), get_fold.
    unfold lastNamed. rewrite <- map_rev, find_map_fst.
    destruct (List.find _ (rev merged)); reflexivity.
  - intros N. rewrite ES, (lookup_fold _ n N).
    destruct (lastNamed n merged); [reflexivity | apply lookup_empty].
  - rewrite ES, lookup_fold_proto. apply lookup_empty.
Qed.


End MergeOrder.



Section Executor.

Context `{Environment}.

Variable mcpArgs : gmap string value.

#[local] Abbreviation argOf p := (lookupArg mcpArgs (MCPParameter.name p)).

(** One pass of the parameter loop, outcome by outcome. *)
Lemma processParam_step (p : MCPParameter.t) (d : Draft.t) (w : World.t) :
  processParam mcpArgs p d w
  = (if unset (argOf p) then
       if MCPParameter.required p
       then Throw (Error_ ("Missing required parameter: " ++ MCPParameter.name p))
       else Normal d
     else if in_is p "path" then
       match String_arg (argOf p) with
       | Normal text =>
           Normal {| Draft.headers := Draft.headers d;
                     Draft.queryParams := Draft.queryParams d;
                     Draft.requestBody := Draft.requestBody d;
                     Draft.urlPath :=
                       JsString.replace_first ("{" ++ MCPParameter.name p ++ "}")
                         (encodeURIComponent text) (Draft.urlPath d) |}
       | Throw e => Throw e
       end
     else if in_is p "query" then
       Normal {| Draft.headers := Draft.headers d;
                 Draft.queryParams :=
                   assign (Draft.queryParams d) (MCPParameter.name p) (argOf p);
                 Draft.requestBody := Draft.requestBody d;
                 Draft.urlPath := Draft.urlPath d |}
     else if in_is p "header" then
       match String_arg (argOf p) with
       | Normal text =>
           Normal {| Draft.headers :=
                       assign (Draft.headers d) (MCPParameter.name p) text;
                     Draft.queryParams := Draft.queryParams d;
                     Draft.requestBody := Draft.requestBody d;
                     Draft.urlPath := Draft.urlPath d |}
       | Throw e => Throw e
       end
     else if in_is p "body" then
       Normal {| Draft.headers :=
                   if isBinarySchema (MCPParameter.schema p)
                   then <["Content-Type" := "application/octet-stream"]>
                          (Draft.headers d)
                   else Draft.headers d;
                 Draft.queryParams := Draft.queryParams d;
                 Draft.requestBody := bodyOf mcpArgs p;
                 Draft.urlPath := Draft.urlPath d |}
     else Normal d,
     w).
Proof.
  unfold processParam, bodyOf.
  destruct (lookupArg mcpArgs (MCPParameter.name p)) as [[]|] eqn:A;
    cbn [unset isUndefined];
    destruct (MCPParameter.required p);
    destruct (in_is p "path");
    destruct (in_is p "query");
    destruct (in_is p "header");
    destruct (in_is p "body");
    destruct (isBinarySchema (MCPParameter.schema p));
    unfold bind, lift, ret, throw, try_catch;
    try reflexivity;
    match goal with
    | |- context [String_arg ?a] => destruct (String_arg a); reflexivity
    end.
Qed.

(** A parameter step leaves the world as it found it: nothing is printed
    and nothing is sent. *)
Lemma processParam_world (p : MCPParameter.t) (d : Draft.t) (w : World.t) :
  processParam mcpArgs p d w = (fst (processParam mcpArgs p d World.empty), w).
Proof. now rewrite !processParam_step. Qed.

Lemma unset_undefined (a : Arg) : unset a = true -> a = Given VUndefined.
Proof. destruct a as [[]|]; try discriminate; reflexivity. Qed.

Lemma processParam_missing (p : MCPParameter.t) (d : Draft.t) (w : World.t) :
  missing mcpArgs p = true ->
  processParam mcpArgs p d w
  = (Throw (Error_ ("Missing required parameter: " ++ MCPParameter.name p)), w).
Proof.
  unfold missing. intros M. apply andb_true_iff in M as [R U].
  now rewrite processParam_step, U, R.
Qed.

(** The loop stops at a parameter that is missing or cannot be
    converted, with the error of that parameter. *)
Lemma processParam_aborts (p : MCPParameter.t) (d : Draft.t) (w : World.t) :
  (missing mcpArgs p || unprintable mcpArgs p)%bool = true ->
  processParam mcpArgs p d w = (Throw (abortOf mcpArgs p), w).
Proof.
  intros A. unfold abortOf. destruct (missing mcpArgs p) eqn:M.
  - now apply processParam_missing.
  - cbn [orb] in A. unfold unprintable in A.
    apply andb_true_iff in A as [A T]. apply andb_true_iff in A as [L U].
    apply negb_true_iff in U. rewrite processParam_step, U.
    destruct (String_arg (argOf p)) as [s|e]; [discriminate T|].
    destruct (in_is p "path"); [reflexivity|].
    cbn [orb] in L.
    assert (Q : in_is p "query" = false).
    { unfold in_is in *. destruct (MCPParameter._in p) as [l|]; [|reflexivity].
      apply String.eqb_eq in L. now subst l. }
    now rewrite Q, L.
Qed.

Lemma processParam_defined (p : MCPParameter.t) (d : Draft.t) (w : World.t) :
  (missing mcpArgs p || unprintable mcpArgs p)%bool = false ->
  processParam mcpArgs p d w = (Normal (applyParam mcpArgs d p), w).
Proof.
  intros A. apply orb_false_iff in A as [M P].
  rewrite processParam_world. unfold applyParam.
  destruct (fst (processParam mcpArgs p d World.empty)) eqn:E; [reflexivity|].
  exfalso. revert E. rewrite processParam_step. cbn [fst].
  unfold missing, unprintable in M, P.
  destruct (unset (argOf p)); cbn [negb andb] in *.
  - rewrite andb_true_r in M. now rewrite M.
  - rewrite andb_true_r in P.
    destruct (String_arg (argOf p)); cbn [throws] in P.
    + repeat match goal with |- context [if ?b then _ else _] => destruct b end;
        discriminate.
    + rewrite andb_true_r in P. apply orb_false_iff in P as [-> ->].
      repeat match goal with |- context [if ?b then _ else _] => destruct b end;
        discriminate.
Qed.

Lemma forEach_aborts (ps : list MCPParameter.t) (p : MCPParameter.t) :
  firstAbort mcpArgs ps = Some p ->
  forall d w,
    forEach (processParam mcpArgs) ps d w = (Throw (abortOf mcpArgs p), w).
Proof.
  unfold firstAbort. induction ps as [|q ps IH]; simpl; [discriminate|].
  intros F d w. unfold bind.
  destruct (missing mcpArgs q || unprintable mcpArgs q)%bool eqn:M.
  - injection F as ->. now rewrite processParam_aborts.
  - rewrite processParam_defined by exact M. now apply IH.
Qed.

Lemma forEach_defined (ps : list MCPParameter.t) :
  firstAbort mcpArgs ps = None ->
  forall d w,
    forEach (processParam mcpArgs) ps d w
    = (Normal (fold_left (applyParam mcpArgs) ps d), w).
Proof.
  unfold firstAbort. induction ps as [|q ps IH]; simpl; [reflexivity|].
  intros F d w. unfold bind.
  destruct (missing mcpArgs q || unprintable mcpArgs q)%bool eqn:M; [discriminate|].
  rewrite processParam_defined by exact M. now apply IH.
Qed.

(** The loop runs through exactly when no parameter is missing and none
    is unprintable. *)
Lemma firstAbort_None (ps : list MCPParameter.t) :
  firstAbort mcpArgs ps = None
  <-> firstMissing mcpArgs ps = None /\ firstUnprintable mcpArgs ps = None.
Proof.
  unfold firstAbort, firstMissing, firstUnprintable.
  induction ps as [|q ps IH]; simpl; [tauto|].
  destruct (missing mcpArgs q), (unprintable mcpArgs q); cbn [orb];
    try (split; [discriminate | intros [? ?]; discriminate]).
  exact IH.
Qed.

(** With nothing unprintable the loop stops at the first parameter that
    is missing. *)
Lemma firstAbort_missing (ps : list MCPParameter.t) (p : MCPParameter.t) :
  firstUnprintable mcpArgs ps = None ->
  firstMissing mcpArgs ps = Some p ->
  firstAbort mcpArgs ps = Some p.
Proof.
  unfold firstAbort, firstMissing, firstUnprintable.
  induction ps as [|q ps IH]; simpl; [discriminate|].
  destruct (missing mcpArgs q), (unprintable mcpArgs q); cbn [orb];
    try discriminate; auto.
Qed.

End Executor.

Section Base64.

Lemma below_In (k : nat) (n : N) : (n < N.of_nat k)%N -> In n (below k).
Proof.
  intros L. unfold below. rewrite <- (N2Nat.id n).
  apply in_map, in_seq. lia.
Qed.

Lemma byte_below (x : byte) : In (Byte.to_N x) (below 256).
Proof. apply below_In. pose proof (Byte.to_N_bounded x). lia. Qed.

Lemma all_below (P : N -> bool) (k : nat) (n : N) :
  forallb P (below k) = true -> In n (below k) -> P n = true.
Proof. intros A I. exact (proj1 (forallb_forall P (below k)) A n I). Qed.

Lemma digit_reads_back (n : N) (s : string) :
  (n < 64)%N ->
  Buffer.sextets (Buffer.digit n ++ s) = n :: Buffer.sextets s.
Proof.
  intros L.
  assert (C : digitReadsBack n = true).
  { apply (all_below digitReadsBack 64); [vm_compute; reflexivity|].
    now apply below_In. }
  unfold digitReadsBack in C.
  destruct (Buffer.digit n) as [|c [|]]; try discriminate C.
  apply andb_true_iff in C as [U P]. apply negb_true_iff in P.
  cbn [String.append Buffer.sextets]. rewrite P.
  destruct (Buffer.unbase64 c) as [m|]; [|discriminate U].
  apply N.eqb_eq in U. now subst m.
Qed.

Lemma octet_back (n : N) (x : byte) :
  N.land n 255 = Byte.to_N x -> Buffer.octet n = x.
Proof. unfold Buffer.octet. intros ->. now rewrite Byte.of_to_N. Qed.

Lemma first_octet_back (x y : byte) :
  (Buffer.sextet1 (Byte.to_N x) < 64)%N
  /\ (Buffer.sextet2 (Byte.to_N x) (Byte.to_N y) < 64)%N
  /\ Buffer.octet1 (Buffer.sextet1 (Byte.to_N x))
       (Buffer.sextet2 (Byte.to_N x) (Byte.to_N y)) = x.
Proof.
  assert (C : firstOctetBack (Byte.to_N x) (Byte.to_N y) = true).
  { apply (all_below (fun b => firstOctetBack (Byte.to_N x) b) 256);
      [|apply byte_below].
    apply (all_below (fun a => forallb (firstOctetBack a) (below 256)) 256);
      [vm_compute; reflexivity | apply byte_below]. }
  unfold firstOctetBack in C.
  apply andb_true_iff in C as [C E]. apply andb_true_iff in C as [A B].
  apply N.ltb_lt in A, B. apply N.eqb_eq in E.
  repeat split; try assumption. now apply octet_back.
Qed.

Lemma first_octet_back_last (x : byte) :
  (Buffer.sextet1 (Byte.to_N x) < 64)%N
  /\ (Buffer.sextet2 (Byte.to_N x) 0 < 64)%N
  /\ Buffer.octet1 (Buffer.sextet1 (Byte.to_N x))
       (Buffer.sextet2 (Byte.to_N x) 0) = x.
Proof. exact (first_octet_back x x00). Qed.

Lemma third_octet_back (y z : byte) :
  (Buffer.sextet3 (Byte.to_N y) (Byte.to_N z) < 64)%N
  /\ (Buffer.sextet4 (Byte.to_N z) < 64)%N
  /\ Buffer.octet3 (Buffer.sextet3 (Byte.to_N y) (Byte.to_N z))
       (Buffer.sextet4 (Byte.to_N z)) = z.
Proof.
  assert (C : thirdOctetBack (Byte.to_N y) (Byte.to_N z) = true).
  { apply (all_below (fun b => thirdOctetBack (Byte.to_N y) b) 256);
      [|apply byte_below].
    apply (all_below (fun a => forallb (thirdOctetBack a) (below 256)) 256);
      [vm_compute; reflexivity | apply byte_below]. }
  unfold thirdOctetBack in C.
  apply andb_true_iff in C as [C E]. apply andb_true_iff in C as [A B].
  apply N.ltb_lt in A, B. apply N.eqb_eq in E.
  repeat split; try assumption. now apply octet_back.
Qed.

Lemma two_bits (x : byte) :
  In (N.land (Byte.to_N x) 3) (below 4)
  /\ In (N.shiftr (Byte.to_N x) 6) (below 4).
Proof.
  assert (C : twoBits (Byte.to_N x) = true).
  { apply (all_below twoBits 256); [vm_compute; reflexivity | apply byte_below]. }
  unfold twoBits in C. apply andb_true_iff in C as [A B].
  apply N.ltb_lt in A, B. split; now apply below_In.
Qed.

(** The middle byte is read from the low bits of the second group and the
    high bits of the third, whatever the bytes around it. *)
Lemma second_octet_back (x y z : byte) :
  Buffer.octet2 (Buffer.sextet2 (Byte.to_N x) (Byte.to_N y))
    (Buffer.sextet3 (Byte.to_N y) (Byte.to_N z)) = y.
Proof.
  apply octet_back, N.eqb_eq.
  change (secondOctetBack (N.land (Byte.to_N x) 3) (Byte.to_N y)
            (N.shiftr (Byte.to_N z) 6) = true).
  apply (all_below
           (fun c => secondOctetBack (N.land (Byte.to_N x) 3) (Byte.to_N y) c) 4);
    [|apply two_bits].
  apply (all_below
           (fun b => forallb (secondOctetBack (N.land (Byte.to_N x) 3) b)
                       (below 4)) 256);
    [|apply byte_below].
  apply (all_below
           (fun a => forallb (fun b => forallb (secondOctetBack a b) (below 4))
                       (below 256)) 4);
    [vm_compute; reflexivity | apply two_bits].
Qed.

Lemma list_by_threes {A : Type} (P : list A -> Prop) :
  P [] -> (forall a, P [a]) -> (forall a b, P [a; b]) ->
  (forall a b c r, P r -> P (a :: b :: c :: r)) ->
  forall l, P l.
Proof.
  intros P0 P1 P2 P3 l.
  assert (G : P l /\ (forall a, P (a :: l)) /\ (forall a b, P (a :: b :: l))).
  { induction l as [|x l [I0 [I1 I2]]]; [auto|].
    split; [apply I1|]. split; [intros a; apply I2|].
    intros a b. now apply P3. }
  exact (proj1 G).
Qed.

(** Decoding the base64 text of a buffer gives the buffer back: the text
    holds the exact bytes. *)
Lemma from_base64_toBase64 (bs : list byte) :
  Buffer.from_base64 (Buffer.toBase64 bs) = bs.
Proof.
  unfold Buffer.from_base64.
  induction bs as [|a|a b|a b c r IH] using list_by_threes.
  - reflexivity.
  - destruct (first_octet_back_last a) as [L1 [L2 E]].
    cbn [Buffer.toBase64]. rewrite !digit_reads_back by assumption.
    cbn. now rewrite E.
  - destruct (first_octet_back a b) as [L1 [L2 E1]].
    destruct (third_octet_back b x00) as [L3 _].
    pose proof (second_octet_back a b x00) as E2.
    cbn [Buffer.toBase64]. rewrite !digit_reads_back by assumption.
    cbn [Buffer.sextets Buffer.octets JsString.code N_of_ascii N_of_digits
         N.eqb Pos.eqb N.add N.mul].
    change (Byte.to_N x00) with 0%N in *. now rewrite E1, E2.
  - destruct (first_octet_back a b) as [L1 [L2 E1]].
    destruct (third_octet_back b c) as [L3 [L4 E3]].
    pose proof (second_octet_back a b c) as E2.
    cbn [Buffer.toBase64]. rewrite !digit_reads_back by assumption.
    cbn [Buffer.octets]. now rewrite E1, E2, E3, IH.
Qed.

End Base64.

Section Conversions.

Lemma joined_throws (parts : list (completion string)) (e : Exn.t) :
  joined parts = Throw e -> In (Throw e) parts.
Proof.
  induction parts as [|p parts IH]; [discriminate|].
  cbn [joined]. destruct parts as [|q parts].
  - intros ->. now left.
  - destruct p as [s|e']; [|intros [= ->]; now left].
    destruct (joined (q :: parts)) as [r|e'] eqn:J; [discriminate|].
    intros [= ->]. right. now apply IH.
Qed.

(** The one error of [String]. *)
Lemma String_throws (n : nat) :
  forall (v : value) (e : Exn.t),
    Untyped.height v < n -> String_ v = Throw e -> e = cannotConvert.
Proof.
  induction n as [|n IH]; intros v e L T; [lia|].
  destruct v as [| |[|]| | |elements|fields]; try discriminate T.
  - cbn [String_] in T. apply joined_throws in T.
    apply in_map_iff in T as [x [E I]].
    assert (Lx : Untyped.height x < n).
    { cbn [Untyped.height] in L.
      pose proof (list_max_In (List.map Untyped.height elements)
                    (Untyped.height x) (in_map _ _ _ I)). lia. }
    destruct x; try discriminate E; exact (IH _ e Lx E).
  - cbn [String_] in T. destruct (get fields "toString"); [|discriminate T].
    now injection T as <-.
Qed.

Lemma String_arg_throws (a : Arg) (e : Exn.t) :
  String_arg a = Throw e -> e = cannotConvert.
Proof.
  destruct a as [v|name]; [|discriminate].
  exact (String_throws (S (Untyped.height v)) v e (Nat.lt_succ_diag_r _)).
Qed.

End Conversions.

Section Calls.

Context `{Environment}.

Variable mcpArgs : gmap string value.
Variable operationDetails : OriginalOperationDetails.t.

#[local] Abbreviation parameters :=
  (OriginalOperationDetails.parameters operationDetails).
#[local] Abbreviation method := (OriginalOperationDetails.method operationDetails).
#[local] Abbreviation path := (OriginalOperationDetails.path operationDetails).

Lemma find_some_exists {A : Type} (f : A -> bool) (l : list A) (a : A) :
  In a l -> f a = true -> exists b, List.find f l = Some b.
Proof.
  induction l as [|x l IH]; simpl; [tauto|].
  intros [->|I] F.
  - rewrite F. eauto.
  - destruct (f x); eauto.
Qed.

(** A call whose parameter loop stops sends nothing. *)
Lemma executeApiCall_aborts (apiBaseUrl : option string) (base : string)
  (p : MCPParameter.t) (w : World.t) :
  truthy_opt apiBaseUrl = Some base ->
  firstAbort mcpArgs parameters = Some p ->
  executeApiCall apiBaseUrl operationDetails mcpArgs w
  = (Throw (abortOf mcpArgs p), w).
Proof.
  intros B F. unfold executeApiCall. rewrite B. unfold bind at 1.
  now rewrite (forEach_aborts mcpArgs _ p F).
Qed.

Lemma executeApiCall_unconfigured (apiBaseUrl : option string) (w : World.t) :
  truthy_opt apiBaseUrl = None ->
  executeApiCall apiBaseUrl operationDetails mcpArgs w
  = (Throw (Error_ "API base URL is not configured. Cannot execute API call."),
     w).
Proof. intros B. unfold executeApiCall. now rewrite B. Qed.


Lemma truthy_lower (a : string) :
  a <> "" -> JsString.truthy (JsString.toLowerCase a) = true.
Proof. destruct a; [congruence | reflexivity]. Qed.

Lemma responseTypeOf_arraybuffer (headers : gmap string string) (a : string) :
  headers !! "Accept" = Some a ->
  a <> "" ->
  JsString.includes (JsString.toLowerCase a) "json" = false ->
  JsString.includes (JsString.toLowerCase a) "*/*" = false ->
  responseTypeOf headers = arraybuffer.
Proof.
  intros A T J W. unfold responseTypeOf. rewrite A. simpl.
  now rewrite J, W, (truthy_lower a T).
Qed.

(** A call that passes the parameter loop goes to [axios] once. *)
Lemma executeApiCall_request (apiBaseUrl : option string) (base : string)
  (w : World.t) :
  truthy_opt apiBaseUrl = Some base ->
  firstAbort mcpArgs parameters = None ->
  let config := requestOf base operationDetails mcpArgs in
  executeApiCall apiBaseUrl operationDetails mcpArgs w
  = match axios config with
    | Normal response =>
        let ok :=
          console.log ("API call successful ("
                       ++ Z_toString (AxiosResponse.status response)
                       ++ ") for " ++ method ++ " " ++ path) in
        match AxiosRequestConfig.responseType config with
        | json => (Normal (AxiosResponse.data response), afterRequest w config [ok])
        | arraybuffer =>
            match match AxiosResponse.data response with
                  | Bytes b => Normal b
                  | Plain v => Buffer_from v
                  end with
            | Normal bytes =>
                (Normal (binaryResult
                           (AxiosResponse.headers response !! "content-type")
                           bytes),
                 afterRequest w config [ok])
            | Throw error =>
                (Throw (Error_ ("API call failed. " ++ failureDetail error)),
                 afterRequest w config
                   [ok;
                    console.error ("API call failed for " ++ method ++ " " ++ path
                                   ++ ": " ++ Exn.message error)])
            end
        end
    | Throw error =>
        (Throw (Error_ ("API call failed. " ++ failureDetail error)),
         afterRequest w config
           [console.error ("API call failed for " ++ method ++ " " ++ path
                           ++ ": " ++ Exn.message error)])
    end.
Proof.
  intros B F config. unfold executeApiCall. rewrite B. unfold bind at 1.
  rewrite (forEach_defined mcpArgs _ F).
  fold (finalDraft operationDetails mcpArgs).
  fold (requestOf base operationDetails mcpArgs). fold config.
  unfold bind, print, try_catch, await_axios, throw, ret, lift, afterRequest.
  cbn [World.out World.sent].
  destruct (axios config) as [response|error]; cbn [World.out World.sent].
  - destruct (AxiosRequestConfig.responseType config);
      cbn [World.out World.sent].
    + now rewrite <- app_assoc.
    + destruct (match AxiosResponse.data response with
                | Plain v => Buffer_from v
                | Bytes b => Normal b
                end); cbn [World.out World.sent]; now rewrite <- !app_assoc.
  - now rewrite <- app_assoc.
Qed.

(** Where the outcome of a call comes from. *)
Lemma executeApiCall_cases (apiBaseUrl : option string) (w : World.t) :
  (truthy_opt apiBaseUrl = None
   /\ executeApiCall apiBaseUrl operationDetails mcpArgs w
      = (Throw (Error_ "API base URL is not configured. Cannot execute API call."),
         w))
  \/ (exists (base : string) (p : MCPParameter.t),
         truthy_opt apiBaseUrl = Some base
         /\ firstAbort mcpArgs parameters = Some p
         /\ executeApiCall apiBaseUrl operationDetails mcpArgs w
            = (Throw (abortOf mcpArgs p), w))
  \/ (exists base : string,
         truthy_opt apiBaseUrl = Some base
         /\ firstAbort mcpArgs parameters = None
         /\ World.sent (snd (executeApiCall apiBaseUrl operationDetails mcpArgs w))
            = World.sent w ++ [requestOf base operationDetails mcpArgs]
         /\ ((exists result : payload,
                 fst (executeApiCall apiBaseUrl operationDetails mcpArgs w)
                 = Normal result)
             \/ (exists cause : Exn.t,
                    fst (executeApiCall apiBaseUrl operationDetails mcpArgs w)
                    = Throw (Error_ ("API call failed. " ++ failureDetail cause))))).
Proof.
  destruct (truthy_opt apiBaseUrl) as [base|] eqn:B.
  - right. destruct (firstAbort mcpArgs parameters) as [p|] eqn:F.
    + left. exists base, p. repeat split.
      now apply (executeApiCall_aborts apiBaseUrl base).
    + right. exists base. split; [reflexivity|]. split; [reflexivity|].
      rewrite (executeApiCall_request apiBaseUrl base w B F). cbv zeta.
      destruct (axios (requestOf base operationDetails mcpArgs)) as [r|c];
        [|split; [reflexivity | right; eexists; reflexivity]].
      destruct (AxiosRequestConfig.responseType
                  (requestOf base operationDetails mcpArgs));
        [split; [reflexivity | left; eexists; reflexivity]|].
      destruct (match AxiosResponse.data r with
                | Plain v => Buffer_from v
                | Bytes b => Normal b
                end) as [b|c];
        (split; [reflexivity|]); [left | right]; eexists; reflexivity.
  - left. split; [reflexivity|]. now apply executeApiCall_unconfigured.
Qed.

(** C1, as amended: when the call reaches [axios], the effective
    [Accept] header is a non-empty string that mentions neither [json] nor
    the wildcard, and the server answers with bytes, the call returns
    exactly the object [{ _isBinary: true, contentType, data }], the tag
    spelled [_isBinary], with [data] the base64 text of the bytes, from
    which the bytes can be read back; one request is sent. *)
Theorem binary_response_envelope (apiBaseUrl : option string) (base accept : string)
  (w : World.t) (response : AxiosResponse.t) (bytes : list byte) :
  truthy_opt apiBaseUrl = Some base ->
  firstMissing mcpArgs parameters = None ->
  firstUnprintable mcpArgs parameters = None ->
  Draft.headers (finalDraft operationDetails mcpArgs) !! "Accept" = Some accept ->
  accept <> "" ->
  JsString.includes (JsString.toLowerCase accept) "json" = false ->
  JsString.includes (JsString.toLowerCase accept) "*/*" = false ->
  axios (requestOf base operationDetails mcpArgs) = Normal response ->
  AxiosResponse.data response = Bytes bytes ->
  fst (executeApiCall apiBaseUrl operationDetails mcpArgs w)
  = Normal
      (Plain
         (VObject
            [("_isBinary", VBool true);
             ("contentType",
              optString (AxiosResponse.headers response !! "content-type"));
             ("data", VString (Buffer.toBase64 bytes))]))
  /\ Buffer.from_base64 (Buffer.toBase64 bytes) = bytes
  /\ World.sent (snd (executeApiCall apiBaseUrl operationDetails mcpArgs w))
     = World.sent w ++ [requestOf base operationDetails mcpArgs].
Proof.
  intros B F U A T J W R D.
  pose proof (proj2 (firstAbort_None mcpArgs parameters) (conj F U)) as FA.
  rewrite (executeApiCall_request apiBaseUrl base w B FA). cbv zeta.
  assert (E : AxiosRequestConfig.responseType
                 (requestOf base operationDetails mcpArgs) = arraybuffer)
    by exact (responseTypeOf_arraybuffer _ accept A T J W).
  rewrite R, E, D.
  split; [reflexivity|]. split; [apply from_base64_toBase64 | reflexivity].
Qed.

Lemma failureDetail_cases (error : Exn.t) :
  failureDetail error
  = ("Status: " ++ statusText error
     ++ match truthyBody error, Exn.response error ≫= nonJsonContentType with
        | None, _ => ""
        | Some _, Some ct => ", Content-Type: " ++ ct
        | Some data, None =>
            match JSON_stringify data with
            | Normal text => ", Data: " ++ text
            | Throw _ => ", Data: [Could not stringify response data]"
            end
        end)%string.
Proof.
  unfold failureDetail, statusText, truthyBody, nonJsonContentType.
  destruct (Exn.response error) as [r|];
    cbn [fmap option_fmap option_map mbind option_bind].
  - destruct (truthy_payload (AxiosResponse.data r)).
    + destruct (truthy_opt (AxiosResponse.headers r !! "content-type")) as [ct|].
      * destruct (JsString.includes ct "json"); cbn [negb];
          [destruct (JSON_stringify (AxiosResponse.data r))|];
          now rewrite ?append_assoc.
      * destruct (JSON_stringify (AxiosResponse.data r));
          now rewrite ?append_assoc.
    + now rewrite append_empty_r.
  - now rewrite append_empty_r.
Qed.

Lemma includes_prefix (a b : string) : JsString.includes (a ++ b) a = true.
Proof.
  assert (P : String.prefix a (a ++ b) = true).
  { induction a as [|c a IH]; simpl.
    - destruct b; reflexivity.
    - destruct (ascii_dec c c); [exact IH | congruence]. }
  destruct a; simpl in *; [destruct b; reflexivity|].
  now rewrite P.
Qed.

Lemma includes_skip (a b c : string) :
  JsString.includes b c = true -> JsString.includes (a ++ b) c = true.
Proof.
  intros I. induction a as [|x a IH]; simpl; [exact I|].
  rewrite IH. apply orb_true_r.
Qed.

(** C9, as amended: when the call reaches [axios] and [axios] rejects,
    the call fails with
    [API call failed. <detail>]; the detail is [Status: ] and the status
    code ([N/A] when there is none), and, only when the response came with
    a truthy body, either [, Content-Type: ] and the upstream content type
    when that is present and does not mention [json], or else [, Data: ]
    and the stringified body, or the fixed marker when stringifying
    throws; a 404 response gives a message that contains
    [Status: 404]. *)
Theorem failed_call_detail (apiBaseUrl : option string) (base : string)
  (w : World.t) (error : Exn.t) :
  truthy_opt apiBaseUrl = Some base ->
  firstMissing mcpArgs parameters = None ->
  firstUnprintable mcpArgs parameters = None ->
  axios (requestOf base operationDetails mcpArgs) = Throw error ->
  fst (executeApiCall apiBaseUrl operationDetails mcpArgs w)
  = Throw (Error_ ("API call failed. " ++ failureDetail error))
  /\ failureDetail error
     = ("Status: " ++ statusText error
        ++ match truthyBody error, Exn.response error ≫= nonJsonContentType with
           | None, _ => ""
           | Some _, Some ct => ", Content-Type: " ++ ct
           | Some data, None =>
               match JSON_stringify data with
               | Normal text => ", Data: " ++ text
               | Throw _ => ", Data: [Could not stringify response data]"
               end
           end)%string
  /\ (forall r : AxiosResponse.t,
        Exn.response error = Some r -> AxiosResponse.status r = 404%Z ->
        JsString.includes ("API call failed. " ++ failureDetail error)
          "Status: 404" = true).
Proof.
  intros B F U R.
  pose proof (proj2 (firstAbort_None mcpArgs parameters) (conj F U)) as FA.
  rewrite (executeApiCall_request apiBaseUrl base w B FA). cbv zeta. rewrite R.
  split; [reflexivity|]. split; [apply failureDetail_cases|].
  intros r Er E404. apply includes_skip. rewrite failureDetail_cases.
  unfold statusText. rewrite Er, E404. simpl Z.eqb. cbv iota.
  change (Z_toString 404) with "404".
  rewrite <- append_assoc. apply includes_prefix.
Qed.

End Calls.

Section Locations.

Lemma in_is_Some (p : MCPParameter.t) (location other : string) :
  MCPParameter._in p = Some location ->
  in_is p other = String.eqb location other.
Proof. unfold in_is. now intros ->. Qed.

(** A parameter has one location. *)
Lemma in_is_unique (p : MCPParameter.t) (a b : string) :
  in_is p a = true -> a <> b -> in_is p b = false.
Proof.
  unfold in_is. destruct (MCPParameter._in p) as [l|]; [|discriminate].
  intros E N. apply String.eqb_eq in E. subst l. now apply String.eqb_neq.
Qed.

End Locations.

Ltac locate p :=
  let L := fresh "L" in
  destruct (in_is p "path") eqn:L;
  [ rewrite ?(in_is_unique p "path" "query" L), ?(in_is_unique p "path" "header" L),
      ?(in_is_unique p "path" "body" L) by discriminate
  | clear L; destruct (in_is p "query") eqn:L;
    [ rewrite ?(in_is_unique p "query" "header" L),
        ?(in_is_unique p "query" "body" L) by discriminate
    | clear L; destruct (in_is p "header") eqn:L;
      [ rewrite ?(in_is_unique p "header" "body" L) by discriminate
      | clear L; destruct (in_is p "body") eqn:L ] ] ].

Section ParameterValues.

Context `{Environment}.

Variable mcpArgs : gmap string value.

#[local] Abbreviation argOf p := (lookupArg mcpArgs (MCPParameter.name p)).

(** The locals after a step, written out. *)
Lemma applyParam_step (d : Draft.t) (p : MCPParameter.t) :
  applyParam mcpArgs d p
  = if unset (argOf p) then d
    else if in_is p "path" then
      match String_arg (argOf p) with
      | Normal text =>
          {| Draft.headers := Draft.headers d;
             Draft.queryParams := Draft.queryParams d;
             Draft.requestBody := Draft.requestBody d;
             Draft.urlPath :=
               JsString.replace_first ("{" ++ MCPParameter.name p ++ "}")
                 (encodeURIComponent text) (Draft.urlPath d) |}
      | Throw _ => d
      end
    else if in_is p "query" then
      {| Draft.headers := Draft.headers d;
         Draft.queryParams :=
           assign (Draft.queryParams d) (MCPParameter.name p) (argOf p);
         Draft.requestBody := Draft.requestBody d;
         Draft.urlPath := Draft.urlPath d |}
    else if in_is p "header" then
      match String_arg (argOf p) with
      | Normal text =>
          {| Draft.headers := assign (Draft.headers d) (MCPParameter.name p) text;
             Draft.queryParams := Draft.queryParams d;
             Draft.requestBody := Draft.requestBody d;
             Draft.urlPath := Draft.urlPath d |}
      | Throw _ => d
      end
    else if in_is p "body" then
      {| Draft.headers :=
           if isBinarySchema (MCPParameter.schema p)
           then <["Content-Type" := "application/octet-stream"]> (Draft.headers d)
           else Draft.headers d;
         Draft.queryParams := Draft.queryParams d;
         Draft.requestBody := bodyOf mcpArgs p;
         Draft.urlPath := Draft.urlPath d |}
    else d.
Proof.
  unfold applyParam. rewrite processParam_step. cbn [fst].
  destruct (unset (argOf p)); [now destruct (MCPParameter.required p)|].
  destruct (in_is p "path"); [now destruct (String_arg (argOf p))|].
  destruct (in_is p "query"); [reflexivity|].
  destruct (in_is p "header"); [now destruct (String_arg (argOf p))|].
  now destruct (in_is p "body").
Qed.

Lemma applyParam_urlPath (d : Draft.t) (p : MCPParameter.t) :
  unprintable mcpArgs p = false ->
  Draft.urlPath (applyParam mcpArgs d p) = substitute mcpArgs (Draft.urlPath d) p.
Proof.
  intros U. rewrite applyParam_step. unfold substitute, given, textOf.
  unfold unprintable in U.
  destruct (unset (argOf p)); [now rewrite andb_false_r|].
  cbn [negb] in *. rewrite andb_true_r in *.
  locate p; cbn [orb andb] in U; try reflexivity;
    destruct (String_arg (argOf p)); try reflexivity; discriminate U.
Qed.

Lemma find_app_None {A : Type} (f : A -> bool) (a b : list A) :
  List.find f (a ++ b) = None <-> List.find f a = None /\ List.find f b = None.
Proof.
  induction a as [|x a IH]; simpl; [tauto|].
  destruct (f x); [|exact IH]. split; [discriminate | now intros [? _]].
Qed.

Lemma fold_urlPath (ps : list MCPParameter.t) :
  firstUnprintable mcpArgs ps = None ->
  forall d : Draft.t,
    Draft.urlPath (fold_left (applyParam mcpArgs) ps d)
    = urlPathAfter mcpArgs ps (Draft.urlPath d).
Proof.
  unfold firstUnprintable, urlPathAfter.
  induction ps as [|q ps IH]; simpl; [reflexivity|].
  destruct (unprintable mcpArgs q) eqn:U; [discriminate|].
  intros F d. now rewrite (IH F), (applyParam_urlPath d q U).
Qed.

Lemma applyParam_queryParams (d : Draft.t) (p : MCPParameter.t) (n : string) :
  n <> "__proto__" ->
  Draft.queryParams (applyParam mcpArgs d p) !! n
  = if (given mcpArgs "query" p && String.eqb (MCPParameter.name p) n)%bool
    then Some (lookupArg mcpArgs n)
    else Draft.queryParams d !! n.
Proof.
  intros N. rewrite applyParam_step. unfold given.
  destruct (unset (argOf p)); [now rewrite andb_false_r|].
  cbn [negb]. rewrite andb_true_r.
  locate p; cbn [andb]; try reflexivity;
    try (destruct (String_arg (argOf p)); reflexivity).
  cbn [Draft.queryParams]. rewrite (lookup_assign _ _ _ _ N).
  destruct (String.eqb_spec (MCPParameter.name p) n) as [->|D]; reflexivity.
Qed.

Lemma fold_queryParams (ps : list MCPParameter.t) (n : string) :
  n <> "__proto__" ->
  forall d : Draft.t,
    Draft.queryParams (fold_left (applyParam mcpArgs) ps d) !! n
    = if existsb (fun p => (given mcpArgs "query" p
                            && String.eqb (MCPParameter.name p) n)%bool) ps
      then Some (lookupArg mcpArgs n)
      else Draft.queryParams d !! n.
Proof.
  intros N. induction ps as [|q ps IH]; simpl; [reflexivity|].
  intros d. rewrite IH, (applyParam_queryParams d q n N).
  destruct (given mcpArgs "query" q && String.eqb (MCPParameter.name q) n)%bool;
    cbn [orb]; [|reflexivity].
  now destruct (existsb _ ps).
Qed.

Lemma applyParam_headers (d : Draft.t) (p : MCPParameter.t) (n : string) :
  n <> "__proto__" ->
  unprintable mcpArgs p = false ->
  Draft.headers (applyParam mcpArgs d p) !! n
  = if (given mcpArgs "header" p && String.eqb (MCPParameter.name p) n)%bool
    then Some (textOf (lookupArg mcpArgs n))
    else if (binaryGiven mcpArgs p && String.eqb "Content-Type" n)%bool
         then Some "application/octet-stream"
         else Draft.headers d !! n.
Proof.
  intros N U. rewrite applyParam_step. unfold binaryGiven, given, textOf.
  unfold unprintable in U.
  destruct (unset (argOf p)); [now rewrite !andb_false_r|].
  cbn [negb] in *. rewrite !andb_true_r in *.
  locate p; cbn [andb orb] in *; try reflexivity.
  - now destruct (String_arg (argOf p)).
  - destruct (String_arg (argOf p)) as [text|e] eqn:S; [|discriminate U].
    cbn [Draft.headers]. rewrite (lookup_assign _ _ _ _ N).
    destruct (String.eqb_spec (MCPParameter.name p) n) as [E|D]; [|reflexivity].
    rewrite <- E. now rewrite S.
  - cbn [Draft.headers].
    destruct (isBinarySchema (MCPParameter.schema p)); [|reflexivity].
    destruct (String.eqb_spec "Content-Type" n) as [<-|D].
    + now rewrite lookup_insert_eq.
    + now rewrite lookup_insert_ne.
Qed.

(** A header once set stays, unless a later binary body takes the
    [Content-Type]. *)
Lemma fold_header_kept (ps : list MCPParameter.t) (n : string) :
  n <> "__proto__" ->
  firstUnprintable mcpArgs ps = None ->
  (n = "Content-Type" -> existsb (binaryGiven mcpArgs) ps = false) ->
  forall d : Draft.t,
    Draft.headers d !! n = Some (textOf (lookupArg mcpArgs n)) ->
    Draft.headers (fold_left (applyParam mcpArgs) ps d) !! n
    = Some (textOf (lookupArg mcpArgs n)).
Proof.
  intros N. unfold firstUnprintable.
  induction ps as [|q ps IH]; simpl; [auto|].
  destruct (unprintable mcpArgs q) eqn:U; [discriminate|].
  intros F B d D. apply IH; [exact F | |].
  - intros E. apply B in E. now apply orb_false_iff in E.
  - rewrite (applyParam_headers d q n N U).
    destruct (given mcpArgs "header" q && String.eqb (MCPParameter.name q) n)%bool;
      [reflexivity|].
    destruct (binaryGiven mcpArgs q && String.eqb "Content-Type" n)%bool eqn:C;
      [|exact D].
    apply andb_true_iff in C as [G E]. apply String.eqb_eq in E.
    symmetry in E. apply B in E. apply orb_false_iff in E as [E _]. congruence.
Qed.

Lemma applyParam_requestBody (d : Draft.t) (p : MCPParameter.t) :
  Draft.requestBody (applyParam mcpArgs d p)
  = if given mcpArgs "body" p then bodyOf mcpArgs p else Draft.requestBody d.
Proof.
  rewrite applyParam_step. unfold given.
  destruct (unset (argOf p)); [now rewrite andb_false_r|].
  cbn [negb]. rewrite andb_true_r.
  locate p; try reflexivity; now destruct (String_arg (argOf p)).
Qed.

Lemma fold_body_kept (ps : list MCPParameter.t) :
  existsb (given mcpArgs "body") ps = false ->
  forall d : Draft.t,
    Draft.requestBody (fold_left (applyParam mcpArgs) ps d) = Draft.requestBody d.
Proof.
  induction ps as [|q ps IH]; simpl; [reflexivity|].
  intros E d. apply orb_false_iff in E as [G E].
  now rewrite (IH E), applyParam_requestBody, G.
Qed.

Variable operationDetails : OriginalOperationDetails.t.

#[local] Abbreviation parameters :=
  (OriginalOperationDetails.parameters operationDetails).


(** A binary body given as text is always decoded: for every string the
    step sends the bytes that Node's lenient decoder finds in it, sets the
    content type, and prints nothing. *)
Lemma binary_body_is_decoded (p : MCPParameter.t) (d : Draft.t) (w : World.t)
  (s : string) :
  MCPParameter._in p = Some "body" ->
  isBinarySchema (MCPParameter.schema p) = true ->
  lookupArg mcpArgs (MCPParameter.name p) = Given (VString s) ->
  processParam mcpArgs p d w
  = (Normal {| Draft.headers :=
                 <["Content-Type" := "application/octet-stream"]> (Draft.headers d);
               Draft.queryParams := Draft.queryParams d;
               Draft.requestBody := Bytes (Buffer.from_base64 s);
               Draft.urlPath := Draft.urlPath d |}, w).
Proof.
  intros L B V. unfold processParam.
  rewrite !(in_is_Some p "body" _ L), V, B. reflexivity.
Qed.

(** In particular the base64 text of a buffer is sent as that buffer. *)
Lemma base64_body_is_decoded (p : MCPParameter.t) (d : Draft.t) (w : World.t)
  (bytes : list byte) :
  MCPParameter._in p = Some "body" ->
  isBinarySchema (MCPParameter.schema p) = true ->
  lookupArg mcpArgs (MCPParameter.name p)
  = Given (VString (Buffer.toBase64 bytes)) ->
  processParam mcpArgs p d w
  = (Normal {| Draft.headers :=
                 <["Content-Type" := "application/octet-stream"]> (Draft.headers d);
               Draft.queryParams := Draft.queryParams d;
               Draft.requestBody := Bytes bytes;
               Draft.urlPath := Draft.urlPath d |}, w).
Proof.
  intros L B V. rewrite (binary_body_is_decoded p d w _ L B V).
  now rewrite from_base64_toBase64.
Qed.

End ParameterValues.

Section Registration.

Context `{Rendering} `{Platform}.

Lemma get_snoc {A : Type} (o : list (string * A)) (k n : string) (v : A) :
  get (o ++ [(k, v)]) n
  = match get o n with
    | Some a => Some a
    | None => if String.eqb k n then Some v else None
    end.
Proof.
  induction o as [|[k' a] o IH]; simpl; [reflexivity|].
  now destruct (String.eqb k' n).
Qed.

Lemma registered_snoc (server : McpServer.t) (t : SdkToolDefinition.t)
  (n : string) :
  McpServer.registered (server ++ [(SdkToolDefinition.name t, t)]) n
  = (McpServer.registered server n || String.eqb (SdkToolDefinition.name t) n)%bool.
Proof.
  unfold McpServer.registered. rewrite get_snoc.
  destruct (get server n); [reflexivity|].
  destruct (String.eqb (SdkToolDefinition.name t) n);
    [now rewrite orb_true_r | now rewrite orb_false_r].
Qed.

(** The registration loop stops at the first tool that [tool()] refuses,
    and otherwise holds every tool under its name. *)
Lemma forEach_registerTool (tools : list SdkToolDefinition.t) :
  forall (server : McpServer.t) (w : World.t),
    fst (forEach registerTool tools server w)
    = match firstRefused server tools with
      | Some t =>
          Throw (Error_ ("Tool " ++ SdkToolDefinition.name t
                         ++ " is already registered"))
      | None => Normal (server ++ registryOf tools)
      end.
Proof.
  induction tools as [|t tools IH]; intros server w; simpl.
  - now rewrite app_nil_r.
  - unfold bind at 1, registerTool, McpServer.tool, bind, print, lift.
    destruct (McpServer.registered server (SdkToolDefinition.name t));
      [reflexivity|].
    rewrite IH. destruct (firstRefused _ tools); [reflexivity|].
    now rewrite <- app_assoc.
Qed.

Lemma firstRefused_In (tools : list SdkToolDefinition.t) :
  forall (server : McpServer.t) (t : SdkToolDefinition.t),
    firstRefused server tools = Some t -> In t tools.
Proof.
  induction tools as [|x tools IH]; intros server t; simpl; [discriminate|].
  destruct (McpServer.registered server (SdkToolDefinition.name x)).
  - intros [= ->]. now left.
  - intros F. right. exact (IH _ _ F).
Qed.

(** What is registered without refusal has distinct names, none of them
    taken before. *)
Lemma firstRefused_None (tools : list SdkToolDefinition.t) :
  forall server : McpServer.t,
    firstRefused server tools = None ->
    List.NoDup (List.map SdkToolDefinition.name tools)
    /\ (forall n : string,
           In n (List.map SdkToolDefinition.name tools) ->
           McpServer.registered server n = false).
Proof.
  induction tools as [|x tools IH]; intros server; simpl.
  - intros _. split; [constructor | tauto].
  - destruct (McpServer.registered server (SdkToolDefinition.name x)) eqn:R;
      [discriminate|].
    intros F. destruct (IH _ F) as [D N]. split.
    + constructor; [|exact D]. intros I. specialize (N _ I).
      rewrite registered_snoc, String.eqb_refl, orb_true_r in N. discriminate.
    + intros n [<-|I]; [exact R|]. specialize (N _ I).
      rewrite registered_snoc in N. now apply orb_false_iff in N.
Qed.

Lemma createServerInfrastructure_fst (file : string) (parsed : ParsedDocument.t)
  (w : World.t) :
  SwaggerParser_validate file = Normal parsed ->
  let tools := fst (adaptOpenAPIToSdkTools (ParsedDocument.document parsed)) in
  fst (createServerInfrastructure file w)
  = match firstRefused [] tools with
    | Some t =>
        Throw (Error_ ("Tool " ++ SdkToolDefinition.name t
                       ++ " is already registered"))
    | None =>
        Normal {| Infrastructure.apiBaseUrl :=
                    fst (deriveApiBaseUrl (ParsedDocument.description parsed));
                  Infrastructure.mcpServer := registryOf tools |}
    end.
Proof.
  intros V tools. unfold createServerInfrastructure, parseOpenAPI.
  unfold bind at 1 2 3, print, try_catch, lift, ret. rewrite V.
  cbn [fst snd]. unfold bind at 1 2.
  destruct (deriveApiBaseUrl (ParsedDocument.description parsed)) as [u ws].
  unfold tools.
  destruct (adaptOpenAPIToSdkTools (ParsedDocument.document parsed))
    as [sdkTools adapted].
  cbn [fst snd]. unfold bind at 1, prints. unfold bind at 1.
  unfold bind at 1.
  match goal with
  | |- context [forEach registerTool sdkTools [] ?w'] =>
      pose proof (forEach_registerTool sdkTools [] w') as E;
      destruct (forEach registerTool sdkTools [] w') as [[server|e] w'']
  end; cbn [fst] in E; destruct (firstRefused [] sdkTools);
    try discriminate E; injection E as ->; reflexivity.
Qed.

(** For the two paths [/a-b] and [/a/b],
    each with a [get] operation, the adapter returns two tools of the one
    name [get_a_b], and the console shows the summary line only. *)
Lemma colliding_paths_share_a_name :
  List.map SdkToolDefinition.name (fst (adaptOpenAPIToSdkTools collidingDocument))
  = ["get_a_b"; "get_a_b"]
  /\ snd (adaptOpenAPIToSdkTools collidingDocument)
     = [console.log "Adapted 2 tools from OpenAPI spec."].
Proof. split; vm_compute; reflexivity. Qed.


End Registration.


(** ** The theorems at concrete calls *)

Lemma binary_response_envelope_witness :
  fst (@executeApiCall (serverOf (Normal photoResponse))
         (Some "http://api.example/") getPhoto {["petId" := VNumber 7]}
         World.empty)
  = Normal
      (Plain
         (VObject [("_isBinary", VBool true);
                   ("contentType", VString "image/png");
                   ("data", VString "SGVsbG8=")]))
  /\ Buffer.from_base64 "SGVsbG8=" = [x48; x65; x6c; x6c; x6f]
  /\ World.sent
       (snd (@executeApiCall (serverOf (Normal photoResponse))
               (Some "http://api.example/") getPhoto {["petId" := VNumber 7]}
               World.empty))
     = [] ++ [requestOf "http://api.example/" getPhoto {["petId" := VNumber 7]}].
Proof.
  apply (@binary_response_envelope (serverOf (Normal photoResponse))
           {["petId" := VNumber 7]} getPhoto (Some "http://api.example/")
           "http://api.example/" "image/png" World.empty photoResponse
           [x48; x65; x6c; x6c; x6f]);
    solve [vm_compute; reflexivity | discriminate].
Defined.

(** C1 as stated spells the tag [isBinary]; the object that the code
    returns has no such key. *)
Lemma binary_envelope_tag :
  fst (@executeApiCall (serverOf (Normal photoResponse))
         (Some "http://api.example/") getPhoto {["petId" := VNumber 7]}
         World.empty)
  <> Normal
       (Plain
          (VObject [("isBinary", VBool true);
                    ("contentType", VString "image/png");
                    ("data", VString "SGVsbG8=")])).
Proof. vm_compute. discriminate. Qed.



Lemma failed_call_detail_witness :
  fst (@executeApiCall (serverOf (Throw notFound)) (Some "http://api.example")
         findPets {["status" := VString "sold"; "owner" := VNull]} World.empty)
  = Throw (Error_ ("API call failed. "
                   ++ @failureDetail (serverOf (Throw notFound)) notFound))
  /\ JsString.includes
       ("API call failed. " ++ @failureDetail (serverOf (Throw notFound)) notFound)
       "Status: 404" = true.
Proof.
  destruct (@failed_call_detail (serverOf (Throw notFound))
              {["status" := VString "sold"; "owner" := VNull]} findPets
              (Some "http://api.example") "http://api.example" World.empty
              notFound eq_refl)
    as [E [_ S]];
    [vm_compute; reflexivity | vm_compute; reflexivity | reflexivity |].
  split; [exact E|].
  exact (S _ eq_refl eq_refl).
Defined.

(** C9 as stated has the content type in the detail whenever it is not
    JSON; for a 404 answer of type [text/plain] with an empty body the
    detail is the status alone. *)
Lemma empty_body_detail :
  fst (@executeApiCall (serverOf (Throw emptyNotFound))
         (Some "http://api.example") findPets
         {["status" := VString "sold"; "owner" := VNull]} World.empty)
  = Throw (Error_ "API call failed. Status: 404")
  /\ JsString.includes "API call failed. Status: 404" "text/plain" = false.
Proof. split; vm_compute; reflexivity. Qed.



(** C4 does not hold of the code: a binary body given as the text [!!!!],
    which is not base64, is sent as the empty buffer that Node's decoder
    makes of it, not as the original string, and no warning is printed. *)
Theorem invalid_base64_body_is_decoded :
  let call :=
    @executeApiCall (serverOf (Normal okResponse)) (Some "http://api.example")
      uploadPhoto {["requestBody" := VString "!!!!"]} World.empty in
  List.map AxiosRequestConfig.data (World.sent (snd call)) = [Bytes []]
  /\ List.map (fun c => AxiosRequestConfig.headers c !! "Content-Type")
       (World.sent (snd call))
     = [Some "application/octet-stream"]
  /\ existsb isWarning (World.out (snd call)) = false.
Proof. repeat split; vm_compute; reflexivity. Qed.

(** * Further properties of the executor *)

Section CallShape.

Context `{Environment}.

Variable mcpArgs : gmap string value.
Variable operationDetails : OriginalOperationDetails.t.

#[local] Abbreviation parameters :=
  (OriginalOperationDetails.parameters operationDetails).


(** X2: Every error that leaves [executeApiCall] has no response
    attached, and its message is the configuration message, or names a
    required parameter of the operation that reads as [undefined], or is
    the [TypeError] message of [String] applied to the argument of a
    path or header parameter that does not convert, or is
    [API call failed. ] followed by the detail of the failure caught
    around [axios].  (Strings here are of Latin-1 characters, on which
    [encodeURIComponent] does not fail.) *)
Theorem error_forms (apiBaseUrl : option string) (w : World.t) (e : Exn.t) :
  fst (executeApiCall apiBaseUrl operationDetails mcpArgs w) = Throw e ->
  Exn.response e = None
  /\ (Exn.message e = "API base URL is not configured. Cannot execute API call."
      \/ (exists p : MCPParameter.t,
             In p parameters /\ missing mcpArgs p = true
             /\ Exn.message e
                = ("Missing required parameter: " ++ MCPParameter.name p)%string)
      \/ (exists p : MCPParameter.t,
             In p parameters /\ unprintable mcpArgs p = true
             /\ Exn.message e = "Cannot convert object to primitive value")
      \/ (exists cause : Exn.t,
             Exn.message e = ("API call failed. " ++ failureDetail cause)%string)).
Proof.
  destruct (executeApiCall_cases mcpArgs operationDetails apiBaseUrl w)
    as [[B E]|[[b [q [B [F E]]]]|[b [B [F [S [[r E]|[c E]]]]]]]];
    rewrite E; cbn [fst]; intros T; try discriminate T; injection T as <-.
  - split; [reflexivity | now left].
  - destruct (find_some _ _ F) as [I A]. unfold abortOf.
    destruct (missing mcpArgs q) eqn:M.
    + split; [reflexivity|]. right. left. exists q. auto.
    + cbn [orb] in A.
      assert (C : match String_arg (lookupArg mcpArgs (MCPParameter.name q)) with
                  | Normal _ => cannotConvert
                  | Throw e => e
                  end = cannotConvert).
      { destruct (String_arg _) eqn:S; [reflexivity|].
        now apply String_arg_throws in S. }
      rewrite C. split; [reflexivity|]. right. right. left. exists q. auto.
  - split; [reflexivity|]. right. right. right. now exists c.
Qed.

End CallShape.

Section RequestHeaders.

Context `{Environment}.

Variable mcpArgs : gmap string value.

#[local] Abbreviation argOf p := (lookupArg mcpArgs (MCPParameter.name p)).

(** An assignment removes nothing. *)
Lemma assign_keeps {A : Type} (o : gmap string A) (k n : string) (v : A) :
  is_Some (o !! n) -> is_Some (assign o k v !! n).
Proof.
  intros S. unfold assign. destruct (String.eqb k "__proto__"); [exact S|].
  destruct (decide (k = n)) as [->|N];
    [rewrite lookup_insert_eq; eauto | now rewrite lookup_insert_ne].
Qed.

Lemma assign_other {A : Type} (o : gmap string A) (k n : string) (v : A) :
  k <> n -> assign o k v !! n = o !! n.
Proof.
  intros N. unfold assign. destruct (String.eqb k "__proto__"); [reflexivity|].
  now rewrite lookup_insert_ne.
Qed.

(** A step never removes a header. *)
Lemma applyParam_keeps_headers (d : Draft.t) (p : MCPParameter.t) (k : string) :
  is_Some (Draft.headers d !! k) ->
  is_Some (Draft.headers (applyParam mcpArgs d p) !! k).
Proof.
  intros S. rewrite applyParam_step.
  destruct (unset (argOf p)); [exact S|].
  locate p; try exact S.
  - now destruct (String_arg (argOf p)).
  - destruct (String_arg (argOf p)); [|exact S]. now apply assign_keeps.
  - cbn [Draft.headers].
    destruct (isBinarySchema (MCPParameter.schema p)); [|exact S].
    destruct (decide ("Content-Type" = k)) as [<-|N];
      [rewrite lookup_insert_eq; eauto | now rewrite lookup_insert_ne].
Qed.

(** A step changes a header only if it is a header parameter of that
    name, or a binary body setting the content type. *)
Lemma applyParam_other_header (d : Draft.t) (p : MCPParameter.t) (k : string) :
  headerNamed k p = false ->
  (k = "Content-Type" -> binaryBody p = false) ->
  Draft.headers (applyParam mcpArgs d p) !! k = Draft.headers d !! k.
Proof.
  unfold headerNamed, binaryBody. intros Hh Hb. rewrite applyParam_step.
  destruct (unset (argOf p)); [reflexivity|].
  locate p; try reflexivity.
  - now destruct (String_arg (argOf p)).
  - destruct (String_arg (argOf p)); [|reflexivity].
    rewrite andb_true_l in Hh. apply String.eqb_neq in Hh.
    now apply assign_other.
  - cbn [Draft.headers].
    destruct (isBinarySchema (MCPParameter.schema p)); [|reflexivity].
    destruct (decide ("Content-Type" = k)) as [<-|N];
      [|now rewrite lookup_insert_ne].
    specialize (Hb eq_refl). discriminate Hb.
Qed.

Lemma fold_keeps_headers (ps : list MCPParameter.t) (k : string) :
  forall d : Draft.t,
    is_Some (Draft.headers d !! k) ->
    is_Some (Draft.headers (fold_left (applyParam mcpArgs) ps d) !! k).
Proof.
  induction ps as [|p ps IH]; intros d S; simpl; [exact S|].
  apply IH, applyParam_keeps_headers, S.
Qed.

Lemma fold_other_header (ps : list MCPParameter.t) (k : string) :
  forallb (fun p => negb (headerNamed k p)) ps = true ->
  (k = "Content-Type" -> forallb (fun p => negb (binaryBody p)) ps = true) ->
  forall d : Draft.t,
    Draft.headers (fold_left (applyParam mcpArgs) ps d) !! k
    = Draft.headers d !! k.
Proof.
  induction ps as [|p ps IH]; intros Hh Hb d; simpl; [reflexivity|].
  simpl in Hh. apply andb_true_iff in Hh as [Hp Hh].
  apply negb_true_iff in Hp.
  rewrite IH; [|exact Hh|].
  - apply applyParam_other_header; [exact Hp|].
    intros K. specialize (Hb K). simpl in Hb.
    apply andb_true_iff in Hb as [B _]. now apply negb_true_iff in B.
  - intros K. specialize (Hb K). simpl in Hb.
    now apply andb_true_iff in Hb as [_ B].
Qed.

Variable operationDetails : OriginalOperationDetails.t.

#[local] Abbreviation parameters :=
  (OriginalOperationDetails.parameters operationDetails).

(** X3: Whatever the arguments, the request of a call carries an [Accept]
    header, and a [Content-Type] header as soon as the operation has a
    parameter located in the body. *)
Theorem request_headers_present (base : string) :
  is_Some (AxiosRequestConfig.headers (requestOf base operationDetails mcpArgs)
           !! "Accept")
  /\ (existsb (fun p => in_is p "body") parameters = true ->
      is_Some (AxiosRequestConfig.headers
                 (requestOf base operationDetails mcpArgs) !! "Content-Type")).
Proof.
  unfold requestOf, configOf. cbn [AxiosRequestConfig.headers].
  unfold finalDraft. split.
  - apply fold_keeps_headers. unfold initialDraft. cbn [Draft.headers].
    destruct (List.find _ parameters).
    + rewrite lookup_insert_ne by discriminate. rewrite lookup_insert_eq. eauto.
    + rewrite lookup_insert_eq. eauto.
  - intros E. apply fold_keeps_headers. unfold initialDraft. cbn [Draft.headers].
    destruct (List.find (fun p => in_is p "body") parameters) eqn:F.
    + rewrite lookup_insert_eq. eauto.
    + apply existsb_exists in E as [p [I B]].
      pose proof (find_none _ _ F p I) as N. cbv beta in N. congruence.
Qed.

(** The [Accept] header is the one the operation declares unless a header
    parameter is itself named [Accept]. *)
Lemma accept_is_declared :
  forallb (fun p => negb (headerNamed "Accept" p)) parameters = true ->
  Draft.headers (finalDraft operationDetails mcpArgs) !! "Accept"
  = Some (declaredAccept operationDetails).
Proof.
  intros N. unfold finalDraft.
  rewrite (fold_other_header _ "Accept" N) by discriminate.
  unfold initialDraft, declaredAccept. cbn [Draft.headers].
  destruct (List.find _ parameters).
  - rewrite lookup_insert_ne by discriminate. apply lookup_insert_eq.
  - apply lookup_insert_eq.
Qed.

(** X4: When the call reaches [axios], no header parameter is named
    [Accept] and the operation's first produced content type mentions
    [json] or is the wildcard (or none is declared), a successful
    response is returned exactly as [axios] delivered it. *)
Theorem json_response_passes_through (apiBaseUrl : option string) (base : string)
  (w : World.t) (response : AxiosResponse.t) :
  truthy_opt apiBaseUrl = Some base ->
  firstMissing mcpArgs parameters = None ->
  firstUnprintable mcpArgs parameters = None ->
  forallb (fun p => negb (headerNamed "Accept" p)) parameters = true ->
  jsonLike (declaredAccept operationDetails) = true ->
  axios (requestOf base operationDetails mcpArgs) = Normal response ->
  fst (executeApiCall apiBaseUrl operationDetails mcpArgs w)
  = Normal (AxiosResponse.data response).
Proof.
  intros B F U N J R.
  pose proof (proj2 (firstAbort_None mcpArgs parameters) (conj F U)) as FA.
  rewrite (executeApiCall_request mcpArgs operationDetails apiBaseUrl base w B FA).
  cbv zeta. rewrite R.
  assert (E : AxiosRequestConfig.responseType
                (requestOf base operationDetails mcpArgs) = json).
  { unfold requestOf, configOf. cbn [AxiosRequestConfig.responseType].
    unfold responseTypeOf. rewrite (accept_is_declared N).
    cbn [fmap option_fmap option_map]. unfold jsonLike in J.
    destruct (JsString.includes _ "json"); [reflexivity|].
    cbn [orb] in J |- *. now rewrite J. }
  now rewrite E.
Qed.

End RequestHeaders.

Section UrlBuilding.

Lemma all_chars_app (P : ascii -> bool) (a b : string) :
  all_chars P (a ++ b) = (all_chars P a && all_chars P b)%bool.
Proof.
  induction a as [|c a IH]; simpl; [reflexivity|].
  now rewrite IH, andb_assoc.
Qed.

Lemma all_chars_get (P : ascii -> bool) (s : string) :
  all_chars P s = true ->
  forall (i : nat) (c : ascii), String.get i s = Some c -> P c = true.
Proof.
  induction s as [|x s IH]; simpl; intros A i c G; [discriminate|].
  apply andb_true_iff in A as [Px A].
  destruct i; [injection G as <-; exact Px | exact (IH A i c G)].
Qed.

Lemma hexDigit_safe (n : N) : all_chars uriSafe (hexDigit n) = true.
Proof.
  unfold hexDigit.
  destruct (String.get (N.to_nat n) "0123456789ABCDEF") as [c|] eqn:G;
    [|reflexivity].
  simpl. rewrite andb_true_r.
  exact (all_chars_get uriSafe "0123456789ABCDEF" eq_refl _ _ G).
Qed.

Lemma percent_safe (n : N) : all_chars uriSafe (percent n) = true.
Proof.
  unfold percent. change ("%" ++ ?x)%string with (String "%" x).
  cbn [all_chars]. now rewrite all_chars_app, !hexDigit_safe.
Qed.

(** X5: What [encodeURIComponent] returns is made of unreserved characters
    and percent escapes only; in particular it holds no slash, question
    mark, hash, brace or dollar sign, whatever the argument was. *)
Theorem encodeURIComponent_safe (s : string) :
  all_chars uriSafe (encodeURIComponent s) = true
  /\ forall c : ascii,
       uriSafe c = false ->
       JsString.includes (encodeURIComponent s) (String c "") = false.
Proof.
  assert (A : all_chars uriSafe (encodeURIComponent s) = true).
  { induction s as [|c s IH]; [reflexivity|].
    cbn [encodeURIComponent]. rewrite all_chars_app, IH, andb_true_r.
    unfold encodeUnit. destruct (unreserved c) eqn:U.
    - simpl. unfold uriSafe. now rewrite U.
    - destruct (N.ltb (JsString.code c) 128).
      + apply percent_safe.
      + now rewrite all_chars_app, !percent_safe. }
  split; [exact A|].
  intros c U. revert A. generalize (encodeURIComponent s) as t.
  induction t as [|x t IH]; intros A.
  - reflexivity.
  - simpl in A. apply andb_true_iff in A as [Px A].
    cbn [JsString.includes String.prefix].
    destruct (ascii_dec c x) as [->|N]; [congruence|].
    cbn [orb]. exact (IH A).
Qed.

Lemma endsWith_slash (b : string) : JsString.endsWith_char (b ++ "/") "/" = true.
Proof.
  induction b as [|c b IH]; [reflexivity|].
  change (String c b ++ "/")%string with (String c (b ++ "/")).
  cbn [JsString.endsWith_char]. destruct (b ++ "/")%string eqn:E; [|exact IH].
  destruct b; discriminate E.
Qed.

Lemma drop_last_slash (b : string) : JsString.drop_last (b ++ "/") = b.
Proof.
  induction b as [|c b IH]; [reflexivity|].
  change (String c b ++ "/")%string with (String c (b ++ "/")).
  cbn [JsString.drop_last]. destruct (b ++ "/")%string eqn:E.
  - destruct b; discriminate E.
  - now rewrite IH.
Qed.

(** X6: Take a base URL that does not end with a slash and a path that
    does not start with one.  Joined as they are, or with a slash added
    at the end of the base, or at the start of the path, or both, they
    give the base, one slash and the path.  Only one slash is taken from
    the end of the base and none from the start of the path: a base
    ending in two slashes, or a path starting with two, leaves a double
    slash in the URL. *)
Theorem target_url_join (base path : string) :
  JsString.endsWith_char base "/" = false ->
  JsString.startsWith path "/" = false ->
  targetUrlOf base path = (base ++ "/" ++ path)%string
  /\ targetUrlOf (base ++ "/") path = (base ++ "/" ++ path)%string
  /\ targetUrlOf base ("/" ++ path) = (base ++ "/" ++ path)%string
  /\ targetUrlOf (base ++ "/") ("/" ++ path) = (base ++ "/" ++ path)%string
  /\ targetUrlOf (base ++ "//") ("/" ++ path) = (base ++ "//" ++ path)%string
  /\ targetUrlOf base ("//" ++ path) = (base ++ "//" ++ path)%string.
Proof.
  intros E S. unfold targetUrlOf.
  assert (P : forall t, JsString.startsWith ("/" ++ t) "/" = true).
  { intros t. unfold JsString.startsWith. simpl. destruct t; reflexivity. }
  assert (D : (base ++ "//")%string = ((base ++ "/") ++ "/")%string)
    by now rewrite append_assoc.
  rewrite D, E, S, !endsWith_slash, !drop_last_slash, P.
  change ("//" ++ path)%string with ("/" ++ ("/" ++ path))%string.
  rewrite P. repeat split; try reflexivity.
  now rewrite append_assoc.
Qed.

Lemma target_url_join_witness :
  targetUrlOf "http://api.example/v1" "pets" = "http://api.example/v1/pets"
  /\ targetUrlOf "http://api.example/v1/" "pets" = "http://api.example/v1/pets"
  /\ targetUrlOf "http://api.example/v1" "/pets" = "http://api.example/v1/pets"
  /\ targetUrlOf "http://api.example/v1/" "/pets" = "http://api.example/v1/pets"
  /\ targetUrlOf "http://api.example/v1//" "/pets" = "http://api.example/v1//pets"
  /\ targetUrlOf "http://api.example/v1" "//pets" = "http://api.example/v1//pets".
Proof. exact (target_url_join "http://api.example/v1" "pets" eq_refl eq_refl). Defined.

Lemma replace_first_absent (pat rep s : string) :
  JsString.includes s pat = false -> JsString.replace_first pat rep s = s.
Proof.
  induction s as [|c s IH]; cbn [JsString.includes JsString.replace_first];
    intros I; apply orb_false_iff in I as [P I]; rewrite P.
  - reflexivity.
  - now rewrite IH.
Qed.

Variable mcpArgs : gmap string value.


Lemma applyParam_skipped (d : Draft.t) (p : MCPParameter.t) :
  skipped mcpArgs p = true -> applyParam mcpArgs d p = d.
Proof.
  unfold skipped. intros S. apply andb_true_iff in S as [U R].
  now rewrite applyParam_step, U.
Qed.

(** X8: A call in which every parameter is optional and reads as
    [undefined] (no argument of its name, and the name none that every
    object inherits) sends the request of the untouched template: the
    declared path with its placeholders still in it, the initial headers,
    no query, no body; no parameter is reported missing and none fails to
    convert. *)
Theorem unsupplied_optional_parameters (operationDetails : OriginalOperationDetails.t)
  (base : string) :
  forallb (skipped mcpArgs) (OriginalOperationDetails.parameters operationDetails)
  = true ->
  firstMissing mcpArgs (OriginalOperationDetails.parameters operationDetails) = None
  /\ firstUnprintable mcpArgs (OriginalOperationDetails.parameters operationDetails)
     = None
  /\ requestOf base operationDetails mcpArgs
     = configOf base operationDetails (initialDraft operationDetails).
Proof.
  intros S. unfold requestOf, finalDraft, firstMissing, firstUnprintable.
  generalize (initialDraft operationDetails) as d.
  induction (OriginalOperationDetails.parameters operationDetails) as [|p ps IH];
    intros d; [repeat split; reflexivity|].
  simpl in S. apply andb_true_iff in S as [Sp S].
  cbn [fold_left List.find]. rewrite (applyParam_skipped d p Sp).
  unfold skipped in Sp. apply andb_true_iff in Sp as [U R].
  apply negb_true_iff in R.
  assert (M : missing mcpArgs p = false) by (unfold missing; now rewrite R).
  assert (P : unprintable mcpArgs p = false).
  { unfold unprintable. rewrite U. cbn [negb]. now rewrite andb_false_r. }
  rewrite M, P. exact (IH S d).
Qed.

End UrlBuilding.


Lemma unsupplied_optional_parameters_witness :
  firstMissing ∅ (OriginalOperationDetails.parameters optionalPhoto) = None
  /\ firstUnprintable ∅ (OriginalOperationDetails.parameters optionalPhoto) = None
  /\ requestOf "http://api.example" optionalPhoto ∅
     = configOf "http://api.example" optionalPhoto (initialDraft optionalPhoto).
Proof. apply unsupplied_optional_parameters. reflexivity. Defined.

(** * Further properties of the adapter *)

Section Adaptation.

Lemma extractStep_out (l : list (ReferenceOr ParameterObject.t)) :
  forall ps sh out,
    snd (fold_left extractStep l (ps, sh, out))
    = out ++ List.map (fun r => console.warn
                         ("Skipping unresolved parameter reference: " ++ r))
               (refsOf (Some l)).
Proof.
  induction l as [|[r|q] l IH]; intros ps sh out.
  - simpl. now rewrite app_nil_r.
  - change (fold_left extractStep (Ref r :: l) (ps, sh, out))
      with (fold_left extractStep l
              (ps, sh, out ++ [console.warn
                 ("Skipping unresolved parameter reference: " ++ r)])).
    rewrite IH. change (refsOf (Some (Ref r :: l))) with (r :: refsOf (Some l)).
    simpl. now rewrite <- app_assoc.
  - change (fold_left extractStep (Obj q :: l) (ps, sh, out))
      with (fold_left extractStep l
              (ps ++ [fst (adaptParameter q)],
               insertEntry sh (adaptParameter q), out)).
    now rewrite IH.
Qed.

(** The three results of adapting a parameter list. *)
Lemma extractAndBuildZodShape_fold
  (openapiParams : option (list (ReferenceOr ParameterObject.t)))
  (zodShape : gmap string ZodTypeAny) (out : list console.entry) :
  extractAndBuildZodShape openapiParams zodShape out
  = (List.map fst (declared openapiParams),
     fold_left insertEntry (declared openapiParams) zodShape,
     out ++ List.map (fun r => console.warn
                        ("Skipping unresolved parameter reference: " ++ r))
              (refsOf openapiParams)).
Proof.
  destruct (extractAndBuildZodShape_declared openapiParams zodShape out)
    as [out' E].
  rewrite E. f_equal.
  assert (S : snd (extractAndBuildZodShape openapiParams zodShape out) = out')
    by now rewrite E.
  rewrite <- S. destruct openapiParams as [l|]; simpl.
  - apply extractStep_out.
  - now rewrite app_nil_r.
Qed.

Lemma declared_or_reference (l : list (ReferenceOr ParameterObject.t)) :
  length (declared (Some l)) + length (refsOf (Some l)) = length l.
Proof.
  unfold declared, refsOf.
  induction l as [|[r|q] l IH]; cbn [omap list_omap length]; lia.
Qed.

(** X9: A parameter list is adapted entry by entry: every parameter that is
    not an unresolved reference gives one tool parameter and one shape
    entry, in order, and every unresolved reference gives one warning and
    nothing else; so the parameters returned and the warnings printed add
    up to the entries of the list. *)
Theorem references_are_skipped
  (l : list (ReferenceOr ParameterObject.t))
  (zodShape : gmap string ZodTypeAny) (out : list console.entry) :
  let '(mcpParams, shape, printed) :=
    extractAndBuildZodShape (Some l) zodShape out in
  mcpParams = List.map fst (declared (Some l))
  /\ shape = fold_left insertEntry (declared (Some l)) zodShape
  /\ printed
     = out ++ List.map (fun r => console.warn
                          ("Skipping unresolved parameter reference: " ++ r))
                (refsOf (Some l))
  /\ length mcpParams + length printed = length l + length out.
Proof.
  rewrite extractAndBuildZodShape_fold.
  repeat split.
  rewrite length_map, length_app, length_map.
  pose proof (declared_or_reference l). lia.
Qed.

Variables (path method : string).
Variable pathItem : PathItemObject.t.
Variable operation : OperationObject.t.

#[local] Abbreviation merged := (mergedOf pathItem operation).

(** The tool does not depend on what the console held before. *)
Lemma adaptOperation_console (out : list console.entry) :
  fst (adaptOperation path pathItem method operation out)
  = fst (adaptOperation path pathItem method operation []).
Proof.
  unfold adaptOperation.
  rewrite !extractAndBuildZodShape_fold. cbv beta iota zeta.
  destruct (extractRequestBody_declared
              (OperationObject.requestBody operation)
              (fold_left insertEntry
                 (declared (OperationObject.parameters operation))
                 (fold_left insertEntry
                    (declared (PathItemObject.parameters pathItem)) ∅))
              ((out ++ List.map (fun r => console.warn
                          ("Skipping unresolved parameter reference: " ++ r))
                        (refsOf (PathItemObject.parameters pathItem)))
               ++ List.map (fun r => console.warn
                          ("Skipping unresolved parameter reference: " ++ r))
                    (refsOf (OperationObject.parameters operation))))
    as [o1 ->].
  destruct (extractRequestBody_declared
              (OperationObject.requestBody operation)
              (fold_left insertEntry
                 (declared (OperationObject.parameters operation))
                 (fold_left insertEntry
                    (declared (PathItemObject.parameters pathItem)) ∅))
              (([] ++ List.map (fun r => console.warn
                          ("Skipping unresolved parameter reference: " ++ r))
                        (refsOf (PathItemObject.parameters pathItem)))
               ++ List.map (fun r => console.warn
                          ("Skipping unresolved parameter reference: " ++ r))
                    (refsOf (OperationObject.parameters operation))))
    as [o2 ->].
  reflexivity.
Qed.

Variable out : list console.entry.

#[local] Abbreviation adaptedTool :=
  (fst (adaptOperation path pathItem method operation out)).
#[local] Abbreviation internalParams := (internalParamsOf adaptedTool).

(** X10: The shape that validates the arguments and the parameter list
    that the executor walks know the same names, [__proto__] apart: a
    name other than [__proto__] has a shape entry exactly when it has a
    parameter; under [__proto__] the shape has no entry, whatever the
    parameter list holds. *)
Theorem shape_covers_parameters :
  (forall n : string,
      n <> "__proto__" ->
      is_Some (SdkToolDefinition.zodShape adaptedTool !! n)
      <-> is_Some (paramNamed n internalParams))
  /\ SdkToolDefinition.zodShape adaptedTool !! "__proto__" = None.
Proof.
  split.
  - intros n N.
    destruct (merged_lookup path method pathItem operation out n) as [-> [S _]].
    rewrite (S N).
    destruct (lastNamed n merged); simpl; split; intros [x E];
      try discriminate E; eauto.
  - exact (proj2 (proj2 (merged_lookup path method pathItem operation out
                           "__proto__"))).
Qed.

Lemma schemaToZod_unwrapped (s : SchemaObject) : isWrapped (schemaToZod s) = false.
Proof.
  destruct s as [[t|] f e i p a x]; cbn [schemaToZod]; [|reflexivity].
  repeat match goal with
         | |- context [if ?b then _ else _] => destruct b
         | |- context [match ?y with _ => _ end] => destruct y
         end; reflexivity.
Qed.

Lemma openApiTypeToZod_unwrapped (s : option SchemaObject) :
  isWrapped (openApiTypeToZod s) = false.
Proof. destruct s; [apply schemaToZod_unwrapped | reflexivity]. Qed.

Lemma wrap_optional (z : ZodTypeAny) (required : bool) (description : option string) :
  isWrapped z = false ->
  isOptional
    (let zodType := if negb required then ZodOptional z else z in
     match truthy_opt description with
     | Some d => ZodDescribed zodType d
     | None => zodType
     end)
  = negb required.
Proof.
  intros W. cbv zeta.
  destruct required, (truthy_opt description); cbn [negb isOptional];
    destruct z; try reflexivity; discriminate W.
Qed.

Lemma merged_entry_optional (e : MCPParameter.t * ZodTypeAny) :
  In e merged -> isOptional (snd e) = negb (MCPParameter.required (fst e)).
Proof.
  unfold mergedOf. rewrite !in_app_iff.
  assert (D : forall ps, In e (declared ps) ->
                 isOptional (snd e) = negb (MCPParameter.required (fst e))).
  { intros [l|]; [|intros []]. unfold declared. intros I.
    apply list_elem_of_In, list_elem_of_omap in I as [[r|q] [_ Q]];
      [discriminate Q|].
    injection Q as <-. unfold adaptParameter. cbn [fst snd MCPParameter.required].
    apply wrap_optional, openApiTypeToZod_unwrapped. }
  intros [I|[I|I]]; [exact (D _ I) | exact (D _ I) |].
  unfold declaredBody in I.
  destruct (OperationObject.requestBody operation) as [[r|rb]|];
    [destruct I| |destruct I].
  destruct (contentSchemaOf (RequestBodyObject.content rb)) as [[r|cs]|];
    [destruct I| |destruct I].
  destruct I as [<-|[]]. unfold adaptRequestBody.
  cbn [fst snd MCPParameter.required].
  apply wrap_optional, openApiTypeToZod_unwrapped.
Qed.

Lemma lastNamed_In (n : string) (l : list (MCPParameter.t * ZodTypeAny))
  (e : MCPParameter.t * ZodTypeAny) :
  lastNamed n l = Some e -> In e l /\ entryName e = n.
Proof.
  unfold lastNamed. intros F. destruct (find_some _ _ F) as [I E].
  split; [now apply in_rev | now apply String.eqb_eq].
Qed.

(** X11: Validation and execution agree on what is required: the shape entry
    of a name is wrapped as optional exactly when the parameter that the
    executor holds for that name is not required. *)
Theorem required_iff_not_optional (n : string) (p : MCPParameter.t)
  (z : ZodTypeAny) :
  paramNamed n internalParams = Some p ->
  SdkToolDefinition.zodShape adaptedTool !! n = Some z ->
  isOptional z = negb (MCPParameter.required p).
Proof.
  destruct (merged_lookup path method pathItem operation out n) as [-> [S P]].
  destruct (String.eqb_spec n "__proto__") as [->|N];
    [rewrite P; discriminate|].
  rewrite (S N).
  destruct (lastNamed n merged) as [e|] eqn:L; [|discriminate].
  cbn. intros [= <-] [= <-].
  apply merged_entry_optional. exact (proj1 (lastNamed_In n merged e L)).
Qed.

End Adaptation.

Lemma required_iff_not_optional_witness :
  isOptional (ZodOptional (ZodNumber [int]))
  = negb (MCPParameter.required (fst (adaptParameter limitOfOperation))).
Proof.
  apply (required_iff_not_optional "/pets" "get" listPathItem listOperation []
           "limit"); vm_compute; reflexivity.
Defined.

Section AdaptedTools.

Lemma adaptOperation_fields (path method : string) (pathItem : PathItemObject.t)
  (operation : OperationObject.t) (out : list console.entry) :
  let tool := fst (adaptOperation path pathItem method operation out) in
  let details := SdkToolDefinition._originalOperation tool in
  SdkToolDefinition.name tool
  = generateFunctionName method path (OperationObject.operationId operation)
  /\ OriginalOperationDetails.path details = path
  /\ OriginalOperationDetails.method details = JsString.toUpperCase method
  /\ OriginalOperationDetails.consumes details
     = nonEmpty match OperationObject.requestBody operation with
                | Some (Obj rb) => keysOf (RequestBodyObject.content rb)
                | _ => []
                end
  /\ OriginalOperationDetails.produces details
     = nonEmpty
         (Set_of []
            match flat_map (getResponseContentKeys operation)
                    (List.filter (fun code => JsString.startsWith code "2")
                       (keysOf (OperationObject.responses operation))) with
            | [] => getResponseContentKeys operation "default"
            | x :: l => x :: l
            end).
Proof.
  cbv zeta. unfold adaptOperation.
  rewrite !extractAndBuildZodShape_fold. cbv beta iota zeta.
  match goal with
  | |- context [extractRequestBodyAndBuildZodShape ?rb ?sh ?o] =>
      destruct (extractRequestBody_declared rb sh o) as [o' ->]
  end.
  cbv beta iota zeta.
  cbn [fst SdkToolDefinition.name SdkToolDefinition._originalOperation
       OriginalOperationDetails.path OriginalOperationDetails.method
       OriginalOperationDetails.consumes OriginalOperationDetails.produces].
  repeat split; try reflexivity.
  destruct (flat_map _ _); reflexivity.
Qed.

Lemma adaptKey_fold (path : string) (pathItem : PathItemObject.t)
  (keys : list (string * option OperationObject.t)) :
  forall tools out,
    exists out',
      fold_left (adaptKey path pathItem) keys (tools, out)
      = (tools
         ++ List.map (fun vo => toolOf (path, pathItem, vo))
              (flat_map (fun key : string * option OperationObject.t =>
                           match snd key with
                           | Some operation =>
                               if existsb (String.eqb (fst key)) HttpMethods
                               then [(fst key, operation)] else []
                           | None => []
                           end) keys),
         out').
Proof.
  induction keys as [|[k [o|]] keys IH]; intros tools out.
  - exists out. simpl. now rewrite app_nil_r.
  - cbn [fold_left flat_map fst snd]. unfold adaptKey at 2.
    destruct (existsb (String.eqb k) HttpMethods); cbn [negb].
    + destruct (adaptOperation path pathItem k o out) as [tool out1] eqn:E.
      destruct (IH (tools ++ [tool]) out1) as [out' ->].
      exists out'. cbn [app List.map]. rewrite <- app_assoc. cbn [app].
      unfold toolOf at 2. cbn [fst snd].
      rewrite <- (adaptOperation_console path k pathItem o out), E.
      reflexivity.
    + exact (IH tools out).
  - cbn [fold_left flat_map fst snd]. unfold adaptKey at 2.
    destruct (existsb (String.eqb k) HttpMethods); exact (IH tools out).
Qed.

Lemma adaptPath_fold (paths : list (string * PathItemObject.t)) :
  forall tools out,
    exists out',
      fold_left adaptPath paths (tools, out)
      = (tools ++ List.map toolOf (operationsOf paths), out').
Proof.
  induction paths as [|[path pathItem] paths IH]; intros tools out.
  - exists out. simpl. now rewrite app_nil_r.
  - cbn [fold_left]. unfold adaptPath at 2.
    destruct (adaptKey_fold path pathItem (PathItemObject.keys pathItem) tools out)
      as [out1 ->].
    destruct (IH (tools
                  ++ List.map (fun vo => toolOf (path, pathItem, vo))
                       (verbOperations pathItem)) out1) as [out' E].
    exists out'. unfold verbOperations in E. rewrite E.
    unfold operationsOf. cbn [flat_map fst snd].
    rewrite List.map_app, List.map_map, <- app_assoc. reflexivity.
Qed.

(** X12: The adapter makes one tool for each key of a path item that is one of
    the eight HTTP verbs and holds an operation, in the order of the
    document, and nothing for any other key; each tool is the one its
    operation gives on its own, with its path, its verb in upper case and
    its generated name; the last line on the console counts them.
    Without [paths] there is no tool and one warning. *)
Theorem adapted_tools (apiSpec : Document.t) :
  match Document.paths apiSpec with
  | None =>
      adaptOpenAPIToSdkTools apiSpec
      = ([], [console.warn "No paths found in the OpenAPI specification."])
  | Some paths =>
      fst (adaptOpenAPIToSdkTools apiSpec) = List.map toolOf (operationsOf paths)
      /\ List.map (fun tool =>
                     (OriginalOperationDetails.path
                        (SdkToolDefinition._originalOperation tool),
                      OriginalOperationDetails.method
                        (SdkToolDefinition._originalOperation tool),
                      SdkToolDefinition.name tool))
           (fst (adaptOpenAPIToSdkTools apiSpec))
         = List.map (fun o =>
                       (fst (fst o), JsString.toUpperCase (fst (snd o)),
                        generateFunctionName (fst (snd o)) (fst (fst o))
                          (OperationObject.operationId (snd (snd o)))))
             (operationsOf paths)
      /\ List.last (snd (adaptOpenAPIToSdkTools apiSpec)) (console.log "")
         = console.log
             ("Adapted " ++ Z_toString (Z.of_nat (length (operationsOf paths)))
              ++ " tools from OpenAPI spec.")
  end.
Proof.
  unfold adaptOpenAPIToSdkTools.
  destruct (Document.paths apiSpec) as [paths|]; [|reflexivity].
  destruct (adaptPath_fold paths [] []) as [out' ->]. cbn [app fst snd].
  split; [reflexivity|]. split.
  - rewrite List.map_map. apply List.map_ext. intros [[p i] [m o]].
    unfold toolOf. cbn [fst snd].
    destruct (adaptOperation_fields p m i o []) as [-> [-> [-> _]]].
    reflexivity.
  - rewrite last_last, length_map. reflexivity.
Qed.

Lemma Set_of_spec (l : list string) :
  forall seen : list string,
    List.NoDup (Set_of seen l)
    /\ forall x, In x (Set_of seen l)
                 <-> In x l /\ existsb (String.eqb x) seen = false.
Proof.
  induction l as [|y l IH]; intros seen; simpl.
  - split; [constructor | tauto].
  - destruct (existsb (String.eqb y) seen) eqn:E.
    + destruct (IH seen) as [N S]. split; [exact N|]. intros x. rewrite S.
      split; [tauto|]. intros [[->|I] F]; [congruence | tauto].
    + destruct (IH (y :: seen)) as [N S]. split.
      * constructor; [|exact N]. rewrite S. simpl.
        rewrite String.eqb_refl. intros [_ F]. discriminate F.
      * intros x. simpl. rewrite S. simpl.
        destruct (String.eqb x y) eqn:Exy.
        -- apply String.eqb_eq in Exy. subst x. simpl. split; [auto|].
           intros _. now left.
        -- simpl. apply String.eqb_neq in Exy. split.
           ++ intros [->|[I F]]; [congruence | tauto].
           ++ intros [[->|I] F]; [congruence | tauto].
Qed.

(** X13: The content types a tool says it produces hold no duplicate, and each
    is declared by a response whose code starts with [2]; those of the
    [default] response are taken only when no such response declares
    any. *)
Theorem produced_content_types (path method : string)
  (pathItem : PathItemObject.t) (operation : OperationObject.t)
  (out : list console.entry) (produces : list string) :
  OriginalOperationDetails.produces
    (SdkToolDefinition._originalOperation
       (fst (adaptOperation path pathItem method operation out)))
  = Some produces ->
  List.NoDup produces /\ produces <> []
  /\ forall contentType : string,
       In contentType produces ->
       (exists code : string,
           In code (keysOf (OperationObject.responses operation))
           /\ JsString.startsWith code "2" = true
           /\ In contentType (getResponseContentKeys operation code))
       \/ ((forall code : string,
               In code (keysOf (OperationObject.responses operation)) ->
               JsString.startsWith code "2" = true ->
               getResponseContentKeys operation code = [])
           /\ In contentType (getResponseContentKeys operation "default")).
Proof.
  destruct (adaptOperation_fields path method pathItem operation out)
    as [_ [_ [_ [_ ->]]]].
  set (success := flat_map (getResponseContentKeys operation)
                    (List.filter (fun code => JsString.startsWith code "2")
                       (keysOf (OperationObject.responses operation)))).
  intros E.
  assert (P : produces
              = Set_of [] match success with
                          | [] => getResponseContentKeys operation "default"
                          | x :: l => x :: l
                          end).
  { revert E. unfold nonEmpty. destruct (Set_of [] _); [discriminate|].
    now intros [= <-]. }
  split; [rewrite P; apply Set_of_spec|].
  split; [revert E; unfold nonEmpty; destruct (Set_of [] _);
          [discriminate | intros [= <-]; discriminate]|].
  intros ct I. rewrite P in I. apply (Set_of_spec _ []) in I as [I _].
  destruct success as [|x l] eqn:S.
  - right. split; [|exact I]. intros code Ic S2.
    assert (In code (List.filter (fun code => JsString.startsWith code "2")
                       (keysOf (OperationObject.responses operation))))
      by (apply filter_In; auto).
    destruct (getResponseContentKeys operation code) as [|y r] eqn:G;
      [reflexivity|].
    assert (In y success).
    { unfold success. apply in_flat_map. exists code. split; [assumption|].
      rewrite G. now left. }
    rewrite S in *. contradiction.
  - left. rewrite <- S in I. unfold success in I.
    apply in_flat_map in I as [code [Ic G]].
    apply filter_In in Ic as [Ic S2]. eauto.
Qed.

End AdaptedTools.

Lemma produced_content_types_witness :
  List.NoDup ["application/json"] /\ ["application/json"] <> []
  /\ forall contentType : string,
       In contentType ["application/json"] ->
       (exists code : string,
           In code (keysOf (OperationObject.responses createPet))
           /\ JsString.startsWith code "2" = true
           /\ In contentType (getResponseContentKeys createPet code))
       \/ ((forall code : string,
               In code (keysOf (OperationObject.responses createPet)) ->
               JsString.startsWith code "2" = true ->
               getResponseContentKeys createPet code = [])
           /\ In contentType (getResponseContentKeys createPet "default")).
Proof.
  exact (produced_content_types "/pets" "post" petsPathItem createPet []
           ["application/json"] eq_refl).
Defined.

Section BodyParameter.

Variables (path method : string).
Variable pathItem : PathItemObject.t.
Variable operation : OperationObject.t.
Variable out : list console.entry.

#[local] Abbreviation adaptedTool :=
  (fst (adaptOperation path pathItem method operation out)).
#[local] Abbreviation details := (SdkToolDefinition._originalOperation adaptedTool).

Lemma paramNamed_In (n : string) (ps : list MCPParameter.t) (p : MCPParameter.t) :
  paramNamed n ps = Some p -> In p ps.
Proof. intros F. exact (proj1 (find_some _ _ F)). Qed.

(** X14: A request body with a usable schema always gives the tool a parameter
    located in the body, which takes the place of any declared parameter
    of its name, in the parameter list and in the shape (where the name
    [__proto__] alone gets no entry); and the requests of that tool start
    from a [Content-Type] header that is the first content type the body
    declares, also when the schema was read from a later
    [application/json] entry. *)
Theorem body_parameter_and_content_type (rb : RequestBodyObject.t)
  (contentSchema : SchemaObject) (first : string) (media : MediaTypeObject.t)
  (rest : list (string * MediaTypeObject.t)) :
  OperationObject.requestBody operation = Some (Obj rb) ->
  RequestBodyObject.content rb = Some ((first, media) :: rest) ->
  contentSchemaOf (RequestBodyObject.content rb) = Some (Obj contentSchema) ->
  first <> "" ->
  let body := adaptRequestBody rb contentSchema in
  paramNamed (entryName body) (OriginalOperationDetails.parameters details)
  = Some (fst body)
  /\ MCPParameter._in (fst body) = Some "body"
  /\ SdkToolDefinition.zodShape adaptedTool !! entryName body
     = (if String.eqb (entryName body) "__proto__" then None else Some (snd body))
  /\ Draft.headers (initialDraft details) !! "Content-Type" = Some first.
Proof.
  intros Rb C S T body.
  assert (L : lastNamed (entryName body) (mergedOf pathItem operation)
              = Some body).
  { unfold mergedOf. rewrite !lastNamed_app.
    unfold declaredBody. rewrite Rb, S. unfold lastNamed. simpl.
    now rewrite String.eqb_refl. }
  destruct (merged_lookup path method pathItem operation out (entryName body))
    as [P [Z Z']].
  unfold internalParamsOf in P. rewrite L in P, Z. simpl in P.
  split; [exact P|]. split; [reflexivity|]. split.
  { destruct (String.eqb_spec (entryName body) "__proto__") as [E|N].
    - rewrite E. exact Z'.
    - exact (Z N). }
  unfold initialDraft.
  destruct (find_some_exists (fun p => in_is p "body") _ (fst body)
              (paramNamed_In _ _ _ P) eq_refl) as [b ->].
  cbn [Draft.headers]. rewrite lookup_insert_eq. f_equal.
  destruct (adaptOperation_fields path method pathItem operation out)
    as [_ [_ [_ [-> _]]]].
  rewrite Rb, C. unfold firstOr, nonEmpty, keysOf.
  cbn [List.map fst mbind option_bind head].
  now rewrite (truthy_opt_Some first T).
Qed.

End BodyParameter.

Lemma body_parameter_and_content_type_witness :
  Draft.headers
    (initialDraft
       (SdkToolDefinition._originalOperation
          (fst (adaptOperation "/pets" petsPathItem "post" createPet []))))
  !! "Content-Type" = Some "application/xml".
Proof.
  refine (proj2 (proj2 (proj2
            (body_parameter_and_content_type "/pets" "post" petsPathItem
               createPet [] _ petSchema "application/xml" _ _
               eq_refl eq_refl eq_refl _)))).
  discriminate.
Defined.

Section IdentifierNames.

Lemma all_chars_impl (P Q : ascii -> bool) (s : string) :
  (forall c, P c = true -> Q c = true) ->
  all_chars P s = true -> all_chars Q s = true.
Proof.
  intros I. induction s as [|c s IH]; simpl; [reflexivity|].
  intros A. apply andb_true_iff in A as [Pc A]. now rewrite (I c Pc), IH.
Qed.

Lemma replace_outside_all (keep : ascii -> bool) (s : string) :
  keep "_"%char = true ->
  all_chars keep (JsString.replace_outside keep s) = true.
Proof.
  intros U. induction s as [|c s IH]; [reflexivity|].
  change (JsString.replace_outside keep (String c s))
    with (String (if keep c then c else "_"%char)
            (JsString.replace_outside keep s)).
  cbn [all_chars]. rewrite IH, andb_true_r.
  destruct (keep c) eqn:K; [exact K | exact U].
Qed.

Lemma split_all (P : ascii -> bool) (sep : ascii) (s : string) :
  all_chars P s = true ->
  Forall (fun w => all_chars P w = true) (JsString.split sep s).
Proof.
  induction s as [|c s IH]; cbn [JsString.split all_chars]; intros A.
  - repeat constructor.
  - apply andb_true_iff in A as [Pc A]. specialize (IH A).
    destruct (Ascii.eqb c sep).
    + constructor; [reflexivity | exact IH].
    + destruct (JsString.split sep s) as [|w ws].
      * repeat constructor. simpl. now rewrite Pc.
      * inversion IH as [|? ? Hw Hws]; subst.
        constructor; [|exact Hws]. simpl. now rewrite Pc, Hw.
Qed.

Lemma join_all (P : ascii -> bool) (parts : list string) :
  P "_"%char = true ->
  Forall (fun w => all_chars P w = true) parts ->
  all_chars P (JsString.join "_" parts) = true.
Proof.
  intros U F. induction F as [|w ws Hw Hws IH]; [reflexivity|].
  cbn [JsString.join]. destruct ws as [|v vs]; [exact Hw|].
  rewrite !all_chars_app, Hw, IH. simpl. now rewrite U.
Qed.

Lemma path_char_id_char (c : ascii) : path_char c = true -> id_char c = true.
Proof.
  unfold path_char, id_char. intros P.
  apply orb_true_iff in P as [P|P]; [apply orb_true_iff in P as [P|P]|];
    rewrite P; now rewrite ?orb_true_r.
Qed.

(** X15: Every name the adapter generates for a verb of the document is an
    identifier: it is not empty and holds only letters, digits and
    underscores, whatever the [operationId] or the path look like. *)
Theorem tool_name_is_identifier (method path : string)
  (operationId : option string) :
  existsb (String.eqb method) HttpMethods = true ->
  all_chars id_char (generateFunctionName method path operationId) = true
  /\ generateFunctionName method path operationId <> "".
Proof.
  intros V. unfold generateFunctionName.
  destruct (truthy_opt operationId) as [id|] eqn:T.
  - split; [now apply replace_outside_all|].
    assert (N : id <> "").
    { destruct operationId as [[|c s]|]; try discriminate T.
      simpl in T. injection T as <-. discriminate. }
    destruct id; [congruence | discriminate].
  - assert (M : all_chars id_char (JsString.toLowerCase method) = true
                /\ JsString.toLowerCase method <> "").
    { apply existsb_exists in V as [v [I E]]. apply String.eqb_eq in E.
      subst v. unfold HttpMethods in I. simpl in I.
      repeat (destruct I as [<-|I]; [split; [reflexivity | discriminate]|]).
      destruct I. }
    destruct M as [Ma Mn]. split.
    + rewrite !all_chars_app, Ma. simpl.
      apply join_all; [reflexivity|].
      apply Forall_forall. intros w I.
      apply list_elem_of_filter in I as [_ I].
      pose proof (split_all path_char "_"
                    (JsString.replace_outside path_char
                       (JsString.toLowerCase path))
                    (replace_outside_all path_char _ eq_refl)) as F.
      apply (all_chars_impl path_char id_char _ path_char_id_char).
      exact (proj1 (Forall_forall _ _) F w I).
    + destruct (JsString.toLowerCase method); [congruence | discriminate].
Qed.

End IdentifierNames.

Lemma tool_name_is_identifier_witness :
  all_chars id_char
    (generateFunctionName "delete" "/pets/{petId}/photo.png" (Some "")) = true
  /\ generateFunctionName "delete" "/pets/{petId}/photo.png" (Some "") <> "".
Proof. apply tool_name_is_identifier. reflexivity. Defined.

(** * Properties of the server's glue *)

(** * Properties of the server glue *)

Section Rendered.

Lemma length_app (a b : string) :
  String.length (a ++ b) = String.length a + String.length b.
Proof. induction a as [|c a IH]; simpl; [reflexivity | now rewrite IH]. Qed.

Lemma digit_length (n : N) : (n < 64)%N -> String.length (Buffer.digit n) = 1.
Proof.
  intros L.
  assert (C : digitReadsBack n = true).
  { apply (all_below digitReadsBack 64); [vm_compute; reflexivity|].
    now apply below_In. }
  unfold digitReadsBack in C.
  destruct (Buffer.digit n) as [|c [|]]; try discriminate C. reflexivity.
Qed.

(** The base64 text of [n] bytes is four characters for every three
    bytes, the last group rounded up. *)
Lemma toBase64_length (bs : list byte) :
  String.length (Buffer.toBase64 bs) = 4 * ((length bs + 2) / 3).
Proof.
  induction bs as [|a|a b|a b c r IH] using list_by_threes.
  - reflexivity.
  - destruct (first_octet_back_last a) as [L1 [L2 _]].
    cbn [Buffer.toBase64]. rewrite !length_app, !digit_length by assumption.
    reflexivity.
  - destruct (first_octet_back a b) as [L1 [L2 _]].
    destruct (third_octet_back b x00) as [L3 _].
    cbn [Buffer.toBase64]. rewrite !length_app, !digit_length by assumption.
    reflexivity.
  - destruct (first_octet_back a b) as [L1 [L2 _]].
    destruct (third_octet_back b c) as [L3 [L4 _]].
    cbn [Buffer.toBase64]. rewrite !length_app, !digit_length, IH by assumption.
    cbn [length].
    replace (S (S (S (length r))) + 2) with (1 * 3 + (length r + 2)) by lia.
    rewrite Nat.div_add_l by lia. lia.
Qed.

Context `{Rendering}.

(** The envelope that the executor builds for a binary response is shown
    as a one-line summary, the content type and the length of the base64
    text, which is four characters for every three bytes rounded up,
    printed as JavaScript prints a number; the bytes themselves are not
    in the text. *)
Lemma binary_result_is_summarized (contentType : option string)
  (bytes : list byte) (w : World.t) :
  resultTextOf (binaryResult contentType bytes) w
  = (Normal ("Binary data received: Content-Type: " ++ shown contentType
             ++ ", Base64 Encoded Size: "
             ++ JsNumber.toString
                  (JsNumber.ofZ (Z.of_nat (4 * ((length bytes + 2) / 3))))
             ++ " bytes")%string, w).
Proof.
  unfold resultTextOf, binaryResult.
  cbn [truthy_payload typeofObject property get String.eqb Ascii.eqb Bool.eqb
       default truthy andb].
  unfold bind, lift, ret.
  assert (C : String_ (optString contentType) = Normal (shown contentType))
    by now destruct contentType.
  cbv [id]. cbn [truthy]. rewrite C. cbn [lengthOf String_].
  now rewrite toBase64_length.
Qed.

(** X16: A JSON result that carries a truthy [_isBinary] of its own but no
    [data] (or a [null] one) is taken for the envelope, and reading the
    length of its data throws, unless converting its [contentType] to a
    string has thrown before: the rendering fails although the call
    succeeded. *)
Theorem tagged_result_without_data (fields : list (string * value))
  (w : World.t) :
  truthy (property (Plain (VObject fields)) "_isBinary") = true ->
  isUndefined (property (Plain (VObject fields)) "data") = true
  \/ property (Plain (VObject fields)) "data" = VNull ->
  resultTextOf (Plain (VObject fields)) w
  = (match String_ (property (Plain (VObject fields)) "contentType") with
     | Normal _ =>
         Throw (Error_ (cannotRead (property (Plain (VObject fields)) "data")
                          "length"))
     | Throw e => Throw e
     end, w).
Proof.
  intros T D. unfold resultTextOf. rewrite T.
  cbn [truthy_payload truthy typeofObject andb].
  unfold bind, lift, lengthOf.
  destruct (String_ (property (Plain (VObject fields)) "contentType"));
    [|reflexivity].
  destruct D as [D|D].
  - destruct (property (Plain (VObject fields)) "data"); try discriminate D.
    reflexivity.
  - rewrite D. reflexivity.
Qed.

Context `{Environment}.

Lemma executeApiCall_outcome (apiBaseUrl : option string)
  (operationDetails : OriginalOperationDetails.t) (mcpArgs : gmap string value)
  (w : World.t) :
  fst (executeApiCall apiBaseUrl operationDetails mcpArgs w)
  = fst (executeApiCall apiBaseUrl operationDetails mcpArgs World.empty).
Proof.
  destruct (truthy_opt apiBaseUrl) as [base|] eqn:B.
  - destruct (firstAbort mcpArgs
                (OriginalOperationDetails.parameters operationDetails))
      as [p|] eqn:F.
    + now rewrite !(executeApiCall_aborts mcpArgs operationDetails apiBaseUrl
                      base p _ B F).
    + rewrite !(executeApiCall_request mcpArgs operationDetails apiBaseUrl base
                  _ B F).
      cbv zeta.
      destruct (axios (requestOf base operationDetails mcpArgs)) as [r|e];
        [|reflexivity].
      destruct (AxiosRequestConfig.responseType
                  (requestOf base operationDetails mcpArgs)); [reflexivity|].
      destruct (match AxiosResponse.data r with
                | Plain v => Buffer_from v
                | Bytes b => Normal b
                end); reflexivity.
  - now rewrite !(executeApiCall_unconfigured mcpArgs operationDetails
                    apiBaseUrl _ B).
Qed.

Variable apiBaseUrl : option string.
Variable toolDef : SdkToolDefinition.t.
Variable args : gmap string value.
Variable requestId : value.

#[local] Abbreviation name := (SdkToolDefinition.name toolDef).
#[local] Abbreviation call :=
  (executeApiCall apiBaseUrl (SdkToolDefinition._originalOperation toolDef) args).

(** A request id that does not convert to a string ends the handler
    before the call. *)
Lemma toolHandler_unprintable_id (w : World.t) (e : Exn.t) :
  requestIdText requestId = Throw e ->
  toolHandler apiBaseUrl toolDef args requestId w = (Throw e, w).
Proof. intros R. unfold toolHandler, bind, lift. now rewrite R. Qed.

Lemma toolHandler_steps (w : World.t) (id : string) :
  requestIdText requestId = Normal id ->
  let w1 :=
    {| World.out :=
         World.out w
         ++ [console.log ("Tool invoked: " ++ name ++ " (Request ID: "
                          ++ id ++ ")")];
       World.sent := World.sent w |} in
  let failed (error : Exn.t) (w' : World.t) :=
    (Throw (Error_ ("Error executing tool " ++ name ++ ": " ++ Exn.message error)),
     {| World.out :=
          World.out w'
          ++ [console.error
                (("Error executing tool " ++ name ++ ": " ++ Exn.message error)
                 ++ " (Request ID: " ++ id ++ ")")];
        World.sent := World.sent w' |}) in
  toolHandler apiBaseUrl toolDef args requestId w
  = match call w1 with
    | (Normal result, w2) =>
        match resultTextOf result w2 with
        | (Normal text, w3) =>
            (Normal [{| TextContent.type := "text";
                        TextContent.text :=
                          ("Tool " ++ name ++ " executed successfully." ++ nl
                           ++ "Result:" ++ nl ++ "```" ++ nl ++ text ++ nl
                           ++ "```")%string |}], w3)
        | (Throw error, w3) => failed error w3
        end
    | (Throw error, w2) => failed error w2
    end.
Proof.
  intros R. cbv zeta.
  unfold toolHandler, bind, print, try_catch, throw, ret, lift. rewrite R.
  destruct (call _) as [[result|error] w2]; [|reflexivity].
  destruct (resultTextOf result w2) as [[text|error] w3]; reflexivity.
Qed.

(** X17: Whatever makes the executor throw, the handler (its request id
    one that converts to a string, as it has to for the handler to get as
    far as the call) throws a new error whose message is
    [Error executing tool <name>: ] and the executor's message, prints
    that message with the request id as its last line, and returns no
    content. *)
Theorem handler_wraps_errors (w : World.t) (e : Exn.t) (id : string) :
  requestIdText requestId = Normal id ->
  fst (call World.empty) = Throw e ->
  fst (toolHandler apiBaseUrl toolDef args requestId w)
  = Throw (Error_ ("Error executing tool " ++ name ++ ": " ++ Exn.message e))
  /\ List.last (World.out (snd (toolHandler apiBaseUrl toolDef args requestId w)))
       (console.log "")
     = console.error (("Error executing tool " ++ name ++ ": " ++ Exn.message e)
                      ++ " (Request ID: " ++ id ++ ")").
Proof.
  intros R E. rewrite (toolHandler_steps w id R). cbv zeta.
  match goal with
  | |- context [call ?w1] =>
      pose proof (executeApiCall_outcome apiBaseUrl
                    (SdkToolDefinition._originalOperation toolDef) args w1) as O;
      rewrite E in O; destruct (call w1) as [[r|e'] w2]
  end; cbn [fst] in O; [discriminate O|].
  injection O as ->. cbn [fst snd World.out].
  split; [reflexivity | apply last_last].
Qed.

(** When the executor returns a result that renders to a text, the
    handler returns one text item: the name of the tool, and the text
    inside a fenced block. *)
Lemma handler_returns_text (w : World.t) (result : payload) (text id : string) :
  requestIdText requestId = Normal id ->
  fst (call World.empty) = Normal result ->
  (forall w', resultTextOf result w' = (Normal text, w')) ->
  fst (toolHandler apiBaseUrl toolDef args requestId w)
  = Normal [{| TextContent.type := "text";
               TextContent.text :=
                 ("Tool " ++ name ++ " executed successfully." ++ nl
                  ++ "Result:" ++ nl ++ "```" ++ nl ++ text ++ nl ++ "```")%string |}].
Proof.
  intros R E T. rewrite (toolHandler_steps w id R). cbv zeta.
  match goal with
  | |- context [call ?w1] =>
      pose proof (executeApiCall_outcome apiBaseUrl
                    (SdkToolDefinition._originalOperation toolDef) args w1) as O;
      rewrite E in O; destruct (call w1) as [[r|e'] w2]
  end; cbn [fst] in O; [|discriminate O].
  injection O as ->. now rewrite T.
Qed.

End Rendered.

Section HandlerResults.

Context `{Rendering} `{Environment}.

Variable apiBaseUrl : option string.
Variable toolDef : SdkToolDefinition.t.
Variable args : gmap string value.
Variable requestId : value.

#[local] Abbreviation name := (SdkToolDefinition.name toolDef).
#[local] Abbreviation call :=
  (executeApiCall apiBaseUrl (SdkToolDefinition._originalOperation toolDef) args).

(** X18: A binary response reaches the client of the tool as a summary only:
    the reply is one text item that names the tool and gives the content
    type and the size of the base64 text, four characters for every three
    bytes rounded up, the number printed as JavaScript prints it; a
    string result is put into the reply as it is.  (The request id is one
    that converts to a string.) *)
Theorem handler_renders_results (w : World.t) (id : string) :
  requestIdText requestId = Normal id ->
  (forall (contentType : option string) (bytes : list byte),
      fst (call World.empty) = Normal (binaryResult contentType bytes) ->
      fst (toolHandler apiBaseUrl toolDef args requestId w)
      = Normal
          [{| TextContent.type := "text";
              TextContent.text :=
                ("Tool " ++ name ++ " executed successfully." ++ nl ++ "Result:"
                 ++ nl ++ "```" ++ nl
                 ++ ("Binary data received: Content-Type: " ++ shown contentType
                     ++ ", Base64 Encoded Size: "
                     ++ JsNumber.toString
                          (JsNumber.ofZ
                             (Z.of_nat (4 * ((length bytes + 2) / 3))))
                     ++ " bytes")
                 ++ nl ++ "```")%string |}])
  /\ (forall s : string,
         fst (call World.empty) = Normal (Plain (VString s)) ->
         fst (toolHandler apiBaseUrl toolDef args requestId w)
         = Normal
             [{| TextContent.type := "text";
                 TextContent.text :=
                   ("Tool " ++ name ++ " executed successfully." ++ nl
                    ++ "Result:" ++ nl ++ "```" ++ nl ++ s ++ nl ++ "```")%string |}]).
Proof.
  intros R. split.
  - intros ct bytes E.
    apply (handler_returns_text apiBaseUrl toolDef args requestId w _ _ id R E).
    intros w'. apply binary_result_is_summarized.
  - intros s E.
    apply (handler_returns_text apiBaseUrl toolDef args requestId w _ _ id R E).
    intros w'. unfold resultTextOf. destruct s; reflexivity.
Qed.

End HandlerResults.

Lemma handler_renders_results_witness :
  fst (@toolHandler (serverOf (Normal photoResponse)) plainRendering
         (Some "http://api.example/") photoTool {["petId" := VNumber 7]}
         (VNumber 3) World.empty)
  = Normal
      [{| TextContent.type := "text";
          TextContent.text :=
            ("Tool getPhoto executed successfully." ++ nl ++ "Result:" ++ nl
             ++ "```" ++ nl
             ++ "Binary data received: Content-Type: image/png, Base64 Encoded Size: 8 bytes"
             ++ nl ++ "```")%string |}].
Proof.
  apply (proj1 (@handler_renders_results plainRendering
                  (serverOf (Normal photoResponse)) (Some "http://api.example/")
                  photoTool {["petId" := VNumber 7]} (VNumber 3) World.empty
                  "3" eq_refl)
           (Some "image/png") [x48; x65; x6c; x6c; x6f]).
  vm_compute. reflexivity.
Defined.

Lemma handler_wraps_errors_witness :
  fst (@toolHandler (serverOf (Throw notFound)) plainRendering
         (Some "http://api.example/") photoTool ∅ VUndefined World.empty)
  = Throw (Error_ "Error executing tool getPhoto: Missing required parameter: petId").
Proof.
  apply (@handler_wraps_errors plainRendering (serverOf (Throw notFound))
           (Some "http://api.example/") photoTool ∅ VUndefined World.empty
           (Error_ "Missing required parameter: petId") "unknown" eq_refl).
  vm_compute. reflexivity.
Defined.

Lemma tagged_result_without_data_witness :
  @resultTextOf plainRendering (Plain (VObject [("_isBinary", VBool true)]))
    World.empty
  = (Throw (Error_ "Cannot read properties of undefined (reading 'length')"),
     World.empty).
Proof.
  rewrite (@tagged_result_without_data plainRendering
             [("_isBinary", VBool true)] World.empty);
    [reflexivity | reflexivity | left; reflexivity].
Defined.

Section BaseUrl.

Lemma truthy_url (scheme host basePath : string) :
  truthy_opt (Some (scheme ++ "://" ++ host ++ basePath)%string)
  = Some (scheme ++ "://" ++ host ++ basePath)%string.
Proof. destruct scheme; reflexivity. Qed.

Lemma in_last {A : Type} (x : A) (l : list A) : In x (l ++ [x]).
Proof. apply in_or_app. right. now left. Qed.

Lemma existsb_https (schemes : list string) :
  In "https" schemes -> existsb (fun s => String.eqb s "https") schemes = true.
Proof.
  intros I. apply existsb_exists. exists "https". split; [exact I | reflexivity].
Qed.

(** The base URL is unusable exactly when the warning that it could not
    be determined is printed. *)
Lemma deriveApiBaseUrl_warns (spec : ApiDescription.t) :
  truthy_opt (fst (deriveApiBaseUrl spec)) = None
  <-> In couldNotDetermine (snd (deriveApiBaseUrl spec)).
Proof.
  unfold deriveApiBaseUrl, couldNotDetermine.
  destruct (ApiDescription.swagger spec) as [v|] eqn:Sw;
    [destruct (String.eqb v "2.0") eqn:E|].
  - destruct (truthy_opt (ApiDescription.host spec)) as [h|] eqn:Hh.
    + cbv beta iota zeta. cbn [fst snd]. rewrite truthy_url.
      split; [discriminate | intros []].
    + cbv beta iota zeta. cbn [fst snd truthy_opt app].
      split; [intros _; right; now left | reflexivity].
  - destruct (ApiDescription.servers spec) as [[|server more]|];
      cbv beta iota zeta; cbn [fst snd truthy_opt app];
      try (split; [intros _; now left | reflexivity]).
    destruct (truthy_opt (ServerObject.url server)) eqn:T; cbn [fst snd].
    * split; [discriminate|].
      destruct more; [intros [] | intros [D|[]]; discriminate D].
    * split; [intros _; apply in_last | reflexivity].
  - destruct (ApiDescription.servers spec) as [[|server more]|];
      cbv beta iota zeta; cbn [fst snd truthy_opt app];
      try (split; [intros _; now left | reflexivity]).
    destruct (truthy_opt (ServerObject.url server)) eqn:T; cbn [fst snd].
    * split; [discriminate|].
      destruct more; [intros [] | intros [D|[]]; discriminate D].
    * split; [intros _; apply in_last | reflexivity].
Qed.

(** X19: The base URL is unusable exactly when the warning that it could not
    be determined is printed.  For a Swagger 2.0 document that is when
    [host] is missing or empty, whatever [servers] says; with a host, the
    URL uses [https] as soon as the schemes list it, in any place.  For
    any other document the URL is the one of the first server entry. *)
Theorem base_url_rules (spec : ApiDescription.t) :
  (truthy_opt (fst (deriveApiBaseUrl spec)) = None
   <-> In couldNotDetermine (snd (deriveApiBaseUrl spec)))
  /\ (ApiDescription.swagger spec = Some "2.0" ->
      (truthy_opt (ApiDescription.host spec) = None ->
       fst (deriveApiBaseUrl spec) = None)
      /\ (forall (host : string) (schemes : list string),
             truthy_opt (ApiDescription.host spec) = Some host ->
             ApiDescription.schemes spec = Some schemes ->
             In "https" schemes ->
             fst (deriveApiBaseUrl spec)
             = Some ("https://" ++ host
                     ++ orEmpty (ApiDescription.basePath spec))%string))
  /\ (ApiDescription.swagger spec <> Some "2.0" ->
      fst (deriveApiBaseUrl spec)
      = (ApiDescription.servers spec ≫= head) ≫= ServerObject.url).
Proof.
  split; [apply deriveApiBaseUrl_warns|].
  unfold deriveApiBaseUrl.
  destruct (ApiDescription.swagger spec) as [v|] eqn:Sw;
    [destruct (String.eqb v "2.0") eqn:E;
       [apply String.eqb_eq in E; subst v|apply String.eqb_neq in E]|].
  - destruct (truthy_opt (ApiDescription.host spec)) as [h|] eqn:Hh.
    + cbv beta iota zeta. cbn [fst snd]. split.
      * intros _. split; [discriminate|].
        intros host schemes [= <-] -> I. now rewrite (existsb_https _ I).
      * congruence.
    + cbv beta iota zeta. cbn [fst snd truthy_opt app]. split.
      * intros _. split; [reflexivity | discriminate].
      * congruence.
  - split; [congruence|].
    intros _. destruct (ApiDescription.servers spec) as [[|server more]|];
      reflexivity.
  - split; [discriminate|].
    intros _. destruct (ApiDescription.servers spec) as [[|server more]|];
      reflexivity.
Qed.

Context `{Rendering} `{Environment}.

(** X20: A server started from a document without a usable base URL
    fails every invocation of every tool and sends no request; the error,
    for every request id that converts to a string, is the configuration
    error wrapped by the handler. *)
Theorem unusable_base_url_fails_every_call (spec : ApiDescription.t)
  (toolDef : SdkToolDefinition.t) (args : gmap string value) (requestId : value)
  (w : World.t) :
  In couldNotDetermine (snd (deriveApiBaseUrl spec)) ->
  (exists e : Exn.t,
      fst (toolHandler (fst (deriveApiBaseUrl spec)) toolDef args requestId w)
      = Throw e)
  /\ World.sent
       (snd (toolHandler (fst (deriveApiBaseUrl spec)) toolDef args requestId w))
     = World.sent w
  /\ (forall id : string,
         requestIdText requestId = Normal id ->
         fst (toolHandler (fst (deriveApiBaseUrl spec)) toolDef args requestId w)
         = Throw (Error_ ("Error executing tool " ++ SdkToolDefinition.name toolDef
                          ++ ": API base URL is not configured. Cannot execute API call."))).
Proof.
  intros W. apply (proj2 (deriveApiBaseUrl_warns spec)) in W.
  destruct (requestIdText requestId) as [id|e] eqn:R.
  - rewrite (toolHandler_steps _ toolDef args requestId w id R). cbv zeta.
    unfold executeApiCall. rewrite W. unfold throw.
    split; [eexists; reflexivity|]. split; [reflexivity|].
    intros id' [= <-]. reflexivity.
  - rewrite (toolHandler_unprintable_id _ toolDef args requestId w e R).
    split; [eexists; reflexivity|]. split; [reflexivity|]. discriminate.
Qed.

End BaseUrl.

Lemma base_url_rules_witness :
  fst (deriveApiBaseUrl swaggerPetstore) = Some "https://petstore.example/v2".
Proof.
  apply (proj2 (proj1 (proj2 (base_url_rules swaggerPetstore)) eq_refl)
           "petstore.example" ["http"; "https"] eq_refl eq_refl).
  right. left. reflexivity.
Defined.

Lemma unusable_base_url_fails_every_call_witness :
  World.sent
    (snd (@toolHandler (serverOf (Normal okResponse)) plainRendering
            (fst (deriveApiBaseUrl hostlessSwagger)) photoTool
            {["petId" := VNumber 7]} VUndefined World.empty))
  = World.sent World.empty
  /\ fst (@toolHandler (serverOf (Normal okResponse)) plainRendering
            (fst (deriveApiBaseUrl hostlessSwagger)) photoTool
            {["petId" := VNumber 7]} VUndefined World.empty)
     = Throw (Error_ ("Error executing tool " ++ SdkToolDefinition.name photoTool
                      ++ ": API base URL is not configured. Cannot execute API call.")).
Proof.
  destruct (@unusable_base_url_fails_every_call plainRendering
              (serverOf (Normal okResponse)) hostlessSwagger photoTool
              {["petId" := VNumber 7]} VUndefined World.empty)
    as [_ [S E]].
  - right. left. reflexivity.
  - split; [exact S | exact (E "unknown" eq_refl)].
Defined.

Section SseSessions.

Context `{Rendering}.

Variable sseTransports : gmap string SSEServerTransport.t.

Lemma slotOf_insert_ne (k sessionId : string) (t : SSEServerTransport.t) :
  k <> sessionId ->
  slotOf (<[sessionId := t]> sseTransports) k = slotOf sseTransports k.
Proof. intros N. unfold slotOf. now rewrite lookup_insert_ne. Qed.

Lemma slotOf_delete_ne (m : gmap string SSEServerTransport.t)
  (k sessionId : string) :
  k <> sessionId -> slotOf (delete sessionId m) k = slotOf m k.
Proof. intros N. unfold slotOf. now rewrite lookup_delete_ne. Qed.

(** X21: After a session has been opened, a message posted under its id goes
    to its transport; once the connection has closed, a message under the
    same id is refused with status 400; session ids, which the SDK draws
    at random, are taken not to be property names of [Object]. *)
Theorem sse_session_lifecycle (ip : option string) (sessionId : string)
  (headersSent headersSent' : bool) (handled : completion unit) :
  sessionId <> "" ->
  existsb (String.eqb sessionId) ObjectPrototype = false ->
  let opened :=
    fst (fst (handleSseGet sseTransports ip sessionId (Normal tt) headersSent)) in
  let closed := fst (handleSseClose opened sessionId) in
  snd (handleMessagePost opened (Some sessionId) (Normal tt) headersSent')
  = Some (LeftTo {| SSEServerTransport.endpoint := "/messages";
                    SSEServerTransport.sessionId := sessionId |})
  /\ handleMessagePost closed (Some sessionId) handled headersSent'
     = ([console.warn ("No active SSE transport found for session " ++ sessionId)],
        Some (Send 400 ("No active SSE transport found for session " ++ sessionId))).
Proof.
  intros N P. cbv zeta. unfold handleSseGet, handleSseClose, handleMessagePost.
  cbn [fst snd]. rewrite (truthy_opt_Some sessionId N). unfold slotOf.
  rewrite lookup_insert_eq, lookup_delete_eq, P. split; reflexivity.
Qed.

(** X22: A message for a session id that holds no transport never reaches
    [handlePostMessage]: it is refused with status 400, or, when the id
    is a property name that every object inherits, fails with status 500;
    without a session id the reply is 400 as well. *)
Theorem unknown_session_is_refused (sessionId : option string)
  (handled : completion unit) (headersSent : bool) :
  match truthy_opt sessionId with
  | None =>
      handleMessagePost sseTransports sessionId handled headersSent
      = ([], Some (Send 400 "Missing sessionId query parameter"))
  | Some id =>
      sseTransports !! id = None ->
      snd (handleMessagePost sseTransports sessionId handled headersSent)
      = Some (if existsb (String.eqb id) ObjectPrototype
              then Send 500 "Error processing message"
              else Send 400 ("No active SSE transport found for session " ++ id))
  end.
Proof.
  unfold handleMessagePost.
  destruct (truthy_opt sessionId) as [id|]; [|reflexivity].
  intros A. unfold slotOf. rewrite A.
  destruct (existsb (String.eqb id) ObjectPrototype); reflexivity.
Qed.

(** X23: Opening a session, failing to open it and closing it touch that
    session only: every other id reads as before; and a session whose
    connection failed is not kept. *)
Theorem sse_sessions_are_independent (ip : option string) (sessionId k : string)
  (connect : completion unit) (headersSent : bool) :
  (k <> sessionId ->
   slotOf (fst (fst (handleSseGet sseTransports ip sessionId connect headersSent))) k
   = slotOf sseTransports k
   /\ slotOf (fst (handleSseClose sseTransports sessionId)) k
      = slotOf sseTransports k)
  /\ (forall error : Exn.t,
         connect = Throw error ->
         fst (fst (handleSseGet sseTransports ip sessionId connect headersSent))
         !! sessionId = None).
Proof.
  split.
  - intros N. unfold handleSseGet, handleSseClose. split.
    + destruct connect; cbn [fst].
      * now apply slotOf_insert_ne.
      * rewrite slotOf_delete_ne by exact N. now apply slotOf_insert_ne.
    + cbn [fst]. now apply slotOf_delete_ne.
  - intros error ->. unfold handleSseGet. cbn [fst]. apply lookup_delete_eq.
Qed.

End SseSessions.

Lemma sse_session_lifecycle_witness :
  snd (@handleMessagePost plainRendering
         (fst (fst (@handleSseGet plainRendering ∅ (Some "127.0.0.1")
                      "3f2a9c1e" (Normal tt) true)))
         (Some "3f2a9c1e") (Normal tt) true)
  = Some (LeftTo {| SSEServerTransport.endpoint := "/messages";
                    SSEServerTransport.sessionId := "3f2a9c1e" |})
  /\ @handleMessagePost plainRendering
       (fst (handleSseClose
               (fst (fst (@handleSseGet plainRendering ∅ (Some "127.0.0.1")
                            "3f2a9c1e" (Normal tt) true)))
               "3f2a9c1e"))
       (Some "3f2a9c1e") (Normal tt) true
     = ([console.warn "No active SSE transport found for session 3f2a9c1e"],
        Some (Send 400 "No active SSE transport found for session 3f2a9c1e")).
Proof.
  apply (@sse_session_lifecycle plainRendering ∅ (Some "127.0.0.1") "3f2a9c1e"
           true true (Normal tt)); [discriminate | reflexivity].
Defined.

Lemma unknown_session_is_refused_witness :
  snd (@handleMessagePost plainRendering ∅ (Some "constructor") (Normal tt) false)
  = Some (Send 500 "Error processing message").
Proof.
  apply (@unknown_session_is_refused plainRendering ∅ (Some "constructor")
           (Normal tt) false).
  reflexivity.
Defined.

Lemma sse_sessions_are_independent_witness :
  slotOf (fst (fst (@handleSseGet plainRendering
                      {["a1" := {| SSEServerTransport.endpoint := "/messages";
                                   SSEServerTransport.sessionId := "a1" |}]}
                      None "b2" (Throw (Error_ "closed")) false))) "a1"
  = slotOf {["a1" := {| SSEServerTransport.endpoint := "/messages";
                        SSEServerTransport.sessionId := "a1" |}]} "a1"
  /\ slotOf (fst (handleSseClose
                    {["a1" := {| SSEServerTransport.endpoint := "/messages";
                                 SSEServerTransport.sessionId := "a1" |}]} "b2"))
       "a1"
     = slotOf {["a1" := {| SSEServerTransport.endpoint := "/messages";
                           SSEServerTransport.sessionId := "a1" |}]} "a1".
Proof.
  apply (proj1 (@sse_sessions_are_independent plainRendering _ None "b2" "a1"
                  (Throw (Error_ "closed")) false)).
  discriminate.
Defined.

Section ServeCommand.

Context `{Rendering}.

Lemma trimStart_blank (ws t : string) :
  all_chars isWhiteSpace ws = true -> trimStart (ws ++ t) = trimStart t.
Proof.
  induction ws as [|c ws IH]; [reflexivity|].
  cbn [all_chars]. intros A. apply andb_true_iff in A as [Wc A].
  change (String c ws ++ t)%string with (String c (ws ++ t)).
  cbn [trimStart]. rewrite Wc. exact (IH A).
Qed.

Lemma digitsValue_stop (a : string) (c : ascii) (r : string) :
  JsString.is_digit c = false ->
  forall acc, digitsValue (a ++ String c r) acc = digitsValue a acc.
Proof.
  intros Nc. induction a as [|d a IH]; intros acc.
  - cbn [String.append digitsValue]. now rewrite Nc.
  - change (String d a ++ String c r)%string with (String d (a ++ String c r)).
    cbn [digitsValue]. destruct (JsString.is_digit d); [apply IH | reflexivity].
Qed.

Lemma digitsValue_some (a : string) (n : Z) :
  exists m, digitsValue a (Some n) = Some m.
Proof.
  revert n. induction a as [|d a IH]; intros n; cbn [digitsValue]; [eauto|].
  destruct (JsString.is_digit d); eauto.
Qed.

(** A string that starts with a digit is read from its first character:
    a digit is neither blank nor a sign. *)
Lemma parseInt_digit (d : ascii) (a : string) :
  JsString.is_digit d = true ->
  parseInt (String d a) = JsNumber.ofZ <$> digitsValue (String d a) None.
Proof.
  intros D. destruct d as [[] [] [] [] [] [] [] []];
    try discriminate D; reflexivity.
Qed.

(** X24: The port option is read like [parseInt] reads it: blanks before the
    digits and anything after them are ignored, so a port followed by
    other text starts the server on the same port as the digits alone. *)
Theorem port_is_its_leading_digits (ws digits : string) (c : ascii) (r : string)
  (host file : string) (runServer : string -> JsNumber.t -> string -> completion unit) :
  all_chars isWhiteSpace ws = true ->
  all_chars JsString.is_digit digits = true ->
  digits <> "" ->
  JsString.is_digit c = false ->
  parseInt (ws ++ digits ++ String c r) = parseInt digits
  /\ parseInt digits <> None
  /\ serve {| Options.port := ws ++ digits ++ String c r;
              Options.host := host; Options.file := file |} runServer
     = serve {| Options.port := digits;
                Options.host := host; Options.file := file |} runServer.
Proof.
  intros W A N C.
  destruct digits as [|d a]; [congruence|].
  cbn [all_chars] in A. apply andb_true_iff in A as [D A].
  assert (E : parseInt (ws ++ String d a ++ String c r) = parseInt (String d a)).
  { rewrite (parseInt_digit d a D).
    unfold parseInt. rewrite (trimStart_blank ws _ W).
    change (String d a ++ String c r)%string with (String d (a ++ String c r)).
    fold (parseInt (String d (a ++ String c r))).
    rewrite (parseInt_digit d _ D).
    change (String d (a ++ String c r)) with (String d a ++ String c r)%string.
    now rewrite digitsValue_stop. }
  split; [exact E|]. split.
  - rewrite (parseInt_digit d a D). cbn [digitsValue]. rewrite D.
    destruct (digitsValue_some a
                (10 * default 0 None + Z.of_N (JsString.code d - 48))%Z)
      as [m ->].
    discriminate.
  - unfold serve. cbn [Options.port Options.host Options.file]. now rewrite E.
Qed.

(** X25: [serve] starts the server exactly when the port reads as a number and
    a file path is given; otherwise it prints one error, ends the process
    with status 1 and never calls [runServer]; when it does call it, the
    arguments are the host, the number read and the path. *)
Theorem serve_starts_or_exits (options : Options.t)
  (runServer : string -> JsNumber.t -> string -> completion unit) :
  let served := serve options runServer in
  (Served.ran served = None
   <-> parseInt (Options.port options) = None \/ Options.file options = "")
  /\ (Served.ran served = None ->
      Served.exit served = Some 1%Z /\ length (Served.out served) = 1)
  /\ (forall call, Served.ran served = Some call ->
        exists port,
          parseInt (Options.port options) = Some port
          /\ call = (Options.host options, port, Options.file options)).
Proof.
  cbv zeta. unfold serve.
  destruct (parseInt (Options.port options)) as [port|].
  - destruct (Options.file options) as [|c f] eqn:F; cbn [JsString.truthy negb].
    + cbn [Served.ran Served.exit Served.out]. split; [|split].
      * split; auto.
      * auto.
      * discriminate.
    + destruct (runServer (Options.host options) port (String c f));
        cbn [Served.ran Served.exit Served.out];
        (split; [|split]);
        try (split; [discriminate | intros [D|D]; discriminate D]);
        try discriminate;
        intros call [= <-]; eauto.
  - cbn [Served.ran Served.exit Served.out]. split; [|split].
    + split; auto.
    + auto.
    + discriminate.
Qed.

End ServeCommand.

Lemma port_is_its_leading_digits_witness :
  parseInt " 8080/tcp" = parseInt "8080"
  /\ parseInt "8080" <> None
  /\ @serve plainRendering
       {| Options.port := " 8080/tcp";
          Options.host := "localhost"; Options.file := "petstore.yaml" |}
       (fun _ _ _ => Normal tt)
     = @serve plainRendering
         {| Options.port := "8080";
            Options.host := "localhost"; Options.file := "petstore.yaml" |}
         (fun _ _ _ => Normal tt).
Proof.
  apply (@port_is_its_leading_digits plainRendering " " "8080" "/"%char "tcp"
           "localhost" "petstore.yaml" (fun _ _ _ => Normal tt));
    solve [reflexivity | discriminate].
Defined.

Lemma serve_starts_or_exits_witness :
  Served.exit
    (@serve plainRendering
       {| Options.port := "8080"; Options.host := "localhost"; Options.file := "" |}
       (fun _ _ _ => Normal tt))
  = Some 1%Z
  /\ length (Served.out
               (@serve plainRendering
                  {| Options.port := "8080"; Options.host := "localhost";
                     Options.file := "" |}
                  (fun _ _ _ => Normal tt))) = 1.
Proof.
  apply (proj1 (proj2 (@serve_starts_or_exits plainRendering
                         {| Options.port := "8080"; Options.host := "localhost";
                            Options.file := "" |}
                         (fun _ _ _ => Normal tt)))).
  reflexivity.
Defined.

Section BinaryRoundTrip.

Variable mcpArgs : gmap string value.

(** Only a body parameter sets the request body. *)
Lemma applyParam_keeps_body (d : Draft.t) (p : MCPParameter.t) :
  in_is p "body" = false ->
  Draft.requestBody (applyParam mcpArgs d p) = Draft.requestBody d.
Proof. intros B. rewrite applyParam_requestBody. unfold given. now rewrite B. Qed.

Lemma fold_keeps_body (ps : list MCPParameter.t) :
  forallb (fun q => negb (in_is q "body")) ps = true ->
  forall d : Draft.t,
    Draft.requestBody (fold_left (applyParam mcpArgs) ps d) = Draft.requestBody d.
Proof.
  induction ps as [|q ps IH]; intros A d; [reflexivity|].
  cbn [forallb] in A. apply andb_true_iff in A as [Q A].
  apply negb_true_iff in Q. cbn [fold_left].
  rewrite (IH A). now apply applyParam_keeps_body.
Qed.

(** X26: What a binary download returned can be uploaded as it is: when the
    [data] of the envelope built for a binary response is the argument of
    the last body parameter of an operation, and that parameter has a
    binary schema, the request carries exactly the bytes that were
    received. *)
Theorem downloaded_bytes_upload_unchanged
  (operationDetails : OriginalOperationDetails.t)
  (before after : list MCPParameter.t) (p : MCPParameter.t)
  (contentType : option string) (bytes : list byte) (base : string) :
  OriginalOperationDetails.parameters operationDetails = before ++ p :: after ->
  in_is p "body" = true ->
  isBinarySchema (MCPParameter.schema p) = true ->
  forallb (fun q => negb (in_is q "body")) after = true ->
  lookupArg mcpArgs (MCPParameter.name p)
  = Given (property (binaryResult contentType bytes) "data") ->
  AxiosRequestConfig.data (requestOf base operationDetails mcpArgs) = Bytes bytes.
Proof.
  intros P B S A V.
  unfold requestOf, configOf. cbn [AxiosRequestConfig.data].
  unfold finalDraft. rewrite P, fold_left_app. cbn [fold_left].
  rewrite (fold_keeps_body after A), applyParam_requestBody.
  change (property (binaryResult contentType bytes) "data")
    with (VString (Buffer.toBase64 bytes)) in V.
  unfold given, bodyOf. rewrite B, V, S. cbn [unset isUndefined negb andb].
  now rewrite from_base64_toBase64.
Qed.

End BinaryRoundTrip.

Lemma downloaded_bytes_upload_unchanged_witness :
  AxiosRequestConfig.data
    (requestOf "http://api.example" uploadPhoto
       {["requestBody" := VString "SGVsbG8="]})
  = Bytes [x48; x65; x6c; x6c; x6f].
Proof.
  apply (downloaded_bytes_upload_unchanged
           {["requestBody" := VString "SGVsbG8="]} uploadPhoto []
           [] (parameter "requestBody" "body" true (Some binarySchema))
           (Some "image/png") [x48; x65; x6c; x6c; x6f] "http://api.example");
    reflexivity.
Defined.

(** ** Further theorems at concrete calls *)

Lemma error_forms_witness :
  Exn.response (Error_ "Missing required parameter: petId") = None
  /\ (Exn.message (Error_ "Missing required parameter: petId")
      = "API base URL is not configured. Cannot execute API call."
      \/ (exists p : MCPParameter.t,
             In p (OriginalOperationDetails.parameters getPhoto)
             /\ missing ∅ p = true
             /\ Exn.message (Error_ "Missing required parameter: petId")
                = ("Missing required parameter: " ++ MCPParameter.name p)%string)
      \/ (exists p : MCPParameter.t,
             In p (OriginalOperationDetails.parameters getPhoto)
             /\ unprintable ∅ p = true
             /\ Exn.message (Error_ "Missing required parameter: petId")
                = "Cannot convert object to primitive value")
      \/ (exists cause : Exn.t,
             Exn.message (Error_ "Missing required parameter: petId")
             = ("API call failed. "
                ++ @failureDetail (serverOf (Normal okResponse)) cause)%string)).
Proof.
  apply (@error_forms (serverOf (Normal okResponse)) ∅ getPhoto
           (Some "http://api.example/") World.empty
           (Error_ "Missing required parameter: petId")).
  reflexivity.
Defined.

Lemma request_headers_present_witness :
  is_Some (AxiosRequestConfig.headers
             (requestOf "http://api.example" uploadPhoto ∅) !! "Content-Type").
Proof.
  apply (proj2 (request_headers_present ∅ uploadPhoto "http://api.example")).
  reflexivity.
Defined.

Lemma json_response_passes_through_witness :
  fst (@executeApiCall (serverOf (Normal okResponse))
         (Some "http://api.example/") findPets
         {["status" := VString "sold"; "owner" := VString "ann"]} World.empty)
  = Normal (AxiosResponse.data okResponse).
Proof.
  apply (@json_response_passes_through (serverOf (Normal okResponse))
           {["status" := VString "sold"; "owner" := VString "ann"]} findPets
           (Some "http://api.example/")
           "http://api.example/" World.empty okResponse);
    reflexivity.
Defined.

Lemma encodeURIComponent_safe_witness :
  JsString.includes (encodeURIComponent "a/b?c") "/" = false.
Proof.
  apply (proj2 (encodeURIComponent_safe "a/b?c") "/"%char). reflexivity.
Defined.

Lemma shape_covers_parameters_witness :
  is_Some (paramNamed "limit"
             (internalParamsOf
                (fst (adaptOperation "/pets" listPathItem "get" listOperation [])))).
Proof.
  apply (proj1 (shape_covers_parameters "/pets" "get" listPathItem listOperation
                  []) "limit"); [discriminate|].
  vm_compute. eauto.
Defined.

Section InheritedNames.

Variable mcpArgs : gmap string value.

Lemma inherited_text (name : string) :
  exists text : string, String_arg (Builtin name) = Normal text.
Proof. unfold String_arg. eauto. Qed.


End InheritedNames.


Section StartUp.

Context `{Rendering} `{Platform}.

(** X28: When [SwaggerParser.validate] rejects the file, [parseOpenAPI]
    prints the error and throws [Failed to parse OpenAPI specification: ]
    with the parser's message, and [runServer] prints
    [Failed to initialize or start server:] with that error as its last
    line and ends the process with status 1: no tool is registered and
    no server listens.  And however the start-up goes, either the server
    is set to listen and the process goes on, or the last line printed is
    that of the failure and the process ends with status 1. *)
Theorem parse_failure_ends_the_process (host : string) (port : JsNumber.t)
  (file : string) :
  let started := runServer host port file in
  (forall err : Exn.t,
      SwaggerParser_validate file = Throw err ->
      Started.exit started = Some 1%Z
      /\ Started.infrastructure started = None
      /\ Started.out started
         = [console.log ("Parsing OpenAPI spec from " ++ file);
            console.log ("Parsing and validating OpenAPI file: " ++ file);
            console.error ("Error parsing or validating OpenAPI file " ++ file
                           ++ ": " ++ inspect err);
            console.error
              ("Failed to initialize or start server: "
               ++ inspect (Error_ ("Failed to parse OpenAPI specification: "
                                   ++ Exn.message err)))])
  /\ ((Started.exit started = None
       /\ exists i : Infrastructure.t, Started.infrastructure started = Some i)
      \/ (Started.exit started = Some 1%Z
          /\ Started.infrastructure started = None
          /\ exists e : Exn.t,
               last (Started.out started)
               = Some (console.error
                         ("Failed to initialize or start server: "
                          ++ inspect e)))).
Proof.
  cbv zeta. split.
  - intros err V.
    unfold runServer, createServerInfrastructure, parseOpenAPI.
    unfold bind, print, try_catch, lift, throw, ret. rewrite V.
    cbn. repeat split.
  - unfold runServer.
    match goal with
    | |- context [match ?s World.empty with _ => _ end] =>
        destruct (s World.empty) as [[i|e] w]
    end; cbn.
    + left. split; [reflexivity | eauto].
    + right. repeat split. exists e. apply last_snoc.
Qed.

End StartUp.

Lemma parse_failure_ends_the_process_witness :
  Started.exit
    (@runServer plainRendering unreadable "localhost" (JsNumber.ofZ 8080)
       "petstore.yaml")
  = Some 1%Z.
Proof.
  exact (proj1 (proj1 (@parse_failure_ends_the_process plainRendering unreadable
                         "localhost" (JsNumber.ofZ 8080) "petstore.yaml")
                  (Error_ "ENOENT: no such file or directory, open 'petstore.yaml'")
                  eq_refl)).
Defined.
